(** * ETLSQL: carga de datos a SQL Server con registro de resultados

    Shallow embedding of [src/ETLSQL.py]: the two loaders
    [carga_manual] and [carga_por_archivo], the per-field validation of
    the manual loader, the column reconciliation of the file loader, the
    per-row insert/commit protocol and the log files written at the end
    of a run.

    Python text is modelled as [string], the UTF-8 encoding of the text;
    Python integers as [Z]; dictionaries as [gmap string _]; lists as
    [list]. *)

From Stdlib Require Import ZArith NArith Ascii String DecimalString.
From stdpp Require Import gmap strings list fin_maps.

Local Open Scope string_scope.
Local Open Scope Z_scope.

(** ** Python text *)

Module PyStr.

Definition es_mayuscula_ascii (n : N) : bool :=
  ((65 <=? n) && (n <=? 90))%N.

(** Second byte of the UTF-8 form of U+00C0..U+00DE, the capital
    letters of Latin-1; U+00D7 (the multiplication sign) is no letter. *)
Definition es_mayuscula_latin1 (m : N) : bool :=
  ((128 <=? m) && (m <=? 158) && negb (m =? 151))%N.

(** [str.lower()].  The model is exact on every code point whose lower
    case lies in U+0000..U+00FF: the ASCII and Latin-1 capitals, and
    the four code points above U+00FF that lower-case into that range
    (U+0178, U+1E9E, U+212A, U+212B).  Every other code point is left
    as it is; Python maps those to code points above U+00FF, so the
    comparisons of a lower-cased text with an ASCII or Latin-1 literal,
    the only use the loaders make of it, agree with Python. *)
Fixpoint lower (s : string) : string :=
  match s with
  | EmptyString => EmptyString
  | String c r =>
      let n := N_of_ascii c in
      if es_mayuscula_ascii n then String (ascii_of_N (n + 32)) (lower r)
      else match n, r with
      | 195%N, String d r' =>
          let m := N_of_ascii d in
          if es_mayuscula_latin1 m
          then String c (String (ascii_of_N (m + 32)) (lower r'))
          else String c (String d (lower r'))
      | 197%N, String d r' =>
          if (N_of_ascii d =? 184)%N
          then String (ascii_of_N 195) (String (ascii_of_N 191) (lower r'))
          else String c (String d (lower r'))
      | 225%N, String d (String e r') =>
          if ((N_of_ascii d =? 186) && (N_of_ascii e =? 158))%N
          then String (ascii_of_N 195) (String (ascii_of_N 159) (lower r'))
          else String c (String d (String e (lower r')))
      | 226%N, String d (String e r') =>
          if ((N_of_ascii d =? 132) && (N_of_ascii e =? 170))%N
          then String (ascii_of_N 107) (lower r')
          else if ((N_of_ascii d =? 132) && (N_of_ascii e =? 171))%N
          then String (ascii_of_N 195) (String (ascii_of_N 165) (lower r'))
          else String c (String d (String e (lower r')))
      | _, _ => String c (lower r)
      end
  end.

(** [x in [a, b, ...]] on texts. *)
Definition en_lista (x : string) (l : list string) : bool :=
  bool_decide (x ∈ l).

(** [str(n)] for an integer. *)
Definition str_Z (z : Z) : string := NilZero.string_of_int (Z.to_int z).

Definition str_nat (n : nat) : string := str_Z (Z.of_nat n).

(** [", ".join(l)]. *)
Fixpoint join (sep : string) (l : list string) : string :=
  match l with
  | [] => ""
  | [x] => x
  | x :: r => x +:+ sep +:+ join sep r
  end.

(** Whether [t] occurs in [s] as a contiguous piece. *)
Fixpoint contiene (s t : string) : bool :=
  String.prefix t s ||
  match s with
  | EmptyString => false
  | String _ r => contiene r t
  end.

End PyStr.

(** ** Dates: [datetime.datetime] *)

Module Fecha.

Record datetime := mk_datetime {
  anio : Z; mes : Z; dia : Z;
  hora : Z; minuto : Z; segundo : Z; microsegundo : Z
}.

(** The value of an ASCII decimal digit. *)
Definition digito (c : ascii) : option Z :=
  let n := Z.of_N (N_of_ascii c) in
  if (48 <=? n) && (n <=? 57) then Some (n - 48) else None.

Definition todos_digitos (s : string) : bool :=
  forallb (fun c => bool_decide (is_Some (digito c))) (list_ascii_of_string s).

Definition es_bisiesto (y : Z) : bool :=
  (y mod 4 =? 0) && (negb (y mod 100 =? 0) || (y mod 400 =? 0)).

Definition dias_del_mes (y m : Z) : Z :=
  if m =? 2 then (if es_bisiesto y then 29 else 28)
  else if (m =? 4) || (m =? 6) || (m =? 9) || (m =? 11) then 30
  else 31.

(** The number of bytes of the character whose UTF-8 form starts with
    the byte [c]. *)
Definition largo_utf8 (c : ascii) : nat :=
  let n := N_of_ascii c in
  if (n <? 192)%N then 1%nat
  else if (n <? 224)%N then 2%nat
  else if (n <? 240)%N then 3%nat
  else 4%nat.

(** The first [n] bytes of a text and the text after them. *)
Fixpoint partir (n : nat) (s : string) : option (string * string) :=
  match n with
  | O => Some (EmptyString, s)
  | S k =>
      match s with
      | EmptyString => None
      | String c r =>
          match partir k r with
          | Some (a, b) => Some (String c a, b)
          | None => None
          end
      end
  end.

(** The first character of a text and the text after it. *)
Definition primer_caracter (s : string) : option (string * string) :=
  match s with
  | EmptyString => None
  | String c _ => partir (largo_utf8 c) s
  end.

(** The first of the alternatives that matches. *)
Fixpoint primera {A : Type} (l : list (option A)) : option A :=
  match l with
  | [] => None
  | Some x :: _ => Some x
  | None :: r => primera r
  end.

Definition es_guion (c : ascii) : bool := Ascii.eqb c "-".

Section Strptime.

(** The decimal digits beyond ASCII.  [digito_unicode c], for a
    character [c] of more than one byte, is its value when the Unicode
    database of the interpreter has it as a decimal digit (category Nd),
    as it has the Arabic-Indic and the fullwidth digits; which
    characters these are depends on the version of the database. *)
Variable digito_unicode : string -> option Z.

(** The class [\d] of [re] on a [str]: a decimal digit at the head of
    the text, ASCII or not; its value, as [int] reads it, and the text
    after it. *)
Definition decimal (s : string) : option (Z * string) :=
  match primer_caracter s with
  | Some (String a EmptyString, r) =>
      match digito a with
      | Some v => Some (v, r)
      | None => None
      end
  | Some (c, r) =>
      match digito_unicode c with
      | Some v => Some (v, r)
      | None => None
      end
  | None => None
  end.

(** Directive [%Y], [\d\d\d\d]: four decimal digits. *)
Definition campo_Y (s : string) : option (Z * string) :=
  match decimal s with
  | Some (x, s1) =>
      match decimal s1 with
      | Some (y, s2) =>
          match decimal s2 with
          | Some (z, s3) =>
              match decimal s3 with
              | Some (w, s4) => Some (1000 * x + 100 * y + 10 * z + w, s4)
              | None => None
              end
          | None => None
          end
      | None => None
      end
  | None => None
  end.

(** Directive [%m] followed by the literal [-]: the alternatives
    [1[0-2]], [0[1-9]], [[1-9]], tried in this order; their digits are
    ASCII.  An alternative that matches without a [-] after it makes
    the engine try the next ones. *)
Definition campo_m_dos (s : string) : option (Z * string) :=
  match s with
  | String m1 (String m2 (String g r)) =>
      if es_guion g then
        match digito m1, digito m2 with
        | Some 1, Some d => if d <=? 2 then Some (10 + d, r) else None
        | Some 0, Some d => if 1 <=? d then Some (d, r) else None
        | _, _ => None
        end
      else None
  | _ => None
  end.

Definition campo_m_uno (s : string) : option (Z * string) :=
  match s with
  | String m1 (String g r) =>
      if es_guion g then
        match digito m1 with
        | Some d => if 1 <=? d then Some (d, r) else None
        | None => None
        end
      else None
  | _ => None
  end.

Definition campo_m (s : string) : option (Z * string) :=
  primera [campo_m_dos s; campo_m_uno s].

(** Directive [%d], the last of the pattern: the alternatives
    [3[0-1]], [[1-2]\d], [0[1-9]], [[1-9]] and [ [1-9]], tried in this
    order; the first that matches is the match, whatever comes after
    it.  Only the second character of [[1-2]\d] may be a digit beyond
    ASCII. *)
Definition dia_3x (s : string) : option (Z * string) :=
  match s with
  | String d1 (String d2 r) =>
      match digito d1, digito d2 with
      | Some 3, Some d => if d <=? 1 then Some (30 + d, r) else None
      | _, _ => None
      end
  | _ => None
  end.

Definition dia_12d (s : string) : option (Z * string) :=
  match s with
  | String d1 r =>
      match digito d1 with
      | Some t =>
          if (1 <=? t) && (t <=? 2) then
            match decimal r with
            | Some (d, r') => Some (10 * t + d, r')
            | None => None
            end
          else None
      | None => None
      end
  | _ => None
  end.

Definition dia_0x (s : string) : option (Z * string) :=
  match s with
  | String d1 (String d2 r) =>
      match digito d1, digito d2 with
      | Some 0, Some d => if 1 <=? d then Some (d, r) else None
      | _, _ => None
      end
  | _ => None
  end.

Definition dia_x (s : string) : option (Z * string) :=
  match s with
  | String d1 r =>
      match digito d1 with
      | Some d => if 1 <=? d then Some (d, r) else None
      | None => None
      end
  | _ => None
  end.

Definition dia_espacio (s : string) : option (Z * string) :=
  match s with
  | String d1 (String d2 r) =>
      if Ascii.eqb d1 " " then
        match digito d2 with
        | Some d => if 1 <=? d then Some (d, r) else None
        | None => None
        end
      else None
  | _ => None
  end.

Definition campo_d (s : string) : option (Z * string) :=
  primera [dia_3x s; dia_12d s; dia_0x s; dia_x s; dia_espacio s].

(** [datetime.datetime.strptime(s, "%Y-%m-%d")]: [None] when Python
    raises [ValueError], which it does when the pattern does not match
    at the head of the text, when text remains after the match, and
    when the year is 0 or the day is not one of the month. *)
Definition strptime_Ymd (s : string) : option datetime :=
  match campo_Y s with
  | Some (y, String g r) =>
      if es_guion g then
        match campo_m r with
        | Some (m, r') =>
            match campo_d r' with
            | Some (dd, EmptyString) =>
                if (1 <=? y) && (dd <=? dias_del_mes y m)
                then Some (mk_datetime y m dd 0 0 0 0)
                else None
            | _ => None
            end
        | None => None
        end
      else None
  | _ => None
  end.

End Strptime.

(** Decimal rendering on at least [ancho] digits, as [%02d]. *)
Definition relleno (ancho : nat) (n : Z) : string :=
  let s := PyStr.str_Z n in
  String.concat "" (replicate (ancho - String.length s) "0") +:+ s.

Definition fecha_iso (t : datetime) : string :=
  relleno 4 (anio t) +:+ "-" +:+ relleno 2 (mes t) +:+ "-" +:+ relleno 2 (dia t).

Definition hora_iso (t : datetime) : string :=
  relleno 2 (hora t) +:+ ":" +:+ relleno 2 (minuto t) +:+ ":" +:+ relleno 2 (segundo t).

(** [t.strftime('%Y-%m-%d %H:%M:%S')]. *)
Definition strftime_largo (t : datetime) : string :=
  fecha_iso t +:+ " " +:+ hora_iso t.

(** [t.strftime("%Y%m%d_%H%M%S")]. *)
Definition strftime_compacto (t : datetime) : string :=
  relleno 4 (anio t) +:+ relleno 2 (mes t) +:+ relleno 2 (dia t) +:+ "_" +:+
  relleno 2 (hora t) +:+ relleno 2 (minuto t) +:+ relleno 2 (segundo t).

(** [str(t)]: the microseconds are printed only when they are not 0. *)
Definition str_datetime (t : datetime) : string :=
  strftime_largo t +:+
  (if microsegundo t =? 0 then "" else "." +:+ relleno 6 (microsegundo t)).

End Fecha.

(** ** Values, exceptions and the database connection *)

Definition nl : string := String (ascii_of_nat 10) EmptyString.

Set Implicit Arguments.

Section Carga.

(** The built-ins [int] and [float] and the text of a float are
    Python's; the loaders only need their outcome.  [flotante] are the
    floats that are numbers or infinities; the float that is not a
    number is the missing value [VNa] below.  For [int] and [float],
    [None] stands for a raised [ValueError]; [float] gives [Some None]
    for an entry it reads as NaN, as it does for "nan". *)
Variable flotante : Type.
Variable py_int : string -> option Z.
Variable py_float : string -> option (option flotante).

(** The decimal digits beyond ASCII, as [Fecha.decimal] takes them. *)
Variable digito_unicode : string -> option Z.

Variable str_float : flotante -> string.

(** [f + 1] on floats. *)
Variable suma_uno : flotante -> flotante.

(** A Python scalar: what the operator's validated entry becomes, what
    a cell of the data frame holds, what is bound to a [?] of a
    statement and what a log dictionary stores.  [VNa] is the missing
    value of pandas ([NaN], [None], [NaT]); a float that is not a
    number is [VNa] wherever it comes from.  The cells of a frame are
    scalars: a JSON file whose cells are lists or dictionaries is not
    covered. *)
Inductive valor :=
| VNa
| VInt (z : Z)
| VFloat (f : flotante)
| VStr (s : string)
| VBool (b : bool)
| VFecha (t : Fecha.datetime).

(** [pd.isna(v)]. *)
Definition isna (v : valor) : bool :=
  match v with VNa => true | _ => false end.

(** [str(v)].  The loaders take the text of a missing value only
    where it is a float, the operator's "nan" or a row number. *)
Definition str_valor (v : valor) : string :=
  match v with
  | VNa => "nan"
  | VInt z => PyStr.str_Z z
  | VFloat f => str_float f
  | VStr s => s
  | VBool true => "True"
  | VBool false => "False"
  | VFecha t => Fecha.str_datetime t
  end.

(** The exceptions of a run: those that reach an [except Exception] of
    a row, and the [TypeError] of the row number. *)
Inductive excepcion :=
| ValueError (msg : string)
| KeyError (clave : string)
| TypeError (msg : string)
| ErrorBD (msg : string).

(** [str(e)]. *)
Definition str_exc (e : excepcion) : string :=
  match e with
  | ValueError msg => msg
  | KeyError k => "'" +:+ k +:+ "'"
  | TypeError msg => msg
  | ErrorBD msg => msg
  end.

(** [traceback.format_exc()] inside the handler of [e]. *)
Variable format_exc : excepcion -> string.

(** A statement with the values bound to its [?] marks. *)
Definition registro : Type := string * list valor.

Inductive evento :=
| EvExecute (sentencia : string) (valores : list valor) (aceptada : bool)
| EvCommit.

(** The connection: the rows made durable by a commit, the rows of the
    open transaction, and every call made on the cursor, oldest first. *)
Record conexion := mk_conexion {
  confirmadas : list registro;
  pendientes : list registro;
  historial : list evento
}.

(** The server's verdict on a statement: [Some msg] when the driver
    raises an error of text [msg]. *)
Variable rechazo : conexion -> string -> list valor -> option string.

(** [cursor.execute(sentencia, valores)]. *)
Definition execute (c : conexion) (sentencia : string) (valores : list valor)
  : excepcion + conexion :=
  match rechazo c sentencia valores with
  | Some msg =>
      inl (ErrorBD msg)
  | None =>
      inr (mk_conexion (confirmadas c)
             (pendientes c ++ [(sentencia, valores)])
             (historial c ++ [EvExecute sentencia valores true]))
  end.

(** The connection after an [execute] that raised: nothing is added to
    the transaction, the call is on record. *)
Definition tras_rechazo (c : conexion) (sentencia : string) (valores : list valor)
  : conexion :=
  mk_conexion (confirmadas c) (pendientes c)
    (historial c ++ [EvExecute sentencia valores false]).

(** [cursor.connection.commit()].  SQL Server checks constraints when
    the statement runs, so the commit of an accepted statement goes
    through. *)
Definition commit (c : conexion) : conexion :=
  mk_conexion (confirmadas c ++ pendientes c) [] (historial c ++ [EvCommit]).

(** ** Log files *)

Inductive archivo :=
| ArchivoTexto (nombre contenido : string)
| ArchivoCSV (nombre : string) (fieldnames : list string)
             (rows : list (gmap string valor)).

(** [write_text_log] and [write_csv]: files are named inside [./logs]. *)
Definition write_text_log (path text : string) : archivo :=
  ArchivoTexto path text.

Definition write_csv (path : string) (fieldnames : list string)
    (rows : list (gmap string valor)) : archivo :=
  ArchivoCSV path fieldnames rows.

(** [{k: d.get(k, "") for k in fieldnames}]. *)
Definition completar (fieldnames : list string) (d : gmap string valor)
  : gmap string valor :=
  foldl (fun acc k => <[k := default (VStr "") (d !! k)]> acc) ∅ fieldnames.

(** The managed column: [col.lower() == "bi_ejecucion"]. *)
Definition es_ejecucion (col : string) : bool :=
  bool_decide (PyStr.lower col = "bi_ejecucion").

(** The wall clock: [ahora n] is the [n]-th reading of
    [datetime.datetime.now()] in a run. *)
Variable ahora : nat -> Fecha.datetime.

(** [timestamp_str()], at clock reading [n]. *)
Definition timestamp_str (n : nat) : string := Fecha.strftime_compacto (ahora n).

(** ** [carga_por_archivo] *)

(** The label of a row in the index of a frame, as [df.iterrows()]
    yields it.  The default index has the integers from 0; a file read
    by [read_json], and a CSV file whose rows have one field more than
    its header, can bring labels of its own.  [EtEntero] is an [int]
    (a [bool] adds as the integer it is); [EtReal] a [float], [None]
    when it is NaN; [EtOtra] any label to which Python cannot add an
    integer, a text or a timestamp, with the text of the [TypeError]
    that [idx + 1] raises. *)
Inductive etiqueta :=
| EtEntero (z : Z)
| EtReal (f : option flotante)
| EtOtra (msg : string).

(** [row_num = idx + 1]. *)
Definition numero_de_fila (idx : etiqueta) : excepcion + valor :=
  match idx with
  | EtEntero z => inr (VInt (z + 1))
  | EtReal (Some f) => inr (VFloat (suma_uno f))
  | EtReal None => inr VNa
  | EtOtra msg => inl (TypeError msg)
  end.

(** The data frame read from the file: its column labels, which are
    texts as in a file with a header of names, and, as [df.iterrows()]
    yields them, each row with its index label. *)
Record DataFrame := mk_df {
  df_columns : list string;
  df_filas : list (etiqueta * gmap string valor)
}.

Definition columnas_sin_ejecucion (columnas_sql : list string) : list string :=
  filter (fun col => es_ejecucion col = false) columnas_sql.

Definition columnas_faltantes (sin_ejecucion columnas_archivo : list string)
  : list string :=
  filter (fun col => col ∉ columnas_archivo) sin_ejecucion.

Definition columnas_sobrantes (sin_ejecucion columnas_archivo : list string)
  : list string :=
  filter (fun col => col ∉ sin_ejecucion) columnas_archivo.

Definition no_vacia {A : Type} (l : list A) : bool :=
  match l with [] => false | _ => true end.

(** What is printed when the columns do not match. *)
Definition aviso_columnas (faltantes sobrantes : list string) : list string :=
  [nl +:+ "❌ Las columnas del archivo no coinciden con la tabla."]
  ++ (if no_vacia faltantes
      then "Faltan en el archivo:" :: map (fun col => "  - " +:+ col) faltantes
      else [])
  ++ (if no_vacia sobrantes
      then "No existen en la tabla:" :: map (fun col => "  - " +:+ col) sobrantes
      else [])
  ++ ["Corrija el archivo y vuelva a intentar."].

(** The inner loop of a row: the values of the non-managed columns, in
    order; a missing value raises. *)
Fixpoint recolectar (cols : list string) (fila : gmap string valor)
    (row_num : valor) (valores : list valor) : excepcion + list valor :=
  match cols with
  | [] => inr valores
  | col :: r =>
      match fila !! col with
      | None => inl (KeyError col)
      | Some val =>
          if isna val
          then inl (ValueError ("Campo '" +:+ col +:+ "' en blanco (fila "
                                +:+ str_valor row_num +:+ ")"))
          else recolectar r fila row_num (valores ++ [val])
      end
  end.

Definition sentencia_archivo (nombre_tabla : string) (cols : list string) : string :=
  let placeholders := PyStr.join ", " (map (fun _ => "?") cols) in
  let columnas_insert := PyStr.join ", " cols +:+ ", Bi_ejecucion" in
  "INSERT INTO [" +:+ nombre_tabla +:+ "] (" +:+ columnas_insert
    +:+ ") VALUES (" +:+ placeholders +:+ ", GETDATE())".

(** [row_data] of the handler. *)
Fixpoint datos_fila (cols : list string) (fila : gmap string valor)
    (acc : gmap string valor) : excepcion + gmap string valor :=
  match cols with
  | [] => inr acc
  | col :: r =>
      match fila !! col with
      | None => inl (KeyError col)
      | Some val =>
          datos_fila r fila
            (<[col := VStr (if isna val then "" else str_valor val)]> acc)
      end
  end.

Definition registro_error (clave : string) (numero : valor) (e : excepcion)
    (datos : gmap string valor) : gmap string valor :=
  datos ∪ <[clave := numero]>
            (<["error" := VStr (str_exc e)]>
               (<["traceback" := VStr (format_exc e)]> ∅)).

Record estado_archivo := mk_estado_archivo {
  a_conn : conexion;
  filas_procesadas : nat;
  filas_cargadas : nat;
  a_errores : list (gmap string valor)
}.

(** The [try] block of a row: the connection it leaves and the
    exception it raised, if any. *)
Definition intentar_fila (nombre_tabla : string) (cols : list string)
    (c : conexion) (row_num : valor) (fila : gmap string valor)
  : conexion * option excepcion :=
  match recolectar cols fila row_num [] with
  | inl e => (c, Some e)
  | inr valores =>
      let sentencia := sentencia_archivo nombre_tabla cols in
      match execute c sentencia valores with
      | inl e => (tras_rechazo c sentencia valores, Some e)
      | inr c' => (commit c', None)
      end
  end.

(** One turn of [for idx, fila in df.iterrows()].  The row is counted
    and its number computed before the [try]: an exception of
    [idx + 1] is not caught.  [inl] is an exception that leaves the
    loop, with the state of the loop as it is then. *)
Definition procesar_fila (nombre_tabla : string) (cols : list string)
    (st : estado_archivo) (idx : etiqueta) (fila : gmap string valor)
  : excepcion * estado_archivo + estado_archivo :=
  let procesadas := S (filas_procesadas st) in
  match numero_de_fila idx with
  | inl e =>
      inl (e, mk_estado_archivo (a_conn st) procesadas (filas_cargadas st)
                (a_errores st))
  | inr row_num =>
      match intentar_fila nombre_tabla cols (a_conn st) row_num fila with
      | (c, None) =>
          inr (mk_estado_archivo c procesadas (S (filas_cargadas st)) (a_errores st))
      | (c, Some e) =>
          match datos_fila cols fila ∅ with
          | inl e' =>
              inl (e', mk_estado_archivo c procesadas (filas_cargadas st)
                         (a_errores st))
          | inr row_data =>
              inr (mk_estado_archivo c procesadas (filas_cargadas st)
                     (a_errores st ++ [registro_error "row" row_num e row_data]))
          end
      end
  end.

Fixpoint bucle_archivo (nombre_tabla : string) (cols : list string)
    (filas : list (etiqueta * gmap string valor)) (st : estado_archivo)
  : excepcion * estado_archivo + estado_archivo :=
  match filas with
  | [] => inr st
  | (idx, fila) :: r =>
      match procesar_fila nombre_tabla cols st idx fila with
      | inl e => inl e
      | inr st' => bucle_archivo nombre_tabla cols r st'
      end
  end.

Definition resumen_archivo (nombre_bd nombre_tabla nombre_archivo : string)
    (st : estado_archivo) : string :=
  PyStr.join nl
    [ "Fecha: " +:+ Fecha.strftime_largo (ahora 1);
      "Base de datos: " +:+ nombre_bd;
      "Tabla: " +:+ nombre_tabla;
      "Archivo procesado: " +:+ nombre_archivo;
      "Filas procesadas: " +:+ PyStr.str_nat (filas_procesadas st);
      "Filas cargadas correctamente: " +:+ PyStr.str_nat (filas_cargadas st);
      "Filas con error: " +:+ PyStr.str_nat (length (a_errores st)) ].

(** The log files of a file run that went through all the rows: the
    summary, and the rows that were not loaded if there are any. *)
Definition logs_archivo (nombre_bd nombre_tabla nombre_archivo : string)
    (columnas_sql_sin_ejecucion : list string) (st : estado_archivo)
  : list archivo :=
  let ts := timestamp_str 0 in
  let summary_path := "log_file_" +:+ nombre_tabla +:+ "_" +:+ ts +:+ "_summary.txt" in
  let errors_csv := "log_file_" +:+ nombre_tabla +:+ "_" +:+ ts +:+ "_errors.csv" in
  let fieldnames :=
    (["row"; "error"; "traceback"] ++ columnas_sql_sin_ejecucion)%list in
  write_text_log summary_path
    (resumen_archivo nombre_bd nombre_tabla nombre_archivo st)
  :: (if no_vacia (a_errores st)
      then [write_csv errors_csv fieldnames
              (map (completar fieldnames) (a_errores st))]
      else []).

(** How a file run ends: at the notice of the columns, by an exception
    that nothing catches, with the state of the loop when it was raised,
    or at the end of the rows. *)
Inductive fin_archivo :=
| ColumnasNoCoinciden (impreso : list string)
| ExcepcionNoCapturada (e : excepcion) (st : estado_archivo)
| CargaFinalizada (st : estado_archivo).

(** A run of the file loader: how it ended, the connection it leaves
    and the files it wrote, in order. *)
Record corrida_archivo := mk_corrida_archivo {
  ca_fin : fin_archivo;
  ca_conn : conexion;
  ca_archivos : list archivo
}.

(** [carga_por_archivo], from the point where the database, the table
    and the file have been named and read: [columnas_sql] is
    [cursor.description] of the table, [df] the frame read from the
    file. *)
Definition carga_por_archivo (nombre_bd nombre_tabla nombre_archivo : string)
    (columnas_sql : list string) (df : DataFrame) (c : conexion)
  : corrida_archivo :=
  let columnas_sql_sin_ejecucion := columnas_sin_ejecucion columnas_sql in
  let columnas_archivo := df_columns df in
  let faltantes := columnas_faltantes columnas_sql_sin_ejecucion columnas_archivo in
  let sobrantes := columnas_sobrantes columnas_sql_sin_ejecucion columnas_archivo in
  if no_vacia faltantes || no_vacia sobrantes
  then mk_corrida_archivo
         (ColumnasNoCoinciden (aviso_columnas faltantes sobrantes)) c []
  else
    match bucle_archivo nombre_tabla columnas_sql_sin_ejecucion (df_filas df)
            (mk_estado_archivo c 0 0 []) with
    | inl (e, st) => mk_corrida_archivo (ExcepcionNoCapturada e st) (a_conn st) []
    | inr st =>
        mk_corrida_archivo (CargaFinalizada st) (a_conn st)
          (logs_archivo nombre_bd nombre_tabla nombre_archivo
             columnas_sql_sin_ejecucion st)
    end.

(** ** [carga_manual] *)

(** The outcome of validating one entry: the value, or the exception
    the [try] raised.  [Rechazado (Some msg)] is the loader's own
    [raise ValueError(msg)]; [Rechazado None] is an exception of
    [int], [float] or [strptime], whose text is the library's. *)
Inductive validacion :=
| Aceptado (v : valor)
| Rechazado (motivo : option string).

Definition tipos_enteros : list string := ["int"; "bigint"; "smallint"; "tinyint"].
Definition tipos_reales : list string :=
  ["float"; "real"; "decimal"; "numeric"; "money"; "smallmoney"].
Definition tipos_fecha : list string :=
  ["date"; "datetime"; "smalldatetime"; "datetime2"].

(** The validation by SQL type, on [tipo_sql = tipos[col].lower()]. *)
Definition validar_entrada (tipo_sql entrada : string) : validacion :=
  if PyStr.en_lista tipo_sql tipos_enteros then
    match py_int entrada with
    | Some z => Aceptado (VInt z)
    | None => Rechazado None
    end
  else if PyStr.en_lista tipo_sql tipos_reales then
    match py_float entrada with
    | Some (Some f) => Aceptado (VFloat f)
    | Some None => Aceptado VNa
    | None => Rechazado None
    end
  else if PyStr.en_lista tipo_sql ["bit"] then
    if PyStr.en_lista (PyStr.lower entrada) ["1"; "true"; "sí"; "si"]
    then Aceptado (VInt 1)
    else if PyStr.en_lista (PyStr.lower entrada) ["0"; "false"; "no"]
    then Aceptado (VInt 0)
    else Rechazado (Some "Debe ingresar 1/0 o true/false")
  else if PyStr.en_lista tipo_sql tipos_fecha then
    match Fecha.strptime_Ymd digito_unicode entrada with
    | Some t => Aceptado (VFecha t)
    | None => Rechazado None
    end
  else Aceptado (VStr entrada).

(** [tipos = {col[0]: col[1] for col in esquema}]: a later pair of the
    same name replaces an earlier one. *)
Definition dict_tipos (esquema : list (string * string)) : gmap string string :=
  list_to_map (reverse esquema).

(** [tipos[col]]; every [col] of [columnas] is a key of [tipos]. *)
Definition tipo_de (tipos : gmap string string) (col : string) : string :=
  default "" (tipos !! col).

(** The operator's answers: each element is what one call of
    [input(...).strip()] returns; [input] raises [EOFError] when the
    answers have run out. *)
Definition respuestas : Type := list string.

(** The [while True] of one field: ask until the entry validates.
    [None] is [EOFError]. *)
Fixpoint pedir_campo (tipo_sql : string) (entradas : respuestas)
  : option (valor * respuestas) :=
  match entradas with
  | [] => None
  | entrada :: r =>
      match validar_entrada tipo_sql entrada with
      | Aceptado v => Some (v, r)
      | Rechazado _ => pedir_campo tipo_sql r
      end
  end.

(** [valor_ejecucion] for the managed column, at clock reading [n]. *)
Definition valor_ejecucion (tipo_sql : string) (n : nat) : valor :=
  if PyStr.en_lista tipo_sql ["datetime"; "smalldatetime"; "datetime2"; "date"]
  then VFecha (ahora n)
  else VStr (Fecha.strftime_largo (ahora n) +:+ " Python").

(** [for col in columnas]: the row [fila], its log dictionary
    [fila_dict_for_log], the clock readings made and the answers left. *)
Fixpoint construir_fila (tipos : gmap string string) (cols : list string)
    (lecturas : nat) (entradas : respuestas)
    (fila : list valor) (fila_dict_for_log : gmap string valor)
  : option (list valor * gmap string valor * nat * respuestas) :=
  match cols with
  | [] => Some (fila, fila_dict_for_log, lecturas, entradas)
  | col :: r =>
      let tipo_sql := PyStr.lower (tipo_de tipos col) in
      if es_ejecucion col then
        let v := valor_ejecucion tipo_sql lecturas in
        construir_fila tipos r (S lecturas) entradas (fila ++ [v])
          (<[col := VStr (str_valor v)]> fila_dict_for_log)
      else
        match pedir_campo tipo_sql entradas with
        | None => None
        | Some (v, entradas') =>
            construir_fila tipos r lecturas entradas' (fila ++ [v])
              (<[col := VStr (str_valor v)]> fila_dict_for_log)
        end
  end.

Definition sentencia_manual (nombre_tabla : string) (columnas : list string) : string :=
  let placeholders := PyStr.join ", " (map (fun _ => "?") columnas) in
  "INSERT INTO [" +:+ nombre_tabla +:+ "] VALUES (" +:+ placeholders +:+ ")".

Record estado_manual := mk_estado_manual {
  m_conn : conexion;
  m_lecturas : nat;
  attempt_counter : nat;
  filas_insertadas : nat;
  m_errores : list (gmap string valor);
  filas_insertadas_data : list (gmap string valor)
}.

(** The [try] that inserts the row built for attempt [attempt]. *)
Definition insertar_fila (nombre_tabla : string) (columnas : list string)
    (st : estado_manual) (attempt lecturas : nat)
    (fila : list valor) (fila_dict_for_log : gmap string valor) : estado_manual :=
  let sentencia := sentencia_manual nombre_tabla columnas in
  match execute (m_conn st) sentencia fila with
  | inr c' =>
      mk_estado_manual (commit c') lecturas attempt (S (filas_insertadas st))
        (m_errores st) (filas_insertadas_data st ++ [fila_dict_for_log])
  | inl e =>
      mk_estado_manual (tras_rechazo (m_conn st) sentencia fila) lecturas attempt
        (filas_insertadas st)
        (m_errores st ++
           [registro_error "attempt" (VInt (Z.of_nat attempt)) e fila_dict_for_log])
        (filas_insertadas_data st)
  end.

Inductive fin_bucle :=
| Salio (st : estado_manual)
| FinDeEntrada (c : conexion).

(** The outer [while True].  Every turn reads at least the answer to
    "otra fila?", so [S (length entradas)] turns are never used up;
    [None] is the end of the fuel. *)
Fixpoint bucle_manual (fuel : nat) (nombre_tabla : string)
    (columnas : list string) (tipos : gmap string string)
    (st : estado_manual) (entradas : respuestas) : option fin_bucle :=
  match fuel with
  | O => None
  | S fuel' =>
      let attempt := S (attempt_counter st) in
      match construir_fila tipos columnas (m_lecturas st) entradas [] ∅ with
      | None => Some (FinDeEntrada (m_conn st))
      | Some (fila, fila_dict_for_log, lecturas, entradas1) =>
          let st1 := insertar_fila nombre_tabla columnas st attempt lecturas
                       fila fila_dict_for_log in
          match entradas1 with
          | [] => Some (FinDeEntrada (m_conn st1))
          | continuar :: entradas2 =>
              if bool_decide (PyStr.lower continuar = "s")
              then bucle_manual fuel' nombre_tabla columnas tipos st1 entradas2
              else Some (Salio st1)
          end
      end
  end.

Definition resumen_manual (nombre_bd nombre_tabla : string)
    (st : estado_manual) : string :=
  PyStr.join nl
    [ "Fecha: " +:+ Fecha.strftime_largo (ahora (m_lecturas st));
      "Base de datos: " +:+ nombre_bd;
      "Tabla: " +:+ nombre_tabla;
      "Intentos totales: " +:+ PyStr.str_nat (attempt_counter st);
      "Filas insertadas correctamente: " +:+ PyStr.str_nat (filas_insertadas st);
      "Filas con error: " +:+ PyStr.str_nat (length (m_errores st)) ].

Inductive fin_manual :=
| EOFError
| CargaManualFinalizada (st : estado_manual).

Record corrida_manual := mk_corrida_manual {
  cm_fin : fin_manual;
  cm_conn : conexion;
  cm_archivos : list archivo
}.

(** The log files of a manual run that reached its end. *)
Definition logs_manual (nombre_bd nombre_tabla : string)
    (columnas : list string) (st : estado_manual) : list archivo :=
  let ts := timestamp_str 0 in
  let summary_path := "log_manual_" +:+ nombre_tabla +:+ "_" +:+ ts +:+ "_summary.txt" in
  let inserted_csv := "log_manual_" +:+ nombre_tabla +:+ "_" +:+ ts +:+ "_inserted.csv" in
  let errors_csv := "log_manual_" +:+ nombre_tabla +:+ "_" +:+ ts +:+ "_errors.csv" in
  let fieldnames_err := (["attempt"; "error"; "traceback"] ++ columnas)%list in
  (write_text_log summary_path (resumen_manual nombre_bd nombre_tabla st)
   :: (if no_vacia (filas_insertadas_data st)
       then [write_csv inserted_csv columnas
               (map (completar columnas) (filas_insertadas_data st))]
       else [])
   ++ (if no_vacia (m_errores st)
       then [write_csv errors_csv fieldnames_err
               (map (completar fieldnames_err) (m_errores st))]
       else []))%list.

(** [carga_manual], from the point where the database and the table
    have been named and [esquema], the rows of
    [INFORMATION_SCHEMA.COLUMNS], has been fetched. *)
Definition carga_manual (nombre_bd nombre_tabla : string)
    (esquema : list (string * string)) (entradas : respuestas) (c : conexion)
  : option corrida_manual :=
  let columnas := map fst esquema in
  let tipos := dict_tipos esquema in
  match bucle_manual (S (length entradas)) nombre_tabla columnas tipos
          (mk_estado_manual c 1 0 0 [] []) entradas with
  | None => None
  | Some (FinDeEntrada c') => Some (mk_corrida_manual EOFError c' [])
  | Some (Salio st) =>
      Some (mk_corrida_manual (CargaManualFinalizada st) (m_conn st)
              (logs_manual nombre_bd nombre_tabla columnas st))
  end.

End Carga.

Unset Implicit Arguments.

Arguments VNa {flotante}.
Arguments VInt {flotante} z.
Arguments VStr {flotante} s.
Arguments VBool {flotante} b.
Arguments VFecha {flotante} t.
Arguments EvCommit {flotante}.
Arguments Rechazado {flotante} motivo.
Arguments EOFError {flotante}.
Arguments EtEntero {flotante} z.
Arguments EtOtra {flotante} msg.
Arguments ColumnasNoCoinciden {flotante} impreso.
Arguments ExcepcionNoCapturada {flotante} e st.
Arguments valor_ejecucion {flotante} ahora tipo_sql n.
Arguments write_text_log {flotante} path text.
Arguments ArchivoTexto {flotante} nombre contenido.

(** The frame has a cell in every row for each of its columns (a data
    frame is rectangular). *)
Definition bien_formado {flotante : Type} (df : DataFrame flotante) : bool :=
  forallb (fun '(_, fila) =>
             forallb (fun col => bool_decide (is_Some (fila !! col)))
                     (df_columns df))
          (df_filas df).

(** A label that is a number: Python adds 1 to it. *)
Definition es_numerica {flotante : Type} (idx : etiqueta flotante) : bool :=
  match idx with
  | EtEntero _ | EtReal _ => true
  | EtOtra _ => false
  end.

(** Every label of the index of the frame is a number. *)
Definition indice_numerico {flotante : Type} (df : DataFrame flotante) : bool :=
  forallb (fun '(idx, _) => es_numerica idx) (df_filas df).

(** The labels of the rows are the integers [n], [n + 1], ... *)
Fixpoint indice_desde {flotante : Type} (n : Z)
    (filas : list (etiqueta flotante * gmap string (valor flotante))) : bool :=
  match filas with
  | [] => true
  | (EtEntero z, _) :: r => (z =? n) && indice_desde (n + 1) r
  | _ :: _ => false
  end.

(** The index of the frame is the default one, 0, 1, 2, ... *)
Definition indice_por_defecto {flotante : Type} (df : DataFrame flotante) : bool :=
  indice_desde 0 (df_filas df).

(** Every accepted [execute] of a history is followed at once by a
    commit. *)
Fixpoint commit_inmediato {flotante : Type} (h : list (evento flotante)) : bool :=
  match h with
  | [] => true
  | EvExecute _ _ true :: r =>
      match r with
      | EvCommit :: _ => commit_inmediato r
      | _ => false
      end
  | _ :: r => commit_inmediato r
  end.

(** The pattern YYYY-MM-DD as the specification words it: four digits, a
    dash, two digits, a dash, two digits, and nothing else. *)
Definition formato_YYYY_MM_DD (s : string) : bool :=
  match list_ascii_of_string s with
  | [a; b; c; d; g1; m1; m2; g2; d1; d2] =>
      forallb (fun x => bool_decide (is_Some (Fecha.digito x))) [a; b; c; d; m1; m2; d1; d2]
      && Fecha.es_guion g1 && Fecha.es_guion g2
  | _ => false
  end.

(** The text of the error the manual loader raises for a [bit] entry. *)
Definition mensaje_bit : string := "Debe ingresar 1/0 o true/false".

(** The text [c] is one character, a decimal digit of value [v]. *)
Definition es_decimal (digito_unicode : string -> option Z) (c : string) (v : Z)
  : Prop :=
  Fecha.decimal digito_unicode c = Some (v, EmptyString).

(** The ways a month is written for [%m], with the month each stands
    for. *)
Definition meses_escritos : list (string * Z) :=
  [ ("10", 10); ("11", 11); ("12", 12);
    ("01", 1); ("02", 2); ("03", 3); ("04", 4); ("05", 5); ("06", 6);
    ("07", 7); ("08", 8); ("09", 9);
    ("1", 1); ("2", 2); ("3", 3); ("4", 4); ("5", 5); ("6", 6);
    ("7", 7); ("8", 8); ("9", 9) ].

(** The ways a day is written for [%d] that do not start with 1 or 2
    followed by a digit, with the day each stands for. *)
Definition dias_escritos : list (string * Z) :=
  [ ("30", 30); ("31", 31);
    ("01", 1); ("02", 2); ("03", 3); ("04", 4); ("05", 5); ("06", 6);
    ("07", 7); ("08", 8); ("09", 9);
    ("1", 1); ("2", 2); ("3", 3); ("4", 4); ("5", 5); ("6", 6);
    ("7", 7); ("8", 8); ("9", 9);
    (" 1", 1); (" 2", 2); (" 3", 3); (" 4", 4); (" 5", 5); (" 6", 6);
    (" 7", 7); (" 8", 8); (" 9", 9) ].

(** The day [d] as [%d] reads it from the text [D], matched to its end:
    one of the ways above, or 1 or 2 followed by a decimal digit. *)
Definition dia_escrito (digito_unicode : string -> option Z) (D : string) (d : Z)
  : Prop :=
  (D, d) ∈ dias_escritos
  ∨ ∃ c v, es_decimal digito_unicode c v
           ∧ ((D = "1" +:+ c ∧ d = 10 + v) ∨ (D = "2" +:+ c ∧ d = 20 + v)).

(** ** Concrete surroundings for the examples *)

Module Ejemplo.

(** Floats stand as their text. *)
Definition flotante : Type := string.

(** [int] on the numerals the examples use. *)
Definition py_int (s : string) : option Z :=
  match s with
  | "7" => Some 7
  | "8" => Some 8
  | "-1" => Some (-1)
  | _ => None
  end.

Definition py_float (s : string) : option (option flotante) :=
  match s with
  | "1.5" => Some (Some "1.5")
  | "nan" => Some None
  | _ => None
  end.

(** The Arabic-Indic digits, U+0660 to U+0669, and the fullwidth
    digits, U+FF10 to U+FF19. *)
Definition digito_unicode (c : string) : option Z :=
  match c with
  | String a (String b EmptyString) =>
      let n := Z.of_N (N_of_ascii b) in
      if (N_of_ascii a =? 217)%N && (160 <=? n) && (n <=? 169)
      then Some (n - 160) else None
  | String a (String b (String d EmptyString)) =>
      let n := Z.of_N (N_of_ascii d) in
      if (N_of_ascii a =? 239)%N && (N_of_ascii b =? 188)%N
         && (144 <=? n) && (n <=? 153)
      then Some (n - 144) else None
  | _ => None
  end.

Definition str_float (f : flotante) : string := f.

Definition suma_uno (f : flotante) : flotante :=
  match f with
  | "0.5" => "1.5"
  | "1.5" => "2.5"
  | _ => "inf"
  end.

Definition format_exc (e : excepcion) : string :=
  "Traceback (most recent call last): " +:+ str_exc e.

(** A server with the constraint CHECK (x >= 0) on the integers. *)
Definition rechaza_negativos (c : conexion flotante) (sentencia : string)
    (valores : list (valor flotante)) : option string :=
  if existsb (fun v => match v with VInt z => z <? 0 | _ => false end) valores
  then Some "The INSERT statement conflicted with the CHECK constraint."
  else None.

Definition ahora (n : nat) : Fecha.datetime :=
  Fecha.mk_datetime 2024 3 5 12 0 (Z.of_nat n) 0.

Definition conexion_nueva : conexion flotante := mk_conexion [] [] [].

(** Three rows for (id, name); the id of the second is blank. *)
Definition df_tres : DataFrame flotante :=
  mk_df ["id"; "name"]
    [ (EtEntero 0, {[ "id" := VInt 1; "name" := VStr "Ana" ]});
      (EtEntero 1, {[ "id" := VNa; "name" := VStr "Luis" ]});
      (EtEntero 2, {[ "id" := VInt 3; "name" := VStr "Eva" ]}) ].

(** One row whose date is written with slashes. *)
Definition df_fecha : DataFrame flotante :=
  mk_df ["alta"] [ (EtEntero 0, {[ "alta" := VStr "2024/03/05" ]}) ].

Definition archivo_tres : corrida_archivo flotante :=
  carga_por_archivo str_float suma_uno format_exc rechaza_negativos ahora
    "ventas" "T" "datos.csv" ["id"; "name"; "BI_EJECUCION"] df_tres conexion_nueva.

Definition archivo_fecha : corrida_archivo flotante :=
  carga_por_archivo str_float suma_uno format_exc rechaza_negativos ahora
    "ventas" "T" "datos.csv" ["alta"; "Bi_ejecucion"] df_fecha conexion_nueva.

(** The text of the [TypeError] that Python raises for ['a' + 1]. *)
Definition error_texto_mas_entero : string :=
  "can only concatenate str (not " +:+ String (ascii_of_nat 34) "int"
    +:+ String (ascii_of_nat 34) ") to str".

(** The frame that [read_json] makes of a file that keys its rows by
    text, [{"id": {"a": 1, "b": 2}, "name": {"a": "Ana", "b": "Luis"}}]:
    the row labels are the texts [a] and [b]. *)
Definition df_json : DataFrame flotante :=
  mk_df ["id"; "name"]
    [ (EtOtra error_texto_mas_entero, {[ "id" := VInt 1; "name" := VStr "Ana" ]});
      (EtOtra error_texto_mas_entero, {[ "id" := VInt 2; "name" := VStr "Luis" ]}) ].

Definition archivo_json : corrida_archivo flotante :=
  carga_por_archivo str_float suma_uno format_exc rechaza_negativos ahora
    "ventas" "T" "datos.json" ["id"; "name"; "Bi_ejecucion"] df_json conexion_nueva.

Definition esquema_T : list (string * string) :=
  [("id", "int"); ("name", "varchar"); ("Bi_ejecucion", "datetime")].

(** The operator mistypes the id, corrects it, enters a second row that
    the server refuses, and stops. *)
Definition manual_dos : option (corrida_manual flotante) :=
  carga_manual py_int py_float digito_unicode str_float format_exc rechaza_negativos ahora
    "ventas" "T" esquema_T ["x"; "7"; "Ana"; "s"; "-1"; "Luis"; "n"]
    conexion_nueva.

End Ejemplo.

(** * orgarchivos: sorting the files of a folder by type *)

Module OrgArchivos.

Definition extensiones_fotos : list string :=
  [".jpg"; ".jpeg"; ".png"; ".gif"; ".bmp"; ".tiff"; ".webp"].
Definition extensiones_audio : list string := [".mp3"; ".wav"; ".flac"; ".aac"; ".m4a"].
Definition extensiones_excel : list string := [".xls"; ".xlsx"; ".xlsm"; ".csv"].
Definition extensiones_word : list string := [".doc"; ".docx"; ".rtf"; ".odt"].
Definition extensiones_powerbi : list string := [".pbix"].
Definition extenciones_pdf : list string := [".pdf"].
Definition extensiones_otros : list string := [].

(** The subfolders [organizar_archivos] creates. *)
Definition carpetas : list string :=
  ["fotos"; "audio"; "excel"; "word"; "powerbi"; "pdf"; "otros"].

Definition es_punto (c : ascii) : bool := Ascii.eqb c ".".

(** The text cut at its last dot: what is before the dot, and the rest
    from the dot on; [None] when there is no dot. *)
Fixpoint cortar_ultimo_punto (p : string) : option (string * string) :=
  match p with
  | EmptyString => None
  | String c r =>
      match cortar_ultimo_punto r with
      | Some (a, b) => Some (String c a, b)
      | None => if es_punto c then Some (EmptyString, p) else None
      end
  end.

(** Some character of the text is not a dot. *)
Definition tiene_no_punto (s : string) : bool :=
  existsb (fun c => negb (es_punto c)) (list_ascii_of_string s).

(** No character of the text is a dot. *)
Definition sin_puntos (s : string) : bool :=
  forallb (fun c => negb (es_punto c)) (list_ascii_of_string s).

(** [os.path.splitext(p)] for a name that [os.listdir] gives, which has
    no path separator: the extension starts at the last dot, unless only
    dots come before it. *)
Definition splitext (p : string) : string * string :=
  match cortar_ultimo_punto p with
  | Some (a, b) => if tiene_no_punto a then (a, b) else (p, EmptyString)
  | None => (p, EmptyString)
  end.

(** The subfolder [organizar_archivos] moves the file [archivo] to. *)
Definition carpeta_destino (archivo : string) : string :=
  let extension := PyStr.lower (snd (splitext archivo)) in
  if PyStr.en_lista extension extensiones_fotos then "fotos"
  else if PyStr.en_lista extension extensiones_audio then "audio"
  else if PyStr.en_lista extension extensiones_excel then "excel"
  else if PyStr.en_lista extension extensiones_word then "word"
  else if PyStr.en_lista extension extensiones_powerbi then "powerbi"
  else "otros".

(** The tests of the dispatch, in order: a list of extensions and the
    subfolder of the files that have one of them. *)
Definition despacho : list (list string * string) :=
  [ (extensiones_fotos, "fotos"); (extensiones_audio, "audio");
    (extensiones_excel, "excel"); (extensiones_word, "word");
    (extensiones_powerbi, "powerbi") ].

End OrgArchivos.


(** * The rest of ETLSQL: naming the database and the table, creating a table *)

Set Implicit Arguments.

Section Operaciones.

Variable flotante : Type.
Variable py_int : string -> option Z.
Variable py_float : string -> option (option flotante).
Variable digito_unicode : string -> option Z.
Variable str_float : flotante -> string.
Variable suma_uno : flotante -> flotante.
Variable format_exc : excepcion -> string.
Variable rechazo : conexion flotante -> string -> list (valor flotante) -> option string.
Variable ahora : nat -> Fecha.datetime.

(** The catalog, as the server answers while the operation runs:
    whether [SELECT name FROM sys.databases WHERE name = ?] finds the
    name, and whether, in the database in use,
    [SELECT name FROM sys.tables WHERE name = ?] finds it.  These reads
    and [USE] leave the rows of the connection as they are; the history
    of the connection keeps the statements that write, and these are not
    entered in it. *)
Variable existe_bd : string -> bool.
Variable existe_tabla : string -> string -> bool.

(** [validar_base_datos]: ask until the name is one of a database; then
    [USE] makes it the database in use.  [None] is [EOFError]. *)
Fixpoint validar_base_datos (entradas : respuestas) : option (string * respuestas) :=
  match entradas with
  | [] => None
  | nombre_bd :: r =>
      if existe_bd nombre_bd then Some (nombre_bd, r) else validar_base_datos r
  end.

(** [validar_tabla], with [bd] the database in use. *)
Fixpoint validar_tabla (bd : string) (entradas : respuestas)
  : option (string * respuestas) :=
  match entradas with
  | [] => None
  | nombre_tabla :: r =>
      if existe_tabla bd nombre_tabla then Some (nombre_tabla, r)
      else validar_tabla bd r
  end.

(** ** [crear_tabla] *)

(** The first loop: ask until the name is of no table. *)
Fixpoint pedir_tabla_nueva (bd : string) (entradas : respuestas)
  : option (string * respuestas) :=
  match entradas with
  | [] => None
  | nombre_tabla :: r =>
      if existe_tabla bd nombre_tabla then pedir_tabla_nueva bd r
      else Some (nombre_tabla, r)
  end.

(** The second loop: ask until [int] takes the answer and the number is
    at least 1. *)
Fixpoint pedir_cantidad (entradas : respuestas) : option (Z * respuestas) :=
  match entradas with
  | [] => None
  | entrada :: r =>
      match py_int entrada with
      | Some cantidad => if cantidad <? 1 then pedir_cantidad r else Some (cantidad, r)
      | None => pedir_cantidad r
      end
  end.

(** [for i in range(1, cantidad + 1)]: a name and a type for each field. *)
Fixpoint pedir_campos (n : nat) (entradas : respuestas)
  : option (list (string * string) * respuestas) :=
  match n with
  | O => Some ([], entradas)
  | S k =>
      match entradas with
      | nombre :: tipo :: r =>
          match pedir_campos k r with
          | Some (campos, r') => Some ((nombre, tipo) :: campos, r')
          | None => None
          end
      | _ => None
      end
  end.

(** [s.rstrip(chars)]: the text without the characters of [chars] at its
    end. *)
Fixpoint rstrip (chars : string) (s : string) : string :=
  match s with
  | EmptyString => EmptyString
  | String c r =>
      match rstrip chars r with
      | EmptyString =>
          if existsb (Ascii.eqb c) (list_ascii_of_string chars)
          then EmptyString else String c EmptyString
      | r' => String c r'
      end
  end.

(** The line of a field in the statement. *)
Definition linea_campo (campo : string * string) : string :=
  "    [" +:+ fst campo +:+ "] " +:+ snd campo +:+ "," +:+ nl.

(** The [CREATE TABLE] statement built from the fields. *)
Definition sentencia_crear (nombre_tabla : string) (campos : list (string * string))
  : string :=
  let sentencia :=
    fold_left (fun s campo => s +:+ linea_campo campo) campos
      ("CREATE TABLE [" +:+ nombre_tabla +:+ "] (" +:+ nl) in
  rstrip ("," +:+ nl) sentencia +:+ nl +:+ ");".

Definition campo_control : string * string := ("Bi_controlorigen", "VARCHAR(100)").

Inductive fin_crear :=
| CrearSinRespuestas
| TablaCreada (nombre_bd nombre_tabla sentencia : string)
| ErrorAlCrear (nombre_bd nombre_tabla sentencia : string) (e : excepcion).

(** A run of [crear_tabla]: how it ended, the connection it leaves and
    the answers it did not read. *)
Record corrida_crear := mk_corrida_crear {
  cc_fin : fin_crear;
  cc_conn : conexion flotante;
  cc_resto : respuestas
}.

Definition crear_tabla (entradas : respuestas) (c : conexion flotante) : corrida_crear :=
  match validar_base_datos entradas with
  | None => mk_corrida_crear CrearSinRespuestas c []
  | Some (nombre_bd, r1) =>
      match pedir_tabla_nueva nombre_bd r1 with
      | None => mk_corrida_crear CrearSinRespuestas c []
      | Some (nombre_tabla, r2) =>
          match pedir_cantidad r2 with
          | None => mk_corrida_crear CrearSinRespuestas c []
          | Some (cantidad, r3) =>
              match pedir_campos (Z.to_nat cantidad) r3 with
              | None => mk_corrida_crear CrearSinRespuestas c []
              | Some (campos, r4) =>
                  let sentencia :=
                    sentencia_crear nombre_tabla (campos ++ [campo_control]) in
                  match execute rechazo c sentencia [] with
                  | inr c1 =>
                      mk_corrida_crear
                        (TablaCreada nombre_bd nombre_tabla sentencia) (commit c1) r4
                  | inl e =>
                      mk_corrida_crear
                        (ErrorAlCrear nombre_bd nombre_tabla sentencia e)
                        (tras_rechazo c sentencia []) r4
                  end
              end
          end
      end
  end.

(** ** The loaders, from the first question *)

(** The rows of [INFORMATION_SCHEMA.COLUMNS] for a table of a database;
    [None] when the query raises. *)
Variable esquema_de : string -> string -> option (list (string * string)).

Inductive fin_manual_completa :=
| ManualSinRespuestas
| ManualErrorEsquema (nombre_bd nombre_tabla : string)
| ManualCorrida (nombre_bd nombre_tabla : string)
    (esquema : list (string * string)) (run : corrida_manual flotante).

(** The whole of [carga_manual]: the database and the table are named,
    the schema is fetched, and the rows are entered. *)
Definition carga_manual_completa (entradas : respuestas) (c : conexion flotante)
  : option fin_manual_completa :=
  match validar_base_datos entradas with
  | None => Some ManualSinRespuestas
  | Some (nombre_bd, r1) =>
      match validar_tabla nombre_bd r1 with
      | None => Some ManualSinRespuestas
      | Some (nombre_tabla, r2) =>
          match esquema_de nombre_bd nombre_tabla with
          | None => Some (ManualErrorEsquema nombre_bd nombre_tabla)
          | Some esquema =>
              match carga_manual py_int py_float digito_unicode str_float format_exc rechazo ahora
                      nombre_bd nombre_tabla esquema r2 c with
              | Some run => Some (ManualCorrida nombre_bd nombre_tabla esquema run)
              | None => None
              end
          end
      end
  end.

(** [s.endswith(sufijo)]. *)
Fixpoint endswith (s sufijo : string) : bool :=
  String.eqb s sufijo
  || match s with
     | EmptyString => false
     | String _ r => endswith r sufijo
     end.

Inductive lector := LeerExcel | LeerCsv | LeerTxt | LeerJson.

(** The reader of pandas chosen by the name of the file. *)
Definition lector_de (archivo : string) : option lector :=
  let a := PyStr.lower archivo in
  if endswith a ".xls" || endswith a ".xlsx" then Some LeerExcel
  else if endswith a ".csv" then Some LeerCsv
  else if endswith a ".txt" then Some LeerTxt
  else if endswith a ".json" then Some LeerJson
  else None.

(** What the reader gives for the file [archivo] of the folder [ruta];
    [None] when it raises. *)
Variable leer : lector -> string -> string -> option (DataFrame flotante).

(** The names in [cursor.description] after [SELECT TOP 0 * FROM [tabla]]
    in the database in use; [None] when the query raises. *)
Variable columnas_de : string -> string -> option (list string).

Inductive fin_archivo_completa :=
| ArchivoSinRespuestas
| FormatoNoSoportado (archivo : string)
| ErrorAlLeer (archivo : string)
| ErrorColumnas (nombre_tabla : string)
| ArchivoCorrida (nombre_bd nombre_tabla : string) (columnas_sql : list string)
    (run : corrida_archivo flotante).

(** The whole of [carga_por_archivo]: the database, the table, the
    folder and the file are named, the file is read, the columns of the
    table are fetched, and the rows are loaded. *)
Definition carga_por_archivo_completa (entradas : respuestas) (c : conexion flotante)
  : fin_archivo_completa :=
  match validar_base_datos entradas with
  | None => ArchivoSinRespuestas
  | Some (nombre_bd, r1) =>
      match validar_tabla nombre_bd r1 with
      | None => ArchivoSinRespuestas
      | Some (nombre_tabla, r2) =>
          match r2 with
          | ruta :: archivo :: _ =>
              match lector_de archivo with
              | None => FormatoNoSoportado archivo
              | Some l =>
                  match leer l ruta archivo with
                  | None => ErrorAlLeer archivo
                  | Some df =>
                      match columnas_de nombre_bd nombre_tabla with
                      | None => ErrorColumnas nombre_tabla
                      | Some columnas_sql =>
                          ArchivoCorrida nombre_bd nombre_tabla columnas_sql
                            (carga_por_archivo str_float suma_uno format_exc rechazo ahora
                               nombre_bd nombre_tabla archivo columnas_sql df c)
                      end
                  end
              end
          | _ => ArchivoSinRespuestas
          end
      end
  end.

End Operaciones.

Unset Implicit Arguments.

Arguments ManualSinRespuestas {flotante}.
Arguments ManualErrorEsquema {flotante} nombre_bd nombre_tabla.
Arguments ArchivoSinRespuestas {flotante}.
Arguments FormatoNoSoportado {flotante} archivo.
Arguments ErrorAlLeer {flotante} archivo.
Arguments ErrorColumnas {flotante} nombre_tabla.

(** ** Vocabulary of the further statements *)

(** The number of [execute] calls of a history. *)
Fixpoint ejecuciones {flotante : Type} (h : list (evento flotante)) : nat :=
  match h with
  | [] => 0
  | EvExecute _ _ _ :: r => S (ejecuciones r)
  | EvCommit :: r => ejecuciones r
  end.

(** What became of a row of the file: it was loaded, or it raised [e]
    and was logged with the cells [datos]. *)
Inductive resultado_fila (flotante : Type) :=
| FilaCargada
| FilaFallida (e : excepcion) (datos : gmap string (valor flotante)).
Arguments FilaCargada {flotante}.
Arguments FilaFallida {flotante} e datos.

(** The rows committed by a file run whose rows ended as [rs], and the
    records of its error log, both in the order of the file. *)
Definition cargadas_segun {flotante : Type} (sentencia : string) (cols : list string)
    (filas : list (etiqueta flotante * gmap string (valor flotante)))
    (rs : list (resultado_fila flotante)) : list (registro flotante) :=
  omap (fun '(f, r) =>
          match r with
          | FilaCargada => Some (sentencia, omap (fun col => snd f !! col) cols)
          | FilaFallida _ _ => None
          end) (zip filas rs).

Definition errores_segun {flotante : Type} (suma_uno : flotante -> flotante)
    (format_exc : excepcion -> string)
    (filas : list (etiqueta flotante * gmap string (valor flotante)))
    (rs : list (resultado_fila flotante)) : list (gmap string (valor flotante)) :=
  omap (fun '(f, r) =>
          match r, numero_de_fila suma_uno (fst f) with
          | FilaFallida e datos, inr row_num =>
              Some (registro_error format_exc "row" row_num e datos)
          | _, _ => None
          end) (zip filas rs).

(** Why a row of the file fails: a column of the row is blank, the
    columns before it are not, and the exception is the loader's
    [ValueError] naming that column and the row; or no column is blank and
    the exception is the error of the driver. *)
Definition causa_de_fallo {flotante : Type} (str_float : flotante -> string)
    (cols : list string) (fila : gmap string (valor flotante))
    (row_num : valor flotante) (e : excepcion) : Prop :=
  (∃ pre col post v,
      cols = (pre ++ col :: post)%list
      ∧ (∀ c, c ∈ pre -> ∃ w, fila !! c = Some w ∧ isna w = false)
      ∧ fila !! col = Some v ∧ isna v = true
      ∧ e = ValueError ("Campo '" +:+ col +:+ "' en blanco (fila "
                        +:+ str_valor str_float row_num +:+ ")"))
  ∨ ((∀ c, c ∈ cols -> ∃ w, fila !! c = Some w ∧ isna w = false)
     ∧ ∃ msg, e = ErrorBD msg).

(** What a result says of its row. *)
Definition resultado_de {flotante : Type} (str_float : flotante -> string)
    (suma_uno : flotante -> flotante) (cols : list string)
    (f : etiqueta flotante * gmap string (valor flotante))
    (r : resultado_fila flotante) : Prop :=
  match r with
  | FilaCargada =>
      ∀ col, col ∈ cols -> ∃ v, snd f !! col = Some v ∧ isna v = false
  | FilaFallida e d =>
      (∃ row_num, numero_de_fila suma_uno (fst f) = inr row_num
                  ∧ causa_de_fallo str_float cols (snd f) row_num e)
      ∧ datos_fila str_float cols (snd f) ∅ = inr d
  end.

(** A field as the statement declares it. *)
Definition campo_sql (campo : string * string) : string :=
  "    [" +:+ fst campo +:+ "] " +:+ snd campo.

(** The last character of a text. *)
Fixpoint ultimo (s : string) : option ascii :=
  match s with
  | EmptyString => None
  | String c EmptyString => Some c
  | String _ r => ultimo r
  end.

(** The name a log file is written under. *)
Definition nombre_de_archivo {flotante : Type} (f : archivo flotante) : string :=
  match f with
  | ArchivoTexto nombre _ => nombre
  | ArchivoCSV nombre _ _ => nombre
  end.

(** ** Concrete surroundings for the further examples *)

Module EjemploOperaciones.

(** A server with the databases ventas and rrhh; ventas has the table T. *)
Definition existe_bd (nombre : string) : bool :=
  bool_decide (nombre ∈ ["ventas"; "rrhh"]).

Definition existe_tabla (bd nombre : string) : bool :=
  bool_decide ((bd, nombre) ∈ [("ventas", "T")]).

Definition py_int_cantidad (s : string) : option Z :=
  match s with
  | "0" => Some 0
  | "2" => Some 2
  | _ => Ejemplo.py_int s
  end.

(** The operator misspells the database, names a table that exists,
    then a new one, asks for no field, then for two. *)
Definition respuestas_crear : respuestas :=
  ["vnetas"; "ventas"; "T"; "clientes"; "dos"; "0"; "2";
   "id"; "INT"; "nombre"; "VARCHAR(50)"; "3"].

Definition crear_clientes : corrida_crear Ejemplo.flotante :=
  crear_tabla py_int_cantidad Ejemplo.rechaza_negativos existe_bd existe_tabla
    respuestas_crear Ejemplo.conexion_nueva.

(** The columns of the table [clientes] as [crear_tabla] declares
    them. *)
Definition columnas_clientes : list string := ["id"; "nombre"; "Bi_controlorigen"].

(** A file for [clientes] that writes a name with a capital and has no
    column for the control field. *)
Definition df_clientes : DataFrame Ejemplo.flotante :=
  mk_df ["id"; "Nombre"]
    [ (EtEntero 0, {[ "id" := VInt 1; "Nombre" := VStr "Ana" ]}) ].

(** A table with a column named [error]; the id of the one row of the
    file is blank. *)
Definition df_con_error : DataFrame Ejemplo.flotante :=
  mk_df ["id"; "error"]
    [ (EtEntero 0, {[ "id" := VNa; "error" := VStr "E42" ]}) ].

(** The clock of [Ejemplo], a quarter of a second later. *)
Definition ahora_despues (n : nat) : Fecha.datetime :=
  Fecha.mk_datetime 2024 3 5 12 0 (Z.of_nat n) 250000.

End EjemploOperaciones.

(** * Properties *)

(** ** The loaders *)

Section Propiedades.

Context {flotante : Type}.
Variable py_int : string -> option Z.
Variable py_float : string -> option (option flotante).
Variable digito_unicode : string -> option Z.
Variable str_float : flotante -> string.
Variable suma_uno : flotante -> flotante.
Variable format_exc : excepcion -> string.
Variable rechazo : conexion flotante -> string -> list (valor flotante) -> option string.
Variable ahora : nat -> Fecha.datetime.

Local Abbreviation dict := (gmap string (valor flotante)).

(** *** Vocabulary of the statements *)

(** The row has a cell for each column of [cols]. *)
Definition fila_completa (cols : list string) (fila : dict) : Prop :=
  ∀ col, col ∈ cols -> is_Some (fila !! col).

(** How a cell is written in the log of a row. *)
Definition celda_log (v : valor flotante) : valor flotante :=
  VStr (if isna v then "" else str_valor str_float v).

(** The cells of a row, in column order. *)
Definition celdas (cols : list string) (fila : dict) : list (valor flotante) :=
  omap (fun col => fila !! col) cols.

(** No cell of the row is missing or blank. *)
Definition sin_blancos (cols : list string) (fila : dict) : Prop :=
  ∀ col, col ∈ cols -> ∃ v, fila !! col = Some v ∧ isna v = false.

Definition mensaje_blanco (col : string) (row_num : valor flotante) : string :=
  "Campo '" +:+ col +:+ "' en blanco (fila " +:+ str_valor str_float row_num +:+ ")".

(** The rows the server took, among the calls [h]. *)
Definition aceptadas (h : list (evento flotante)) : list (registro flotante) :=
  omap (fun ev => match ev with
                  | EvExecute s v true => Some (s, v)
                  | _ => None
                  end) h.

Definition evento_cumple (P : string -> list (valor flotante) -> Prop)
    (ev : evento flotante) : Prop :=
  match ev with
  | EvExecute s v _ => P s v
  | EvCommit => True
  end.

(** [c'] is [c] after some rows: the calls made in between are [nuevos];
    every accepted [execute] among them was committed at once, each
    [execute] satisfies [P], the committed rows of [c] are still there,
    in place, and nothing is left uncommitted. *)
Definition avance (P : string -> list (valor flotante) -> Prop)
    (c c' : conexion flotante) (nuevos : list (evento flotante)) : Prop :=
  historial c' = (historial c ++ nuevos)%list
  ∧ commit_inmediato nuevos = true
  ∧ Forall (evento_cumple P) nuevos
  ∧ confirmadas c `prefix_of` confirmadas c'
  ∧ (pendientes c = [] ->
     pendientes c' = [] ∧ confirmadas c' = (confirmadas c ++ aceptadas nuevos)%list).

(** The statement and values of a row of the file that reaches the
    server. *)
Definition envio_de (nombre_tabla : string) (cols : list string) (fila : dict)
    (s : string) (v : list (valor flotante)) : Prop :=
  s = sentencia_archivo nombre_tabla cols ∧ v = celdas cols fila
  ∧ sin_blancos cols fila.

(** The record of a row of the file that was not loaded. *)
Definition error_de (cols : list string) (idx : etiqueta flotante) (fila : dict)
    (r : dict) : Prop :=
  ∃ row_num e d,
    numero_de_fila suma_uno idx = inr row_num
    ∧ r = registro_error format_exc "row" row_num e d
    ∧ datos_fila str_float cols fila ∅ = inr d.

Definition envio_de_alguna (nombre_tabla : string) (cols : list string)
    (filas : list (etiqueta flotante * dict)) (s : string)
    (v : list (valor flotante)) : Prop :=
  ∃ idx fila, (idx, fila) ∈ filas ∧ envio_de nombre_tabla cols fila s v.

Definition error_de_alguna (cols : list string)
    (filas : list (etiqueta flotante * dict)) (r : dict) : Prop :=
  ∃ idx fila, (idx, fila) ∈ filas ∧ error_de cols idx fila r.

(** The state of the loop of the file loader when it ends, at the end
    of the rows or at an exception. *)
Definition estado_al_salir
    (r : excepcion * estado_archivo flotante + estado_archivo flotante)
  : estado_archivo flotante :=
  match r with
  | inl (_, st) => st
  | inr st => st
  end.

(** The state of a turn of the loop at the exception of a row number. *)
Definition estado_en_etiqueta (st : estado_archivo flotante)
  : estado_archivo flotante :=
  mk_estado_archivo (a_conn st) (S (filas_procesadas st)) (filas_cargadas st)
    (a_errores st).

(** What a manual row holds for a column: for the managed column the
    value made from a reading of the clock, for any other column a
    validated entry of the operator. *)
Definition valor_de_columna (tipos : gmap string string) (col : string)
    (x : valor flotante) : Prop :=
  if es_ejecucion col
  then ∃ n, x = valor_ejecucion ahora (PyStr.lower (tipo_de tipos col)) n
  else ∃ entrada,
         validar_entrada py_int py_float digito_unicode (PyStr.lower (tipo_de tipos col)) entrada
         = Aceptado x.

(** What the log dictionary of a manual row holds for a column. *)
Definition log_de_columna (tipos : gmap string string) (d : dict) (col : string)
  : Prop :=
  ∃ x, valor_de_columna tipos col x ∧ d !! col = Some (VStr (str_valor str_float x)).

(** A row snapshot of the manual loader: one entry for every column
    of the table, the managed one included. *)
Definition instantanea_manual (columnas : list string) (tipos : gmap string string)
    (d : dict) : Prop :=
  dom d = list_to_set columnas ∧ ∀ col, col ∈ columnas -> log_de_columna tipos d col.

Definition error_manual (columnas : list string) (tipos : gmap string string)
    (r : dict) : Prop :=
  ∃ attempt e d, r = registro_error format_exc "attempt" (VInt attempt) e d
                 ∧ instantanea_manual columnas tipos d.

Definition envio_manual (nombre_tabla : string) (columnas : list string)
    (tipos : gmap string string) (s : string) (v : list (valor flotante)) : Prop :=
  s = sentencia_manual nombre_tabla columnas
  ∧ Forall2 (valor_de_columna tipos) columnas v.

(** The invariant of the outer loop of the manual loader, at the head
    of a turn. *)
Definition inv_manual (columnas : list string) (tipos : gmap string string)
    (st : estado_manual flotante) : Prop :=
  attempt_counter st = (filas_insertadas st + length (m_errores st))%nat
  ∧ length (filas_insertadas_data st) = filas_insertadas st
  ∧ Forall (instantanea_manual columnas tipos) (filas_insertadas_data st)
  ∧ Forall (error_manual columnas tipos) (m_errores st).

Definition conexion_de (fin : fin_bucle flotante) : conexion flotante :=
  match fin with
  | Salio st => m_conn st
  | FinDeEntrada c => c
  end.

(** What the manual loader binds to the statement of a row: one value
    per column of the table; for the managed column a reading of the
    client's clock, as a [datetime] or as its text followed by
    [" Python"]. *)
Definition envio_con_marca_cliente (nombre_tabla : string) (columnas : list string)
    (s : string) (v : list (valor flotante)) : Prop :=
  s = sentencia_manual nombre_tabla columnas
  ∧ Forall2 (fun col x =>
               es_ejecucion col = true ->
               ∃ n, x = VFecha (ahora n)
                    ∨ x = VStr (Fecha.strftime_largo (ahora n) +:+ " Python"))
      columnas v.

(** What the file loader binds to the statement of a row: the cells of
    the row for the non-managed columns, and nothing else. *)
Definition envio_sin_marca (nombre_tabla : string) (cols : list string)
    (filas : list (etiqueta flotante * dict)) (s : string)
    (v : list (valor flotante)) : Prop :=
  s = sentencia_archivo nombre_tabla cols
  ∧ length v = length cols
  ∧ ∃ idx fila, (idx, fila) ∈ filas ∧ v = celdas cols fila.

(** No condition on the statement. *)
Definition cualquiera (s : string) (v : list (valor flotante)) : Prop := True.

(** *** Reconciliation *)

Lemma no_vacia_false {A : Type} (l : list A) : no_vacia l = false <-> l = [].
Proof. destruct l; simpl; split; congruence. Qed.

Lemma filter_vacio {A : Type} (P : A -> Prop) `{!∀ x, Decision (P x)} (l : list A) :
  filter P l = [] <-> ∀ x, x ∈ l -> ¬ P x.
Proof.
  split.
  - intros Hnil x Hx HP. eapply filter_nil_not_elem_of; eauto.
  - intros Hno. induction l as [|a l IH]; [done|].
    rewrite filter_cons_False.
    + apply IH. intros x Hx. apply Hno. by right.
    + apply Hno. by left.
Qed.

Lemma faltantes_vacio (sin arch : list string) :
  columnas_faltantes sin arch = [] <-> ∀ col, col ∈ sin -> col ∈ arch.
Proof.
  unfold columnas_faltantes. rewrite filter_vacio. split.
  - intros H col Hc. destruct (decide (col ∈ arch)); [done|]. by destruct (H col Hc).
  - intros H col Hc Hn. by apply Hn, H.
Qed.

Lemma sobrantes_vacio (sin arch : list string) :
  columnas_sobrantes sin arch = [] <-> ∀ col, col ∈ arch -> col ∈ sin.
Proof. apply faltantes_vacio. Qed.

Lemma coinciden_iff (sin arch : list string) :
  no_vacia (columnas_faltantes sin arch) || no_vacia (columnas_sobrantes sin arch) = false
  <-> ∀ col, col ∈ arch <-> col ∈ sin.
Proof.
  rewrite orb_false_iff, !no_vacia_false, faltantes_vacio, sobrantes_vacio.
  split; [intros [H1 H2] col; split; auto | intros H; split; intros col; apply H].
Qed.

Lemma en_sin_ejecucion (columnas_sql : list string) (col : string) :
  col ∈ columnas_sin_ejecucion columnas_sql
  <-> col ∈ columnas_sql ∧ PyStr.lower col ≠ "bi_ejecucion".
Proof.
  unfold columnas_sin_ejecucion, es_ejecucion.
  rewrite list_elem_of_filter, bool_decide_eq_false. tauto.
Qed.

(** *** The loop of the file loader *)

Lemma fila_completa_cons col cols (fila : dict) :
  fila_completa (col :: cols) fila ->
  is_Some (fila !! col) ∧ fila_completa cols fila.
Proof.
  intros Hc. split; [apply Hc; by left | intros k Hk; apply Hc; by right].
Qed.

Lemma bien_formado_completa (df : DataFrame flotante) (cols : list string) :
  bien_formado df = true ->
  (∀ col, col ∈ cols -> col ∈ df_columns df) ->
  Forall (fun '(_, fila) => fila_completa cols fila) (df_filas df).
Proof.
  unfold bien_formado. intros Hwf Hsub.
  rewrite forallb_forall in Hwf. apply Forall_forall.
  intros [idx fila] Hin col Hcol.
  apply list_elem_of_In, Hwf in Hin. simpl in Hin.
  rewrite forallb_forall in Hin.
  specialize (Hin col). rewrite bool_decide_eq_true in Hin.
  apply Hin, list_elem_of_In, Hsub, Hcol.
Qed.

Lemma datos_fila_total cols (fila acc : dict) :
  fila_completa cols fila -> ∃ d, datos_fila str_float cols fila acc = inr d.
Proof.
  revert acc. induction cols as [|col cols IH]; intros acc Hc; simpl.
  - by eexists.
  - apply fila_completa_cons in Hc as [[v Hv] Hc]. rewrite Hv. by apply IH.
Qed.

Lemma datos_fila_lookup cols (fila acc d : dict) (k : string) :
  datos_fila str_float cols fila acc = inr d ->
  d !! k = if decide (k ∈ cols) then celda_log <$> fila !! k else acc !! k.
Proof.
  revert acc. induction cols as [|col cols IH]; intros acc Hd; simpl in Hd.
  - inversion Hd; subst. case_decide as Hk; [by apply elem_of_nil in Hk | done].
  - destruct (fila !! col) as [val|] eqn:Hval; [|done].
    rewrite (IH _ Hd). destruct (decide (k ∈ cols)) as [Hin|Hnin].
    + rewrite decide_True; [done | by right].
    + destruct (decide (k = col)) as [->|Hne].
      * rewrite decide_True by (by left).
        rewrite lookup_insert_eq, Hval. done.
      * rewrite decide_False by (by intros [?|?]%elem_of_cons).
        by rewrite lookup_insert_ne.
Qed.

Lemma datos_fila_dom cols (fila d : dict) :
  datos_fila str_float cols fila ∅ = inr d ->
  dom d = list_to_set cols.
Proof.
  intros Hd. apply set_eq. intros k.
  rewrite elem_of_dom, elem_of_list_to_set, (datos_fila_lookup _ _ _ _ k Hd).
  case_decide as Hk.
  - split; [done | intros _].
    assert (Hs : is_Some (fila !! k)).
    { clear -Hd Hk. revert Hd. generalize (∅ : dict).
      induction cols as [|col cols IH]; intros acc Hd; simpl in Hd;
        [by apply elem_of_nil in Hk|].
      destruct (fila !! col) eqn:Hv; [|done].
      apply elem_of_cons in Hk as [->|Hk]; [by rewrite Hv | by eapply IH]. }
    destruct Hs as [v ->]. by eexists.
  - rewrite lookup_empty. split; [by intros [? ?] | done].
Qed.

Lemma recolectar_sin_blancos cols (fila : dict) row_num valores :
  sin_blancos cols fila ->
  recolectar str_float cols fila row_num valores = inr (valores ++ celdas cols fila)%list.
Proof.
  revert valores. induction cols as [|col cols IH]; intros valores Hs; simpl.
  - by rewrite app_nil_r.
  - destruct (Hs col) as (v & Hv & Hna); [by left|].
    unfold celdas. simpl. rewrite Hv, Hna. fold (celdas cols fila).
    rewrite IH; [by rewrite <- app_assoc | intros k Hk; apply Hs; by right].
Qed.

Lemma recolectar_blanco pre col post (fila : dict) v row_num valores :
  sin_blancos pre fila ->
  fila !! col = Some v -> isna v = true ->
  recolectar str_float (pre ++ col :: post) fila row_num valores
  = inl (ValueError (mensaje_blanco col row_num)).
Proof.
  revert valores. induction pre as [|p pre IH]; intros valores Hs Hv Hna; simpl.
  - by rewrite Hv, Hna.
  - destruct (Hs p) as (w & Hw & Hnw); [by left|]. rewrite Hw, Hnw.
    apply IH; [intros k Hk; apply Hs; by right | done | done].
Qed.

Lemma recolectar_error_no_bd cols (fila : dict) row_num valores e :
  recolectar str_float cols fila row_num valores = inl e -> ∀ msg, e ≠ ErrorBD msg.
Proof.
  revert valores. induction cols as [|col cols IH]; intros valores He msg; simpl in He.
  - done.
  - destruct (fila !! col) as [v|]; [|by inversion He].
    destruct (isna v); [by inversion He | by eapply IH].
Qed.

(** *** What a run does to the connection *)

Lemma aceptadas_app (a b : list (evento flotante)) :
  aceptadas (a ++ b) = (aceptadas a ++ aceptadas b)%list.
Proof. apply omap_app. Qed.

Lemma commit_inmediato_app (a b : list (evento flotante)) :
  commit_inmediato a = true -> commit_inmediato b = true ->
  commit_inmediato (a ++ b) = true.
Proof.
  induction a as [|ev a IH]; intros Ha Hb; [done|].
  destruct ev as [s v [|]|]; simpl in *; [|by apply IH|by apply IH].
  destruct a as [|[| ] a]; [done|done|]. simpl. by apply IH.
Qed.

Ltac partes_avance := unfold avance; refine (conj _ (conj _ (conj _ (conj _ _)))).

Lemma avance_refl P c : avance P c c [].
Proof.
  partes_avance; try done.
  - by rewrite app_nil_r.
  - intros Hp. simpl. by rewrite app_nil_r.
Qed.

Lemma avance_trans P c1 c2 c3 n1 n2 :
  avance P c1 c2 n1 -> avance P c2 c3 n2 -> avance P c1 c3 (n1 ++ n2).
Proof.
  intros (Hh1 & Hc1 & Hf1 & Hp1 & He1) (Hh2 & Hc2 & Hf2 & Hp2 & He2).
  partes_avance.
  - by rewrite Hh2, Hh1, app_assoc.
  - by apply commit_inmediato_app.
  - by apply Forall_app.
  - by etrans.
  - intros Hp. destruct (He1 Hp) as [Hpe Hco]. destruct (He2 Hpe) as [Hpe2 Hco2].
    split; [done|].
    by rewrite aceptadas_app, Hco2, Hco, app_assoc.
Qed.

Lemma avance_rechazo (P : string -> list (valor flotante) -> Prop) c s v :
  P s v -> avance P c (tras_rechazo c s v) [EvExecute s v false].
Proof.
  intros HP. unfold tras_rechazo. partes_avance; simpl; try done.
  - by apply Forall_singleton.
  - intros Hp. by rewrite app_nil_r.
Qed.

Lemma avance_aceptada (P : string -> list (valor flotante) -> Prop) c c1 s v :
  P s v -> execute rechazo c s v = inr c1 ->
  avance P c (commit c1) [EvExecute s v true; EvCommit].
Proof.
  intros HP Hex. unfold execute in Hex.
  destruct (rechazo c s v); [done|]. inversion Hex; subst; clear Hex.
  unfold commit. partes_avance; simpl; try done.
  - by rewrite <- app_assoc.
  - repeat constructor; done.
  - by apply prefix_app_r.
  - intros ->. by rewrite app_nil_l.
Qed.

Lemma execute_rechazada c s v e :
  execute rechazo c s v = inl e -> ∃ msg, rechazo c s v = Some msg ∧ e = ErrorBD msg.
Proof.
  unfold execute. destruct (rechazo c s v) as [msg|]; [|done].
  intros He. inversion He. by eexists.
Qed.

Lemma avance_mono (P Q : string -> list (valor flotante) -> Prop) c c' nuevos :
  (∀ s v, P s v -> Q s v) -> avance P c c' nuevos -> avance Q c c' nuevos.
Proof.
  intros HPQ (Hh & Hc & Hf & Hp & He). partes_avance; try done.
  eapply Forall_impl; [exact Hf|]. intros [s v b|]; simpl; auto.
Qed.

Lemma recolectar_inr cols (fila : dict) row_num valores out :
  recolectar str_float cols fila row_num valores = inr out ->
  sin_blancos cols fila ∧ out = (valores ++ celdas cols fila)%list.
Proof.
  revert valores. induction cols as [|col cols IH]; intros valores Hr; simpl in Hr.
  - inversion Hr; subst. split; [by intros k Hk%elem_of_nil | by rewrite app_nil_r].
  - destruct (fila !! col) as [v|] eqn:Hv; [|done].
    destruct (isna v) eqn:Hna; [done|].
    apply IH in Hr as [Hs ->]. split.
    + intros k [->|Hk]%elem_of_cons; [by exists v | by apply Hs].
    + unfold celdas. simpl. rewrite Hv. by rewrite <- app_assoc.
Qed.

Section Bucle.

Variable nombre_tabla : string.
Variable cols : list string.

Local Abbreviation procesar :=
  (procesar_fila str_float suma_uno format_exc rechazo nombre_tabla cols).
Local Abbreviation bucle :=
  (bucle_archivo str_float suma_uno format_exc rechazo nombre_tabla cols).

Lemma es_numerica_numero (idx : etiqueta flotante) :
  es_numerica idx = true -> ∃ row_num, numero_de_fila suma_uno idx = inr row_num.
Proof. destruct idx as [z|[f|]|msg]; [by eexists..|done]. Qed.

Lemma procesar_fila_paso st idx (fila : dict) :
  es_numerica idx = true ->
  fila_completa cols fila ->
  ∃ st' nuevos,
    procesar st idx fila = inr st'
    ∧ filas_procesadas st' = S (filas_procesadas st)
    ∧ avance (envio_de nombre_tabla cols fila) (a_conn st) (a_conn st') nuevos
    ∧ ((filas_cargadas st' = S (filas_cargadas st)
        ∧ a_errores st' = a_errores st
        ∧ aceptadas nuevos = [(sentencia_archivo nombre_tabla cols, celdas cols fila)])
       ∨ (filas_cargadas st' = filas_cargadas st
          ∧ aceptadas nuevos = []
          ∧ ∃ r, a_errores st' = (a_errores st ++ [r])%list ∧ error_de cols idx fila r)).
Proof.
  intros [row_num Hn]%es_numerica_numero Hc.
  destruct (datos_fila_total cols fila ∅ Hc) as [d Hd].
  unfold procesar_fila, intentar_fila. rewrite Hn.
  destruct (recolectar str_float cols fila row_num []) as [e|valores] eqn:Hr.
  - rewrite Hd. eexists _, []. split; [done|]. simpl.
    split; [done|]. split; [apply avance_refl|]. right.
    split; [done|]. split; [done|]. eexists. split; [done|]. by exists row_num, e, d.
  - apply recolectar_inr in Hr as [Hs ->]. simpl.
    destruct (execute rechazo (a_conn st) _ _) as [e|c1] eqn:Hex.
    + rewrite Hd. eexists _, _. split; [done|]. simpl.
      split; [done|]. split; [by apply avance_rechazo|]. right.
      split; [done|]. split; [done|]. eexists. split; [done|]. by exists row_num, e, d.
    + eexists _, _. split; [done|]. simpl.
      split; [done|]. split; [by eapply avance_aceptada|]. by left.
Qed.

(** A label that is not a number ends the loop at its row: the row is
    counted, and nothing else is done. *)
Lemma procesar_fila_etiqueta st msg (fila : dict) :
  procesar st (EtOtra msg) fila = inl (TypeError msg, estado_en_etiqueta st).
Proof. reflexivity. Qed.

Lemma bucle_archivo_app l1 l2 st :
  bucle (l1 ++ l2) st
  = match bucle l1 st with
    | inl e => inl e
    | inr st1 => bucle l2 st1
    end.
Proof.
  revert st. induction l1 as [|[idx fila] l1 IH]; intros st; simpl; [done|].
  destruct (procesar st idx fila); [done | apply IH].
Qed.

Lemma bucle_archivo_efecto filas st :
  Forall (fun '(idx, _) => es_numerica idx = true) filas ->
  Forall (fun '(_, fila) => fila_completa cols fila) filas ->
  ∃ st' nuevos errores_nuevos,
    bucle filas st = inr st'
    ∧ filas_procesadas st' = (filas_procesadas st + length filas)%nat
    ∧ (filas_cargadas st' + length (a_errores st')
       = filas_cargadas st + length (a_errores st) + length filas)%nat
    ∧ avance (envio_de_alguna nombre_tabla cols filas) (a_conn st) (a_conn st') nuevos
    ∧ (filas_cargadas st' = filas_cargadas st + length (aceptadas nuevos))%nat
    ∧ a_errores st' = (a_errores st ++ errores_nuevos)%list
    ∧ Forall (error_de_alguna cols filas) errores_nuevos.
Proof.
  revert st. induction filas as [|[idx fila] filas IH]; intros st Hn Hf.
  - exists st, [], []. simpl. rewrite !app_nil_r.
    repeat (split; [first [done | lia | apply avance_refl]|]). done.
  - apply Forall_cons in Hn as [Hnum Hn]. apply Forall_cons in Hf as [Hfila Hf].
    destruct (procesar_fila_paso st idx fila Hnum Hfila)
      as (st1 & n1 & Hp & Hproc & Hav & Hcaso).
    destruct (IH st1 Hn Hf)
      as (st' & n2 & errs & Hb & Hproc' & Hsum & Hav' & Hcar & Herr & Hall).
    assert (Hav1 : avance (envio_de_alguna nombre_tabla cols ((idx, fila) :: filas))
                     (a_conn st) (a_conn st1) n1).
    { eapply avance_mono; [|exact Hav]. intros s v Hsv.
      exists idx, fila. split; [by left | done]. }
    assert (Hav2 : avance (envio_de_alguna nombre_tabla cols ((idx, fila) :: filas))
                     (a_conn st1) (a_conn st') n2).
    { eapply avance_mono; [|exact Hav']. intros s v (i & f & Hin & Hsv).
      exists i, f. split; [by right | done]. }
    assert (Hall' : Forall (error_de_alguna cols ((idx, fila) :: filas)) errs).
    { eapply Forall_impl; [exact Hall|]. intros r (i & f & Hin & Hr).
      exists i, f. split; [by right | done]. }
    simpl. rewrite Hp.
    destruct Hcaso as [(Hc1 & He1 & Ha1) | (Hc1 & Ha1 & r & He1 & Hr)].
    + exists st', (n1 ++ n2)%list, errs.
      split; [done|]. split; [lia|]. split; [rewrite He1 in Hsum; lia|].
      split; [by eapply avance_trans|].
      split.
      { rewrite aceptadas_app, length_app, Ha1. simpl. lia. }
      split; [by rewrite Herr, He1 | done].
    + exists st', (n1 ++ n2)%list, (r :: errs).
      split; [done|]. split; [lia|].
      split; [rewrite He1, length_app in Hsum; simpl in Hsum; lia|].
      split; [by eapply avance_trans|].
      split.
      { rewrite aceptadas_app, length_app, Ha1. simpl. lia. }
      split; [by rewrite Herr, He1, <- app_assoc|].
      apply Forall_cons. split; [|done].
      exists idx, fila. split; [by left | done].
Qed.

(** The rows of a frame up to the first label that is not a number. *)
Lemma particion_etiquetas (filas : list (etiqueta flotante * dict)) :
  Forall (fun '(idx, _) => es_numerica idx = true) filas
  ∨ ∃ antes msg fila despues,
      filas = (antes ++ (EtOtra msg, fila) :: despues)%list
      ∧ Forall (fun '(idx, _) => es_numerica idx = true) antes.
Proof.
  induction filas as [|[idx fila] filas [IH|(antes & msg & f & despues & -> & Hn)]].
  - by left.
  - destruct idx as [z|r|msg].
    + left. by constructor.
    + left. by constructor.
    + right. by exists [], msg, fila, filas.
  - destruct idx as [z|r|msg0].
    + right. exists ((EtEntero z, fila) :: antes), msg, f, despues.
      split; [done | by constructor].
    + right. exists ((EtReal r, fila) :: antes), msg, f, despues.
      split; [done | by constructor].
    + right. by exists [], msg0, fila, (antes ++ (EtOtra msg, f) :: despues)%list.
Qed.

(** The loop over a frame with a label that is not a number: the rows
    before it are gone through, and the loop ends at its row. *)
Lemma bucle_archivo_cortado antes msg (fila : dict) despues st st1 :
  bucle antes st = inr st1 ->
  bucle (antes ++ (EtOtra msg, fila) :: despues) st
  = inl (TypeError msg, estado_en_etiqueta st1).
Proof. intros Hb. by rewrite bucle_archivo_app, Hb. Qed.

(** The loop over any rows, whatever their labels: what it has done
    when it ends, at the end of the rows or at a row number that cannot
    be computed. *)
Lemma bucle_archivo_total filas st :
  Forall (fun '(_, fila) => fila_completa cols fila) filas ->
  ∃ nuevos errores_nuevos,
    avance (envio_de_alguna nombre_tabla cols filas) (a_conn st)
      (a_conn (estado_al_salir (bucle filas st))) nuevos
    ∧ (filas_cargadas (estado_al_salir (bucle filas st))
       = filas_cargadas st + length (aceptadas nuevos))%nat
    ∧ a_errores (estado_al_salir (bucle filas st))
      = (a_errores st ++ errores_nuevos)%list
    ∧ Forall (error_de_alguna cols filas) errores_nuevos.
Proof.
  intros Hf.
  destruct (particion_etiquetas filas)
    as [Hn|(antes & msg & fila & despues & -> & Hn)].
  - destruct (bucle_archivo_efecto filas st Hn Hf)
      as (st' & nuevos & errs & Hb & _ & _ & Hav & Hcar & Herr & Hall).
    exists nuevos, errs. by rewrite Hb.
  - apply Forall_app in Hf as [Hf _].
    destruct (bucle_archivo_efecto antes st Hn Hf)
      as (st' & nuevos & errs & Hb & _ & _ & Hav & Hcar & Herr & Hall).
    exists nuevos, errs.
    rewrite (bucle_archivo_cortado antes msg fila despues st st' Hb). simpl.
    split; [|split; [done|split; [done|]]].
    + eapply avance_mono; [|exact Hav]. intros s v (i & f & Hin & Hsv).
      exists i, f. split; [|done]. apply elem_of_app. by left.
    + eapply Forall_impl; [exact Hall|]. intros r (i & f & Hin & Hr).
      exists i, f. split; [|done]. apply elem_of_app. by left.
Qed.

(** A row without blanks whose label is a number reaches the server:
    its statement and its cells are the next call on the cursor. *)
Lemma procesar_fila_envia st idx (fila : dict) :
  es_numerica idx = true ->
  fila_completa cols fila ->
  sin_blancos cols fila ->
  ∃ st' b,
    procesar st idx fila = inr st'
    ∧ historial (a_conn st')
      = (historial (a_conn st)
         ++ EvExecute (sentencia_archivo nombre_tabla cols) (celdas cols fila) b
            :: (if b then [EvCommit] else []))%list.
Proof.
  intros [row_num Hn]%es_numerica_numero Hc Hs.
  destruct (datos_fila_total cols fila ∅ Hc) as [d Hd].
  unfold procesar_fila, intentar_fila. rewrite Hn.
  rewrite (recolectar_sin_blancos _ _ _ _ Hs). simpl.
  unfold execute. destruct (rechazo (a_conn st) _ _) as [msg|].
  - rewrite Hd. eexists _, false. split; [done|]. done.
  - eexists _, true. split; [done|]. simpl. by rewrite <- app_assoc.
Qed.

Lemma bucle_archivo_envia filas st idx (fila : dict) :
  Forall (fun '(idx, _) => es_numerica idx = true) filas ->
  Forall (fun '(_, fila) => fila_completa cols fila) filas ->
  (idx, fila) ∈ filas ->
  sin_blancos cols fila ->
  ∃ st' b,
    bucle filas st = inr st'
    ∧ EvExecute (sentencia_archivo nombre_tabla cols) (celdas cols fila) b
      ∈ historial (a_conn st').
Proof.
  intros Hn Hf Hin Hs.
  apply list_elem_of_split in Hin as (l1 & l2 & ->).
  apply Forall_app in Hn as [Hn1 Hn2]. apply Forall_cons in Hn2 as [Hni Hn2].
  apply Forall_app in Hf as [Hf1 Hf2]. apply Forall_cons in Hf2 as [Hfi Hf2].
  destruct (bucle_archivo_efecto l1 st Hn1 Hf1) as (st1 & n1 & e1 & Hb1 & _).
  destruct (procesar_fila_envia st1 idx fila Hni Hfi Hs) as (st2 & b & Hp & Hh).
  destruct (bucle_archivo_efecto l2 st2 Hn2 Hf2)
    as (st3 & n3 & e3 & Hb3 & _ & _ & (Hh3 & _) & _).
  exists st3, b. rewrite bucle_archivo_app, Hb1. simpl. rewrite Hp.
  split; [done|]. rewrite Hh3, Hh.
  apply elem_of_app. left. apply elem_of_app. right. by left.
Qed.

End Bucle.

(** *** The loop of the manual loader *)

Lemma pedir_campo_Some tipo_sql entradas v r :
  pedir_campo py_int py_float digito_unicode tipo_sql entradas = Some (v, r) ->
  (∃ entrada, entrada ∈ entradas
              ∧ validar_entrada py_int py_float digito_unicode tipo_sql entrada = Aceptado v)
  ∧ (length r < length entradas)%nat.
Proof.
  induction entradas as [|entrada entradas IH]; simpl; [done|].
  destruct (validar_entrada py_int py_float digito_unicode tipo_sql entrada) as [w|m] eqn:Hv.
  - intros [= -> ->]. split; [|lia]. exists entrada. split; [by left | done].
  - intros Hp. destruct (IH Hp) as [(e & He & Hve) Hl]. split; [|lia].
    exists e. split; [by right | done].
Qed.

Section Manual.

Variable nombre_tabla : string.
Variable columnas : list string.
Variable tipos : gmap string string.

Lemma construir_fila_Some cols lecturas entradas (fila : list (valor flotante))
    (log : dict) fila' log' lecturas' entradas' :
  construir_fila py_int py_float digito_unicode str_float ahora tipos cols lecturas entradas fila log
  = Some (fila', log', lecturas', entradas') ->
  (∃ vs, fila' = (fila ++ vs)%list ∧ Forall2 (valor_de_columna tipos) cols vs)
  ∧ dom log' = dom log ∪ list_to_set cols
  ∧ (∀ col, col ∈ cols -> log_de_columna tipos log' col)
  ∧ (∀ col, col ∉ cols -> log' !! col = log !! col)
  ∧ (length entradas' <= length entradas)%nat.
Proof.
  revert lecturas entradas fila log.
  induction cols as [|col cols IH]; intros lecturas entradas fila log Hc; simpl in Hc.
  - inversion Hc; subst. split; [exists []; by rewrite app_nil_r|].
    split; [by rewrite list_to_set_nil, union_empty_r_L|].
    split; [by intros k Hk%elem_of_nil|]. done.
  - assert (Hpaso : ∃ x lecturas1 entradas1,
              valor_de_columna tipos col x
              ∧ (length entradas1 <= length entradas)%nat
              ∧ construir_fila py_int py_float digito_unicode str_float ahora tipos cols
                  lecturas1 entradas1 (fila ++ [x])
                  (<[col := VStr (str_valor str_float x)]> log)
                = Some (fila', log', lecturas', entradas')).
    { unfold valor_de_columna. destruct (es_ejecucion col) eqn:Hm.
      - eexists _, _, _. split; [by eexists|]. split; [|exact Hc]. lia.
      - destruct (pedir_campo py_int py_float digito_unicode _ entradas) as [[v r]|] eqn:Hp; [|done].
        apply pedir_campo_Some in Hp as [(e & _ & Hv) Hl].
        eexists _, _, _. split; [by eexists|]. split; [|exact Hc]. lia. }
    destruct Hpaso as (x & l1 & e1 & Hx & Hle & Hrec).
    destruct (IH _ _ _ _ Hrec) as ((vs & -> & Hvs) & Hdom & Hlog & Hotros & Hlen).
    split; [exists (x :: vs); split; [by rewrite <- app_assoc | by constructor]|].
    split.
    { rewrite Hdom, dom_insert_L, list_to_set_cons. apply set_eq. intros k.
      rewrite !elem_of_union. tauto. }
    split; [|split; [|lia]].
    + intros k Hk. destruct (decide (k ∈ cols)) as [Hin|Hnin]; [by apply Hlog|].
      apply elem_of_cons in Hk as [->|Hk]; [|done].
      exists x. split; [done|]. by rewrite (Hotros _ Hnin), lookup_insert_eq.
    + intros k Hk. apply not_elem_of_cons in Hk as [Hne Hnin].
      by rewrite (Hotros _ Hnin), lookup_insert_ne.
Qed.

Lemma insertar_fila_efecto st lecturas fila (log : dict) :
  inv_manual columnas tipos st -> instantanea_manual columnas tipos log ->
  Forall2 (valor_de_columna tipos) columnas fila ->
  let st1 := insertar_fila format_exc rechazo nombre_tabla columnas st
               (S (attempt_counter st)) lecturas fila log in
  inv_manual columnas tipos st1
  ∧ ∃ nuevos, avance (envio_manual nombre_tabla columnas tipos) (m_conn st) (m_conn st1) nuevos
              ∧ filas_insertadas st1
                = (filas_insertadas st + length (aceptadas nuevos))%nat.
Proof.
  intros (Hat & Hlen & Hdat & Herr) Hlog Hfila. unfold insertar_fila.
  destruct (execute rechazo (m_conn st) _ fila) as [e|c1] eqn:Hex; simpl.
  - split.
    + unfold inv_manual. simpl. rewrite length_app. simpl.
      split; [lia|]. split; [done|]. split; [done|].
      apply Forall_app. split; [done|]. apply Forall_singleton.
      by exists (Z.of_nat (S (attempt_counter st))), e, log.
    + eexists. split; [by apply avance_rechazo|]. simpl. lia.
  - split.
    + unfold inv_manual. simpl. rewrite length_app. simpl.
      split; [lia|]. split; [lia|]. split; [|done].
      apply Forall_app. split; [done|]. by apply Forall_singleton.
    + eexists. split; [by eapply avance_aceptada|]. simpl. lia.
Qed.

Lemma construir_fila_app l1 l2 lecturas entradas (fila : list (valor flotante))
    (log : dict) :
  construir_fila py_int py_float digito_unicode str_float ahora tipos (l1 ++ l2)
    lecturas entradas fila log
  = match construir_fila py_int py_float digito_unicode str_float ahora tipos l1
            lecturas entradas fila log with
    | Some (fila1, log1, lecturas1, entradas1) =>
        construir_fila py_int py_float digito_unicode str_float ahora tipos l2
          lecturas1 entradas1 fila1 log1
    | None => None
    end.
Proof.
  revert lecturas entradas fila log.
  induction l1 as [|col l1 IH]; intros lecturas entradas fila log; [done|].
  simpl. destruct (es_ejecucion col); [apply IH|].
  destruct (pedir_campo _ _ _ _ entradas) as [[v r]|]; [apply IH | done].
Qed.

(** The columns that are not the managed one take one answer each when
    every answer validates. *)
Lemma construir_fila_respondidas cols (resp : list (string * valor flotante))
    lecturas resto (fila : list (valor flotante)) (log : dict) :
  Forall (fun k => es_ejecucion k = false) cols ->
  Forall2 (fun k '(e, v) =>
             validar_entrada py_int py_float digito_unicode
               (PyStr.lower (tipo_de tipos k)) e = Aceptado v) cols resp ->
  ∃ log',
    construir_fila py_int py_float digito_unicode str_float ahora tipos cols
      lecturas (map fst resp ++ resto)%list fila log
    = Some ((fila ++ map snd resp)%list, log', lecturas, resto).
Proof.
  intros Hm Hv. revert fila log.
  induction Hv as [|k [e v] cols resp Hk Hv IH]; intros fila log.
  - exists log. simpl. by rewrite app_nil_r.
  - apply Forall_cons in Hm as [Hmk Hm].
    destruct (IH Hm (fila ++ [v])%list
                (<[k := VStr (str_valor str_float v)]> log)) as [log' Hc].
    exists log'. simpl. rewrite Hmk, Hk, Hc. by rewrite <- app_assoc.
Qed.

Local Abbreviation bucle :=
  (bucle_manual py_int py_float digito_unicode str_float format_exc rechazo ahora).

Lemma bucle_manual_efecto fuel st entradas :
  (length entradas < fuel)%nat -> inv_manual columnas tipos st ->
  ∃ fin nuevos,
    bucle fuel nombre_tabla columnas tipos st entradas = Some fin
    ∧ avance (envio_manual nombre_tabla columnas tipos) (m_conn st) (conexion_de fin) nuevos
    ∧ match fin with
      | Salio st' =>
          inv_manual columnas tipos st'
          ∧ filas_insertadas st'
            = (filas_insertadas st + length (aceptadas nuevos))%nat
          ∧ (attempt_counter st < attempt_counter st')%nat
      | FinDeEntrada _ => True
      end.
Proof.
  revert st entradas. induction fuel as [|fuel IH]; intros st entradas Hf Hinv; [lia|].
  simpl.
  destruct (construir_fila _ _ _ _ _ _ _ _ _ _) as [[[[fila log] lecturas] entradas1]|] eqn:Hc.
  - apply construir_fila_Some in Hc as ((vs & -> & Hvs) & Hdom & Hlog & _ & Hlen).
    simpl in Hvs.
    assert (Hsnap : instantanea_manual columnas tipos log).
    { split; [by rewrite Hdom, dom_empty_L, union_empty_l_L | done]. }
    destruct (insertar_fila_efecto st lecturas vs log Hinv Hsnap Hvs)
      as (Hinv1 & n1 & Hav1 & Hins1).
    set (st1 := insertar_fila _ _ _ _ _ _ _ _ _) in *.
    assert (Hatt : attempt_counter st1 = S (attempt_counter st)).
    { unfold st1, insertar_fila. by destruct (execute _ _ _ _). }
    clearbody st1.
    destruct entradas1 as [|continuar entradas2].
    + exists (FinDeEntrada (m_conn st1)), n1. split; [done|]. split; [exact Hav1 | done].
    + case_bool_decide.
      * destruct (IH st1 entradas2) as (fin & n2 & Hb & Hav2 & Hfin);
          [simpl in Hlen; lia | done |].
        exists fin, (n1 ++ n2)%list. split; [done|].
        split; [by eapply avance_trans|].
        destruct fin as [st'|c']; [|done].
        destruct Hfin as (Hinv' & Hins' & Hatt').
        split; [done|]. split; [|lia].
        rewrite aceptadas_app, length_app. lia.
      * exists (Salio st1), n1. split; [done|]. split; [done|].
        split; [done|]. split; [done | lia].
  - exists (FinDeEntrada (m_conn st)), []. split; [done|].
    split; [apply avance_refl | done].
Qed.

End Manual.

(** *** Whole runs *)

Local Abbreviation carga_archivo :=
  (carga_por_archivo str_float suma_uno format_exc rechazo ahora).
Local Abbreviation carga_man :=
  (carga_manual py_int py_float digito_unicode str_float format_exc rechazo ahora).

Lemma indice_numerico_Forall (df : DataFrame flotante) :
  indice_numerico df = true
  <-> Forall (fun '(idx, _) => es_numerica idx = true) (df_filas df).
Proof.
  unfold indice_numerico. rewrite forallb_forall, Forall_forall. split.
  - intros H [idx fila] Hin. by apply (H (idx, fila)), list_elem_of_In.
  - intros H [idx fila] Hin. by apply (H (idx, fila)), list_elem_of_In.
Qed.

Lemma carga_por_archivo_finalizada nombre_bd nombre_tabla nombre_archivo
    columnas_sql df c :
  let cols := columnas_sin_ejecucion columnas_sql in
  bien_formado df = true ->
  (∀ col, col ∈ df_columns df <-> col ∈ cols) ->
  indice_numerico df = true ->
  ∃ st nuevos,
    carga_archivo nombre_bd nombre_tabla nombre_archivo columnas_sql df c
    = mk_corrida_archivo (CargaFinalizada st) (a_conn st)
        (logs_archivo ahora nombre_bd nombre_tabla nombre_archivo cols st)
    ∧ filas_procesadas st = length (df_filas df)
    ∧ (filas_cargadas st + length (a_errores st))%nat = length (df_filas df)
    ∧ avance (envio_de_alguna nombre_tabla cols (df_filas df)) c (a_conn st) nuevos
    ∧ filas_cargadas st = length (aceptadas nuevos)
    ∧ Forall (error_de_alguna cols (df_filas df)) (a_errores st).
Proof.
  intros cols Hwf Hrec Hnum.
  assert (Hcomp : Forall (fun '(_, fila) => fila_completa cols fila) (df_filas df)).
  { apply bien_formado_completa; [done | intros col; apply Hrec]. }
  apply indice_numerico_Forall in Hnum.
  destruct (bucle_archivo_efecto nombre_tabla cols (df_filas df)
              (mk_estado_archivo c 0 0 []) Hnum Hcomp)
    as (st & nuevos & errs & Hb & Hproc & Hsum & Hav & Hcar & Herr & Hall).
  simpl in *. exists st, nuevos.
  unfold carga_por_archivo. fold cols.
  apply coinciden_iff in Hrec. rewrite Hrec, Hb.
  split; [done|]. split; [done|]. split; [lia|]. split; [done|].
  split; [done | by rewrite Herr].
Qed.

(** A run over a frame with a label that is not a number: the rows
    before the label are gone through as in any run, and the run ends
    at the row of the label by the [TypeError] of its row number, which
    nothing catches.  The row has been counted; no log is written. *)
Lemma carga_por_archivo_cortada nombre_bd nombre_tabla nombre_archivo
    columnas_sql df c antes msg fila despues :
  let cols := columnas_sin_ejecucion columnas_sql in
  bien_formado df = true ->
  (∀ col, col ∈ df_columns df <-> col ∈ cols) ->
  df_filas df = (antes ++ (EtOtra msg, fila) :: despues)%list ->
  Forall (fun '(idx, _) => es_numerica idx = true) antes ->
  ∃ st nuevos,
    carga_archivo nombre_bd nombre_tabla nombre_archivo columnas_sql df c
    = mk_corrida_archivo (ExcepcionNoCapturada (TypeError msg) (estado_en_etiqueta st))
        (a_conn st) []
    ∧ filas_procesadas st = length antes
    ∧ (filas_cargadas st + length (a_errores st))%nat = length antes
    ∧ avance (envio_de_alguna nombre_tabla cols antes) c (a_conn st) nuevos
    ∧ filas_cargadas st = length (aceptadas nuevos)
    ∧ Forall (error_de_alguna cols antes) (a_errores st).
Proof.
  intros cols Hwf Hrec Hfilas Hnum.
  assert (Hcomp : Forall (fun '(_, fila) => fila_completa cols fila) (df_filas df)).
  { apply bien_formado_completa; [done | intros col; apply Hrec]. }
  rewrite Hfilas in Hcomp. apply Forall_app in Hcomp as [Hcomp _].
  destruct (bucle_archivo_efecto nombre_tabla cols antes
              (mk_estado_archivo c 0 0 []) Hnum Hcomp)
    as (st & nuevos & errs & Hb & Hproc & Hsum & Hav & Hcar & Herr & Hall).
  simpl in *. exists st, nuevos.
  unfold carga_por_archivo. fold cols.
  apply coinciden_iff in Hrec. rewrite Hrec, Hfilas.
  rewrite (bucle_archivo_cortado nombre_tabla cols antes msg fila despues _ _ Hb).
  split; [done|]. split; [done|]. split; [lia|]. split; [done|].
  split; [done | by rewrite Herr].
Qed.

Lemma carga_por_archivo_abortada nombre_bd nombre_tabla nombre_archivo
    columnas_sql df c :
  let cols := columnas_sin_ejecucion columnas_sql in
  ¬ (∀ col, col ∈ df_columns df <-> col ∈ cols) ->
  carga_archivo nombre_bd nombre_tabla nombre_archivo columnas_sql df c
  = mk_corrida_archivo
      (ColumnasNoCoinciden
         (aviso_columnas (columnas_faltantes cols (df_columns df))
                         (columnas_sobrantes cols (df_columns df))))
      c [].
Proof.
  intros cols Hno. unfold carga_por_archivo. fold cols.
  destruct (no_vacia _ || no_vacia _) eqn:Hb; [done|].
  destruct Hno. by apply coinciden_iff.
Qed.

Lemma inv_manual_inicial columnas tipos c :
  inv_manual columnas tipos (mk_estado_manual c 1 0 0 [] []).
Proof. by repeat split. Qed.

Lemma carga_manual_efecto nombre_bd nombre_tabla esquema entradas c :
  let columnas := map fst esquema in
  let tipos := dict_tipos esquema in
  ∃ run nuevos,
    carga_man nombre_bd nombre_tabla esquema entradas c = Some run
    ∧ avance (envio_manual nombre_tabla columnas tipos) c (cm_conn run) nuevos
    ∧ match cm_fin run with
      | EOFError => cm_archivos run = []
      | CargaManualFinalizada st =>
          inv_manual columnas tipos st
          ∧ filas_insertadas st = length (aceptadas nuevos)
          ∧ (0 < attempt_counter st)%nat
          ∧ cm_conn run = m_conn st
          ∧ cm_archivos run = logs_manual ahora nombre_bd nombre_tabla columnas st
      end.
Proof.
  intros columnas tipos. unfold carga_manual. fold columnas tipos.
  destruct (bucle_manual_efecto nombre_tabla columnas tipos (S (length entradas))
              (mk_estado_manual c 1 0 0 [] []) entradas)
    as (fin & nuevos & Hb & Hav & Hfin); [lia | apply inv_manual_inicial |].
  rewrite Hb. destruct fin as [st|c'].
  - eexists _, nuevos. split; [done|]. simpl. split; [done|].
    destruct Hfin as (Hinv & Hins & Hatt). simpl in *.
    split; [done|]. split; [done|]. split; [lia|]. done.
  - eexists _, nuevos. split; [done|]. simpl. done.
Qed.

(** *** The claims *)

(** X21. A file run that passes the reconciliation ends in one of two
    ways.  When every label of the index is a number it goes through
    every row of the frame and ends with
    [filas_procesadas = filas_cargadas + len(errores)], both equal to
    the number of rows of the frame.  When some label is not a number it
    goes through the rows before the first such label and ends at its
    row by the [TypeError] of the row number: that row has been counted,
    so that [filas_procesadas] is one more than
    [filas_cargadas + len(errores)], the rows after it are not read and
    no log is written.  A manual run always comes to an end, and when it
    ends by the operator's "no" its counters satisfy
    [attempt_counter = filas_insertadas + len(errores)]. *)
Theorem contadores_cuadran nombre_bd nombre_tabla nombre_archivo columnas_sql
    (df : DataFrame flotante) c esquema entradas c_manual :
  bien_formado df = true ->
  (∀ col, col ∈ df_columns df <-> col ∈ columnas_sin_ejecucion columnas_sql) ->
  let run := carga_archivo nombre_bd nombre_tabla nombre_archivo columnas_sql df c in
  match ca_fin run with
  | CargaFinalizada st =>
      indice_numerico df = true
      ∧ filas_procesadas st = (filas_cargadas st + length (a_errores st))%nat
      ∧ (filas_cargadas st + length (a_errores st))%nat = length (df_filas df)
  | ExcepcionNoCapturada e st =>
      ∃ antes msg fila despues,
        df_filas df = (antes ++ (EtOtra msg, fila) :: despues)%list
        ∧ Forall (fun '(idx, _) => es_numerica idx = true) antes
        ∧ e = TypeError msg
        ∧ filas_procesadas st = S (filas_cargadas st + length (a_errores st))
        ∧ (filas_cargadas st + length (a_errores st))%nat = length antes
        ∧ ca_archivos run = []
  | ColumnasNoCoinciden _ => False
  end
  ∧ (∃ run_m,
        carga_man nombre_bd nombre_tabla esquema entradas c_manual = Some run_m
        ∧ ∀ st, cm_fin run_m = CargaManualFinalizada st ->
                attempt_counter st
                = (filas_insertadas st + length (m_errores st))%nat).
Proof.
  intros Hwf Hrec run. split.
  - destruct (particion_etiquetas (df_filas df))
      as [Hnum|(antes & msg & fila & despues & Hfilas & Hnum)].
    + apply indice_numerico_Forall in Hnum.
      destruct (carga_por_archivo_finalizada nombre_bd nombre_tabla nombre_archivo
                  columnas_sql df c Hwf Hrec Hnum)
        as (st & nuevos & Hrun & Hproc & Hsum & _).
      unfold run. rewrite Hrun. simpl. split; [done|]. split; [lia | done].
    + destruct (carga_por_archivo_cortada nombre_bd nombre_tabla nombre_archivo
                  columnas_sql df c antes msg fila despues Hwf Hrec Hfilas Hnum)
        as (st & nuevos & Hrun & Hproc & Hsum & _).
      unfold run. rewrite Hrun. simpl. exists antes, msg, fila, despues.
      split; [done|]. split; [done|]. split; [done|]. split; [lia|]. done.
  - destruct (carga_manual_efecto nombre_bd nombre_tabla esquema entradas c_manual)
      as (run_m & nuevos & Hrun & _ & Hfin).
    exists run_m. split; [done|]. intros st Hst. rewrite Hst in Hfin.
    by destruct Hfin as ((Hat & _) & _).
Qed.

Lemma sin_ejecucion_filtro (columnas_sql : list string) :
  columnas_sin_ejecucion columnas_sql
  = filter (fun col => PyStr.lower col ≠ "bi_ejecucion") columnas_sql.
Proof.
  unfold columnas_sin_ejecucion, es_ejecucion.
  induction columnas_sql as [|col l IH]; [done|].
  rewrite !filter_cons, IH.
  destruct (decide (PyStr.lower col = "bi_ejecucion")) as [Heq|Hne].
  - rewrite decide_False; [|by rewrite bool_decide_eq_false; tauto].
    by rewrite decide_False by tauto.
  - rewrite decide_True; [|by rewrite bool_decide_eq_false].
    by rewrite decide_True.
Qed.

(** C2. The file loader goes on to the rows exactly when the column
    names of the file and the column names of the table, without the
    column whose name in lower case is "bi_ejecucion", are the same set
    of texts (compared as they are written, in any order).  Then the
    run is the loop over the rows.  Otherwise it stops before any row:
    the connection is untouched, no log file is written, and what it
    prints is the heading, then under the line "Faltan en el archivo:"
    the columns of the table that the file lacks, if there are any, then
    under the line "No existen en la tabla:" the columns of the file
    that the table lacks, if there are any, and the closing line. *)
Theorem reconciliacion_exacta nombre_bd nombre_tabla nombre_archivo columnas_sql
    (df : DataFrame flotante) c :
  let objetivo := filter (fun col => PyStr.lower col ≠ "bi_ejecucion") columnas_sql in
  let faltantes := filter (fun col => col ∉ df_columns df) objetivo in
  let sobrantes := filter (fun col => col ∉ objetivo) (df_columns df) in
  let run := carga_archivo nombre_bd nombre_tabla nombre_archivo columnas_sql df c in
  ((∀ col, col ∈ df_columns df <-> col ∈ objetivo)
   <-> (faltantes = [] ∧ sobrantes = []))
  ∧ (∀ col, col ∈ faltantes <-> col ∈ objetivo ∧ col ∉ df_columns df)
  ∧ (∀ col, col ∈ sobrantes <-> col ∈ df_columns df ∧ col ∉ objetivo)
  ∧ (((∀ col, col ∈ df_columns df <-> col ∈ objetivo)
      ∧ run
        = match bucle_archivo str_float suma_uno format_exc rechazo nombre_tabla
                  objetivo (df_filas df) (mk_estado_archivo c 0 0 []) with
          | inl (e, st) =>
              mk_corrida_archivo (ExcepcionNoCapturada e st) (a_conn st) []
          | inr st =>
              mk_corrida_archivo (CargaFinalizada st) (a_conn st)
                (logs_archivo ahora nombre_bd nombre_tabla nombre_archivo objetivo st)
          end)
     ∨ (¬ (∀ col, col ∈ df_columns df <-> col ∈ objetivo)
        ∧ ca_fin run
          = ColumnasNoCoinciden
              ([nl +:+ "❌ Las columnas del archivo no coinciden con la tabla."]
               ++ match faltantes with
                  | [] => []
                  | _ :: _ =>
                      "Faltan en el archivo:"
                      :: map (fun col => "  - " +:+ col) faltantes
                  end
               ++ match sobrantes with
                  | [] => []
                  | _ :: _ =>
                      "No existen en la tabla:"
                      :: map (fun col => "  - " +:+ col) sobrantes
                  end
               ++ ["Corrija el archivo y vuelva a intentar."])%list
        ∧ ca_conn run = c
        ∧ ca_archivos run = [])).
Proof.
  intros objetivo faltantes sobrantes run.
  assert (Hobj : columnas_sin_ejecucion columnas_sql = objetivo)
    by apply sin_ejecucion_filtro.
  assert (Hf : faltantes = columnas_faltantes objetivo (df_columns df)) by done.
  assert (Hs : sobrantes = columnas_sobrantes objetivo (df_columns df)) by done.
  split.
  { rewrite <- coinciden_iff, orb_false_iff, !no_vacia_false. by rewrite Hf, Hs. }
  split; [intros col; unfold faltantes; rewrite list_elem_of_filter; tauto|].
  split; [intros col; unfold sobrantes; rewrite list_elem_of_filter; tauto|].
  destruct (no_vacia faltantes || no_vacia sobrantes) eqn:Hb.
  - right.
    assert (Hno : ¬ (∀ col, col ∈ df_columns df <-> col ∈ objetivo)).
    { intros Hrec. apply coinciden_iff in Hrec. rewrite <- Hf, <- Hs in Hrec.
      congruence. }
    split; [done|]. unfold run.
    rewrite <- Hobj in Hno.
    rewrite (carga_por_archivo_abortada _ _ _ _ _ _ Hno). rewrite Hobj.
    fold (columnas_faltantes objetivo (df_columns df)).
    rewrite <- Hf, <- Hs. simpl. split; [|done].
    unfold aviso_columnas. by destruct faltantes, sobrantes.
  - left. split; [apply coinciden_iff; by rewrite <- Hf, <- Hs|].
    unfold run, carga_por_archivo. rewrite Hobj. 
    fold (columnas_faltantes objetivo (df_columns df)).
    fold (columnas_sobrantes objetivo (df_columns df)).
    rewrite <- Hf, <- Hs, Hb.
    by destruct (bucle_archivo _ _ _ _ _ _ _ _) as [[e st]|st].
Qed.

(** *** Deciding the hypotheses on a concrete row *)

Lemma fila_completa_decide cols (fila : dict) :
  forallb (fun col => bool_decide (is_Some (fila !! col))) cols = true ->
  fila_completa cols fila.
Proof.
  rewrite forallb_forall. intros Hb col Hcol.
  apply list_elem_of_In, Hb in Hcol. by apply bool_decide_eq_true in Hcol.
Qed.

Lemma sin_blancos_decide cols (fila : dict) :
  forallb (fun col => match fila !! col with
                      | Some v => negb (isna v)
                      | None => false
                      end) cols = true ->
  sin_blancos cols fila.
Proof.
  rewrite forallb_forall. intros Hb col Hcol.
  apply list_elem_of_In, Hb in Hcol.
  destruct (fila !! col) as [v|]; [|done]. exists v. split; [done|].
  by apply negb_true_iff.
Qed.

Lemma celdas_length cols (fila : dict) :
  sin_blancos cols fila -> length (celdas cols fila) = length cols.
Proof.
  induction cols as [|col cols IH]; intros Hs; [done|].
  destruct (Hs col) as (v & Hv & _); [by left|].
  change (celdas (col :: cols) fila)
    with (match fila !! col with
          | Some x => x :: celdas cols fila
          | None => celdas cols fila
          end).
  rewrite Hv. simpl. f_equal. apply IH. intros k Hk. apply Hs. by right.
Qed.

Lemma indice_desde_lookup n (filas : list (etiqueta flotante * dict)) i idx fila :
  indice_desde n filas = true ->
  filas !! i = Some (idx, fila) -> idx = EtEntero (n + Z.of_nat i).
Proof.
  revert n i. induction filas as [|[e f] filas IH]; intros n i Hd Hi; [done|].
  simpl in Hd. destruct e as [z| |]; [|done|done].
  apply andb_true_iff in Hd as [Hz Hd]. apply Z.eqb_eq in Hz as ->.
  destruct i as [|i]; simpl in Hi.
  - inversion Hi; subst. f_equal. lia.
  - rewrite (IH _ _ Hd Hi). f_equal. lia.
Qed.

Lemma indice_por_defecto_lookup (df : DataFrame flotante) i idx fila :
  indice_por_defecto df = true ->
  df_filas df !! i = Some (idx, fila) -> idx = EtEntero (Z.of_nat i).
Proof. intros Hd Hi. by rewrite (indice_desde_lookup 0 _ _ _ _ Hd Hi). Qed.

Lemma indice_por_defecto_numerico (df : DataFrame flotante) :
  indice_por_defecto df = true -> indice_numerico df = true.
Proof.
  unfold indice_por_defecto, indice_numerico. generalize 0.
  induction (df_filas df) as [|[e f] filas IH]; intros n Hd; [done|].
  simpl in *. destruct e as [z| |]; [|done|done].
  apply andb_true_iff in Hd as [_ Hd]. by apply (IH (n + 1)).
Qed.

(** C3 (amended). In the file loader, over a frame with the default
    index, the row at position [i] (counted from 0) that has a blank
    (missing) value in a non-managed column is not inserted: no call
    reaches the server and the connection is as before; the row is
    recorded as failed, with the message that names the first blank
    column and the position of the row counted from 1, which is also
    what the record holds under [row]; every cell of the row is logged,
    the blank ones as the empty text; and the loop goes on with the
    next row.  A row without blanks is sent to the server with its
    cells as they are, whatever the SQL type of the column: the values
    are not converted or checked against the type. *)
Theorem fila_en_blanco_no_se_inserta nombre_tabla cols (df : DataFrame flotante)
    i idx (fila : dict) pre col post v c row_num (fila_llena : dict) :
  indice_por_defecto df = true ->
  df_filas df !! i = Some (idx, fila) ->
  fila_completa cols fila ->
  cols = (pre ++ col :: post)%list ->
  sin_blancos pre fila ->
  fila !! col = Some v -> isna v = true ->
  sin_blancos cols fila_llena ->
  (∃ d,
      let posicion := Z.of_nat i + 1 in
      let r :=
        registro_error format_exc "row" (VInt posicion)
          (ValueError ("Campo '" +:+ col +:+ "' en blanco (fila "
                       +:+ PyStr.str_Z posicion +:+ ")")) d in
      let tras st :=
        mk_estado_archivo (a_conn st) (S (filas_procesadas st)) (filas_cargadas st)
          (a_errores st ++ [r]) in
      (∀ st,
          procesar_fila str_float suma_uno format_exc rechazo nombre_tabla cols
            st idx fila = inr (tras st))
      ∧ (∀ st resto,
            bucle_archivo str_float suma_uno format_exc rechazo nombre_tabla cols
              ((idx, fila) :: resto) st
            = bucle_archivo str_float suma_uno format_exc rechazo nombre_tabla cols
                resto (tras st))
      ∧ dom d = list_to_set cols
      ∧ (∀ k w, k ∈ cols -> fila !! k = Some w ->
                d !! k = Some (VStr (if isna w then "" else str_valor str_float w)))
      ∧ d !! col = Some (VStr ""))
  ∧ intentar_fila str_float rechazo nombre_tabla cols c row_num fila_llena
    = match execute rechazo c (sentencia_archivo nombre_tabla cols)
              (celdas cols fila_llena) with
      | inl e =>
          (tras_rechazo c (sentencia_archivo nombre_tabla cols)
             (celdas cols fila_llena), Some e)
      | inr c' => (commit c', None)
      end.
Proof.
  intros Hidx Hi Hc -> Hpre Hv Hna Hllena. split.
  - rewrite (indice_por_defecto_lookup df i idx fila Hidx Hi).
    destruct (datos_fila_total (pre ++ col :: post) fila ∅ Hc) as [d Hd].
    exists d. cbn zeta.
    assert (Hp : ∀ st,
               procesar_fila str_float suma_uno format_exc rechazo nombre_tabla
                 (pre ++ col :: post) st (EtEntero (Z.of_nat i)) fila
               = inr (mk_estado_archivo (a_conn st) (S (filas_procesadas st))
                        (filas_cargadas st)
                        (a_errores st ++
                           [registro_error format_exc "row" (VInt (Z.of_nat i + 1))
                              (ValueError
                                 ("Campo '" +:+ col +:+ "' en blanco (fila "
                                  +:+ PyStr.str_Z (Z.of_nat i + 1) +:+ ")")) d]))).
    { intros st. unfold procesar_fila, intentar_fila. cbn [numero_de_fila].
      rewrite (recolectar_blanco pre col post fila v (VInt (Z.of_nat i + 1)) []
                 Hpre Hv Hna).
      by rewrite Hd. }
    split; [exact Hp|].
    split; [intros st resto; cbn [bucle_archivo]; by rewrite Hp|].
    split; [by apply (datos_fila_dom _ _ _ Hd)|].
    split.
    + intros k w Hk Hw.
      by rewrite (datos_fila_lookup _ _ _ _ k Hd), decide_True, Hw.
    + rewrite (datos_fila_lookup _ _ _ _ col Hd), decide_True, Hv;
        [|apply elem_of_app; right; by left].
      simpl. unfold celda_log. by rewrite Hna.
  - unfold intentar_fila. by rewrite (recolectar_sin_blancos _ _ _ _ Hllena).
Qed.

Lemma valor_ejecucion_formas tipo_sql n :
  valor_ejecucion (flotante := flotante) ahora tipo_sql n = VFecha (ahora n)
  ∨ valor_ejecucion (flotante := flotante) ahora tipo_sql n
    = VStr (Fecha.strftime_largo (ahora n) +:+ " Python").
Proof. unfold valor_ejecucion. destruct (PyStr.en_lista _ _); auto. Qed.

Lemma sin_ejecucion_no_gestionada columnas_sql :
  Forall (fun col => es_ejecucion col = false) (columnas_sin_ejecucion columnas_sql).
Proof.
  apply Forall_forall. intros col Hcol.
  unfold columnas_sin_ejecucion in Hcol. by apply list_elem_of_filter in Hcol as [? _].
Qed.


(** *** Commit per row *)

Lemma insertar_fila_avance nombre_tabla columnas st attempt lecturas fila (log : dict) :
  ∃ nuevos,
    avance cualquiera (m_conn st)
      (m_conn (insertar_fila format_exc rechazo nombre_tabla columnas st attempt
                 lecturas fila log)) nuevos.
Proof.
  unfold insertar_fila.
  destruct (execute rechazo (m_conn st) _ fila) as [e|c1] eqn:Hex; simpl.
  - eexists. by apply avance_rechazo.
  - eexists. by eapply avance_aceptada.
Qed.

Lemma bucle_manual_avance fuel nombre_tabla columnas tipos st entradas fin :
  bucle_manual py_int py_float digito_unicode str_float format_exc rechazo ahora
    fuel nombre_tabla columnas tipos st entradas = Some fin ->
  ∃ nuevos, avance cualquiera (m_conn st) (conexion_de fin) nuevos.
Proof.
  revert st entradas. induction fuel as [|fuel IH]; intros st entradas Hb; [done|].
  simpl in Hb.
  destruct (construir_fila _ _ _ _ _ _ _ _ _ _)
    as [[[[fila log] lecturas] entradas1]|] eqn:Hc.
  - destruct (insertar_fila_avance nombre_tabla columnas st
                (S (attempt_counter st)) lecturas fila log) as [n1 Hav1].
    destruct entradas1 as [|continuar entradas2].
    + inversion Hb; subst. by exists n1.
    + case_bool_decide.
      * destruct (IH _ _ Hb) as [n2 Hav2]. exists (n1 ++ n2)%list.
        by eapply avance_trans.
      * inversion Hb; subst. by exists n1.
  - inversion Hb; subst. exists []. apply avance_refl.
Qed.

(** C5. Each row is its own transaction, in both loaders.  In the file
    loader, whatever rows [l2] follow the rows [l1], the loop over all
    of them does on [l1] what the loop over [l1] alone does and goes on
    from there; the rows committed after [l1] are still committed, in
    place, when the loop ends, and so are the outcomes recorded for
    [l1]; every accepted [execute] is followed at once by its commit and
    no row is left uncommitted.  This holds whether the loop ends at
    the end of the rows, as it does when the labels of the index are
    numbers, or at a row number that cannot be computed.  In the manual
    loader the row of a turn is committed or refused before the operator
    is asked for more, and the turns that follow keep what was
    committed. *)
Theorem commit_por_fila nombre_tabla cols l1 l2 (st0 : estado_archivo flotante)
    columnas tipos fuel (st : estado_manual flotante) entradas
    fila log lecturas continuar entradas2 fin :
  Forall (fun '(_, f) => fila_completa cols f) (l1 ++ l2) ->
  construir_fila py_int py_float digito_unicode str_float ahora tipos columnas
    (m_lecturas st) entradas [] ∅
  = Some (fila, log, lecturas, continuar :: entradas2) ->
  PyStr.lower continuar = "s" ->
  bucle_manual py_int py_float digito_unicode str_float format_exc rechazo ahora
    (S fuel) nombre_tabla columnas tipos st entradas = Some fin ->
  (let r1 := bucle_archivo str_float suma_uno format_exc rechazo nombre_tabla cols
               l1 st0 in
   let r2 := bucle_archivo str_float suma_uno format_exc rechazo nombre_tabla cols
               (l1 ++ l2) st0 in
   (Forall (fun '(idx, _) => es_numerica idx = true) (l1 ++ l2) ->
    ∃ st1 st2,
      r1 = inr st1 ∧ r2 = inr st2
      ∧ bucle_archivo str_float suma_uno format_exc rechazo nombre_tabla cols l2 st1
        = inr st2)
   ∧ r2 = match r1 with
          | inl e => inl e
          | inr st1 =>
              bucle_archivo str_float suma_uno format_exc rechazo nombre_tabla cols
                l2 st1
          end
   ∧ ∃ n1 n2,
       avance cualquiera (a_conn st0) (a_conn (estado_al_salir r1)) n1
       ∧ filas_cargadas (estado_al_salir r1)
         = (filas_cargadas st0 + length (aceptadas n1))%nat
       ∧ avance cualquiera (a_conn (estado_al_salir r1))
           (a_conn (estado_al_salir r2)) n2
       ∧ (filas_cargadas (estado_al_salir r1)
          <= filas_cargadas (estado_al_salir r2))%nat
       ∧ a_errores (estado_al_salir r1) `prefix_of` a_errores (estado_al_salir r2))
  ∧ (let st1 := insertar_fila format_exc rechazo nombre_tabla columnas st
                  (S (attempt_counter st)) lecturas fila log in
     ∃ n1 n2,
       avance cualquiera (m_conn st) (m_conn st1) n1
       ∧ bucle_manual py_int py_float digito_unicode str_float format_exc rechazo ahora
           fuel nombre_tabla columnas tipos st1 entradas2 = Some fin
       ∧ avance cualquiera (m_conn st1) (conexion_de fin) n2).
Proof.
  intros Hf Hc Hs Hb. split.
  - intros r1 r2. apply Forall_app in Hf as [Hf1 Hf2].
    assert (Hr2 : r2 = match r1 with
                       | inl e => inl e
                       | inr st1 =>
                           bucle_archivo str_float suma_uno format_exc rechazo
                             nombre_tabla cols l2 st1
                       end) by apply bucle_archivo_app.
    split; [|split; [done|]].
    + intros Hn. apply Forall_app in Hn as [Hn1 Hn2].
      destruct (bucle_archivo_efecto nombre_tabla cols l1 st0 Hn1 Hf1)
        as (st1 & n1 & e1 & Hb1 & _).
      destruct (bucle_archivo_efecto nombre_tabla cols l2 st1 Hn2 Hf2)
        as (st2 & n2 & e2 & Hb2 & _).
      exists st1, st2. split; [done|]. split; [|done].
      rewrite Hr2. unfold r1. by rewrite Hb1.
    + destruct (bucle_archivo_total nombre_tabla cols l1 st0 Hf1)
        as (n1 & e1 & Hav1 & Hcar1 & _).
      fold r1 in Hav1, Hcar1.
      rewrite Hr2. destruct r1 as [[e s1]|st1] eqn:Hr1.
      * exists n1, []. simpl in *.
        split; [by eapply avance_mono; [|exact Hav1]|]. split; [done|].
        split; [apply avance_refl|]. split; [lia | done].
      * destruct (bucle_archivo_total nombre_tabla cols l2 st1 Hf2)
          as (n2 & e2 & Hav2 & Hcar2 & Herr2 & _).
        exists n1, n2. simpl in *.
        split; [by eapply avance_mono; [|exact Hav1]|]. split; [done|].
        split; [by eapply avance_mono; [|exact Hav2]|]. split; [lia|].
        rewrite Herr2. by apply prefix_app_r.
  - intros st1. simpl in Hb. rewrite Hc in Hb. fold st1 in Hb.
    rewrite bool_decide_eq_true_2 in Hb by done.
    destruct (insertar_fila_avance nombre_tabla columnas st
                (S (attempt_counter st)) lecturas fila log) as [n1 Hav1].
    destruct (bucle_manual_avance _ _ _ _ _ _ _ Hb) as [n2 Hav2].
    by exists n1, n2.
Qed.

(** *** The log files *)

Lemma completar_lookup fieldnames (d : dict) k :
  completar fieldnames d !! k
  = if decide (k ∈ fieldnames) then Some (default (VStr "") (d !! k)) else None.
Proof.
  unfold completar.
  assert (Hgen : ∀ acc : dict,
             foldl (fun acc k => <[k := default (VStr "") (d !! k)]> acc) acc fieldnames
             !! k
             = if decide (k ∈ fieldnames)
               then Some (default (VStr "") (d !! k)) else acc !! k).
  { induction fieldnames as [|f fieldnames IH]; intros acc.
    - destruct (decide (k ∈ [])) as [Hk|Hk]; [by apply elem_of_nil in Hk | done].
    - cbn [foldl]. rewrite IH. destruct (decide (k ∈ fieldnames)) as [Hin|Hnin].
      + by rewrite decide_True by (by right).
      + destruct (decide (k = f)) as [->|Hne].
        * rewrite decide_True by (by left). by rewrite lookup_insert_eq.
        * rewrite decide_False by (by intros [?|?]%elem_of_cons).
          by rewrite lookup_insert_ne. }
  rewrite Hgen. by rewrite lookup_empty.
Qed.

Lemma completar_dom fieldnames (d : dict) :
  dom (completar fieldnames d) = list_to_set fieldnames.
Proof.
  apply set_eq. intros k.
  rewrite elem_of_dom, elem_of_list_to_set, completar_lookup.
  case_decide; split; try done; by intros [? ?].
Qed.

Lemma registro_error_dom clave numero e (d : dict) :
  dom (registro_error format_exc clave numero e d)
  = dom d ∪ {[clave; "error"; "traceback"]}.
Proof.
  unfold registro_error.
  rewrite dom_union_L, !dom_insert_L, dom_empty_L.
  apply set_eq. intros k. rewrite !elem_of_union, !elem_of_singleton.
  rewrite elem_of_empty. tauto.
Qed.

Lemma registro_error_lookup clave numero e (d : dict) k x :
  d !! k = Some x -> registro_error format_exc clave numero e d !! k = Some x.
Proof. intros Hk. unfold registro_error. by apply lookup_union_Some_l. Qed.

Lemma no_vacia_length {A : Type} (l : list A) :
  no_vacia l = negb (Nat.eqb (length l) 0).
Proof. by destruct l. Qed.

(** C8 (amended). A manual run that reaches its end writes the summary
    (date, database, table, totals) and then the table of inserted
    rows if and only if a row was inserted, and the table of errors if
    and only if a row failed.  A file run that reaches its end, as it
    does when the labels of the index are numbers, writes the summary
    and then the table of errors if and only if a row failed; it writes
    no table of inserted rows, however many rows it loaded. *)
Theorem logs_al_finalizar nombre_bd nombre_tabla nombre_archivo columnas_sql
    (df : DataFrame flotante) c esquema entradas c_manual :
  bien_formado df = true ->
  (∀ col, col ∈ df_columns df <-> col ∈ columnas_sin_ejecucion columnas_sql) ->
  let cols := columnas_sin_ejecucion columnas_sql in
  let columnas := map fst esquema in
  let ts := timestamp_str ahora 0 in
  (∃ run, carga_man nombre_bd nombre_tabla esquema entradas c_manual = Some run
     ∧ ∀ st, cm_fin run = CargaManualFinalizada st ->
         cm_archivos run
         = (ArchivoTexto ("log_manual_" +:+ nombre_tabla +:+ "_" +:+ ts +:+ "_summary.txt")
              (PyStr.join nl
                 [ "Fecha: " +:+ Fecha.strftime_largo (ahora (m_lecturas st));
                   "Base de datos: " +:+ nombre_bd;
                   "Tabla: " +:+ nombre_tabla;
                   "Intentos totales: " +:+ PyStr.str_nat (attempt_counter st);
                   "Filas insertadas correctamente: "
                     +:+ PyStr.str_nat (filas_insertadas st);
                   "Filas con error: " +:+ PyStr.str_nat (length (m_errores st)) ])
            :: (if (0 <? filas_insertadas st)%nat
                then [ArchivoCSV
                        ("log_manual_" +:+ nombre_tabla +:+ "_" +:+ ts +:+ "_inserted.csv")
                        columnas
                        (map (completar columnas) (filas_insertadas_data st))]
                else [])
            ++ (if (0 <? length (m_errores st))%nat
                then [ArchivoCSV
                        ("log_manual_" +:+ nombre_tabla +:+ "_" +:+ ts +:+ "_errors.csv")
                        (["attempt"; "error"; "traceback"] ++ columnas)
                        (map (completar (["attempt"; "error"; "traceback"] ++ columnas))
                           (m_errores st))]
                else []))%list)
  ∧ (let run_a :=
       carga_archivo nombre_bd nombre_tabla nombre_archivo columnas_sql df c in
     let archivos st :=
       (ArchivoTexto ("log_file_" +:+ nombre_tabla +:+ "_" +:+ ts +:+ "_summary.txt")
          (PyStr.join nl
             [ "Fecha: " +:+ Fecha.strftime_largo (ahora 1);
               "Base de datos: " +:+ nombre_bd;
               "Tabla: " +:+ nombre_tabla;
               "Archivo procesado: " +:+ nombre_archivo;
               "Filas procesadas: " +:+ PyStr.str_nat (filas_procesadas st);
               "Filas cargadas correctamente: "
                 +:+ PyStr.str_nat (filas_cargadas st);
               "Filas con error: " +:+ PyStr.str_nat (length (a_errores st)) ])
        :: (if (0 <? length (a_errores st))%nat
            then [ArchivoCSV
                    ("log_file_" +:+ nombre_tabla +:+ "_" +:+ ts +:+ "_errors.csv")
                    (["row"; "error"; "traceback"] ++ cols)
                    (map (completar (["row"; "error"; "traceback"] ++ cols))
                       (a_errores st))]
            else []))%list in
     (indice_numerico df = true ->
      ∃ st, run_a = mk_corrida_archivo (CargaFinalizada st) (a_conn st) (archivos st))
     ∧ ∀ st, ca_fin run_a = CargaFinalizada st ->
             run_a = mk_corrida_archivo (CargaFinalizada st) (a_conn st) (archivos st)).
Proof.
  intros Hwf Hrec cols columnas ts. split.
  - destruct (carga_manual_efecto nombre_bd nombre_tabla esquema entradas c_manual)
      as (run & nuevos & Hrun & _ & Hfin).
    exists run. split; [done|]. intros st Hst. rewrite Hst in Hfin.
    destruct Hfin as ((_ & Hlen & _) & _ & _ & _ & ->).
    unfold logs_manual, write_text_log, write_csv, resumen_manual.
    fold columnas. fold ts.
    rewrite !no_vacia_length, Hlen.
    by destruct (filas_insertadas st), (length (m_errores st)).
  - intros run_a archivos.
    assert (Hlogs : ∀ st,
               logs_archivo ahora nombre_bd nombre_tabla nombre_archivo cols st
               = archivos st).
    { intros st. unfold logs_archivo, write_text_log, write_csv, resumen_archivo, archivos.
      fold ts. rewrite no_vacia_length.
      by destruct (length (a_errores st)). }
    assert (Hfin : indice_numerico df = true ->
                   ∃ st, run_a = mk_corrida_archivo (CargaFinalizada st) (a_conn st)
                                   (archivos st)).
    { intros Hnum.
      destruct (carga_por_archivo_finalizada nombre_bd nombre_tabla nombre_archivo
                  columnas_sql df c Hwf Hrec Hnum) as (st & nuevos & Hrun & _).
      exists st. unfold run_a. rewrite Hrun. fold cols. by rewrite Hlogs. }
    split; [done|]. intros st Hst.
    destruct (particion_etiquetas (df_filas df))
      as [Hnum|(antes & msg & fila & despues & Hfilas & Hnum)].
    + apply indice_numerico_Forall in Hnum.
      destruct (Hfin Hnum) as [st' Hrun]. rewrite Hrun in Hst |- *.
      simpl in Hst. by inversion Hst; subst.
    + destruct (carga_por_archivo_cortada nombre_bd nombre_tabla nombre_archivo
                  columnas_sql df c antes msg fila despues Hwf Hrec Hfilas Hnum)
        as (st' & nuevos & Hrun & _).
      unfold run_a in Hst. rewrite Hrun in Hst. simpl in Hst. discriminate.
Qed.

(** C9 (amended). In a file run that has passed the reconciliation,
    whether it reaches its end, as it does when the labels of the index
    are numbers, or not, every record of a row that was not loaded was
    built from a row of the frame and carries, besides the row number,
    the error and the trace, one text for each non-managed column and
    for no other column: the cell as text, or the empty text when the
    cell is missing; the managed column is not among them.  In a manual
    run, every snapshot of an inserted row and every record of a failed
    row carries one text for each column of the table, the managed
    column included, whose text is the value computed from the client's
    clock.  In both, the row written to the table of errors has exactly
    the header's keys. *)
Theorem instantaneas_por_modo nombre_bd nombre_tabla nombre_archivo columnas_sql
    (df : DataFrame flotante) c esquema entradas c_manual :
  bien_formado df = true ->
  (∀ col, col ∈ df_columns df <-> col ∈ columnas_sin_ejecucion columnas_sql) ->
  let cols := columnas_sin_ejecucion columnas_sql in
  let columnas := map fst esquema in
  let tipos := dict_tipos esquema in
  let run_a := carga_archivo nombre_bd nombre_tabla nombre_archivo columnas_sql df c in
  let registros (errores : list dict) :=
    Forall
      (fun r =>
         ∃ idx fila row_num e d,
           (idx, fila) ∈ df_filas df
           ∧ numero_de_fila suma_uno idx = inr row_num
           ∧ r = registro_error format_exc "row" row_num e d
           ∧ dom d = list_to_set cols
           ∧ (∀ k, k ∈ dom d -> es_ejecucion k = false)
           ∧ (∀ col, col ∈ cols ->
                ∃ v, fila !! col = Some v
                     ∧ d !! col = Some (VStr (if isna v then ""
                                              else str_valor str_float v))
                     ∧ r !! col = d !! col)
           ∧ dom (completar (["row"; "error"; "traceback"] ++ cols) r)
             = list_to_set (["row"; "error"; "traceback"] ++ cols))
      errores in
  ((indice_numerico df = true ->
    ∃ st, ca_fin run_a = CargaFinalizada st ∧ registros (a_errores st))
   ∧ match ca_fin run_a with
     | CargaFinalizada st => registros (a_errores st)
     | ExcepcionNoCapturada _ st => registros (a_errores st)
     | ColumnasNoCoinciden _ => False
     end)
  ∧ (∃ run, carga_man nombre_bd nombre_tabla esquema entradas c_manual = Some run
       ∧ ∀ st, cm_fin run = CargaManualFinalizada st ->
           Forall (instantanea_manual columnas tipos) (filas_insertadas_data st)
           ∧ Forall (error_manual columnas tipos) (m_errores st)
           ∧ Forall (fun d => dom (completar columnas d) = list_to_set columnas)
               (filas_insertadas_data st)).
Proof.
  intros Hwf Hrec cols columnas tipos run_a registros. split.
  - assert (Hreg : ∀ filas errores,
               (∀ f, f ∈ filas -> f ∈ df_filas df) ->
               Forall (error_de_alguna cols filas) errores -> registros errores).
    { intros filas errores Hsub Herr.
      eapply Forall_impl; [exact Herr|].
      intros r (idx & fila & Hin & row_num & e & d & Hrow & -> & Hd).
      exists idx, fila, row_num, e, d.
      pose proof (datos_fila_dom _ _ _ Hd) as Hdom.
      split; [by apply Hsub|]. split; [done|]. split; [done|]. split; [done|].
      split; [|split].
      + intros k Hk. rewrite Hdom, elem_of_list_to_set in Hk.
        pose proof (sin_ejecucion_no_gestionada columnas_sql) as Hng.
        rewrite Forall_forall in Hng. by apply Hng.
      + intros col Hcol.
        pose proof (datos_fila_lookup _ _ _ _ col Hd) as Hl.
        rewrite decide_True in Hl by done.
        destruct (fila !! col) as [v|] eqn:Hv.
        * exists v. split; [done|]. simpl in Hl. split; [exact Hl|].
          by rewrite (registro_error_lookup _ _ _ _ _ _ Hl).
        * assert (Hs : is_Some (d !! col))
            by (apply elem_of_dom; rewrite Hdom; by apply elem_of_list_to_set).
          rewrite Hl in Hs. by destruct Hs.
      + apply completar_dom. }
    assert (Hfin : indice_numerico df = true ->
                   ∃ st, ca_fin run_a = CargaFinalizada st ∧ registros (a_errores st)).
    { intros Hnum.
      destruct (carga_por_archivo_finalizada nombre_bd nombre_tabla nombre_archivo
                  columnas_sql df c Hwf Hrec Hnum)
        as (st & nuevos & Hrun & _ & _ & _ & _ & Herr).
      exists st. unfold run_a. rewrite Hrun. split; [done|].
      by apply (Hreg (df_filas df)). }
    split; [done|].
    destruct (particion_etiquetas (df_filas df))
      as [Hnum|(antes & msg & fila & despues & Hfilas & Hnum)].
    + apply indice_numerico_Forall in Hnum.
      destruct (Hfin Hnum) as (st & Hst & Hr). by rewrite Hst.
    + destruct (carga_por_archivo_cortada nombre_bd nombre_tabla nombre_archivo
                  columnas_sql df c antes msg fila despues Hwf Hrec Hfilas Hnum)
        as (st & nuevos & Hrun & _ & _ & _ & _ & Herr).
      unfold run_a. rewrite Hrun. simpl.
      apply (Hreg antes); [|done].
      intros f Hin. rewrite Hfilas. apply elem_of_app. by left.
  - destruct (carga_manual_efecto nombre_bd nombre_tabla esquema entradas c_manual)
      as (run & nuevos & Hrun & _ & Hfin).
    exists run. split; [done|]. intros st Hst. rewrite Hst in Hfin.
    destruct Hfin as ((_ & _ & Hdat & Herr) & _).
    split; [done|]. split; [done|].
    apply Forall_forall. intros d _. apply completar_dom.
Qed.

(** C10. A column is the managed one when its name, lower-cased, is
    "bi_ejecucion", however it is capitalised, and both loaders fill it
    themselves.  File mode: for a table that has such a column, the
    file is taken when its columns are the other columns of the table,
    the column is not read from the file, and every row of the file
    without blanks reaches the server as a statement that binds the
    cells of the other columns and gives [GETDATE()] to [Bi_ejecucion].
    Manual mode: when the operator gives one valid answer for each of
    the other columns and then an answer that is not "s", the loader
    takes that last answer as the answer to "another row?", so it asked
    nothing for the managed column; it ends normally, and the one
    statement it has sent binds the answers' values and, at the place
    of the managed column, the value made from the client's clock, a
    [datetime] for the date and time types and its text followed by
    " Python" for any other type. *)
Theorem columna_gestionada_sin_caja col nombre_bd nombre_tabla nombre_archivo
    columnas_sql (df : DataFrame flotante) c idx (fila : dict)
    (pre post : list (string * string)) tipo
    (resp_pre resp_post : list (string * valor flotante)) fin resto c_manual :
  PyStr.lower col = "bi_ejecucion" ->
  let cols := filter (fun k => PyStr.lower k ≠ "bi_ejecucion") columnas_sql in
  col ∈ columnas_sql ->
  bien_formado df = true ->
  (∀ k, k ∈ df_columns df <-> k ∈ cols) ->
  indice_numerico df = true ->
  (idx, fila) ∈ df_filas df ->
  sin_blancos cols fila ->
  let esquema := (pre ++ (col, tipo) :: post)%list in
  let tipos := dict_tipos esquema in
  Forall (fun '(k, _) => PyStr.lower k ≠ "bi_ejecucion") (pre ++ post)%list ->
  Forall2 (fun '(k, _) '(e, v) =>
             validar_entrada py_int py_float digito_unicode
               (PyStr.lower (tipo_de tipos k)) e = Aceptado v)
    (pre ++ post)%list (resp_pre ++ resp_post)%list ->
  length pre = length resp_pre ->
  PyStr.lower fin ≠ "s" ->
  let entradas := (map fst resp_pre ++ map fst resp_post ++ fin :: resto)%list in
  let marca :=
    if bool_decide (PyStr.lower (tipo_de tipos col)
                    ∈ ["datetime"; "smalldatetime"; "datetime2"; "date"])
    then VFecha (ahora 1)
    else VStr (Fecha.strftime_largo (ahora 1) +:+ " Python") in
  let run_a := carga_archivo nombre_bd nombre_tabla nombre_archivo columnas_sql df c in
  ((col ∉ cols) ∧ (col ∉ df_columns df)
   ∧ (∃ st, ca_fin run_a = CargaFinalizada st)
   ∧ length (celdas cols fila) = length cols
   ∧ ∃ b, EvExecute
            ("INSERT INTO [" +:+ nombre_tabla +:+ "] ("
               +:+ (PyStr.join ", " cols +:+ ", Bi_ejecucion")
               +:+ ") VALUES (" +:+ PyStr.join ", " (map (fun _ => "?") cols)
               +:+ ", GETDATE())")
            (celdas cols fila) b
          ∈ historial (ca_conn run_a))
  ∧ (∃ run st b,
        carga_man nombre_bd nombre_tabla esquema entradas c_manual = Some run
        ∧ cm_fin run = CargaManualFinalizada st
        ∧ attempt_counter st = 1%nat
        ∧ historial (cm_conn run)
          = (historial c_manual
             ++ EvExecute
                  ("INSERT INTO [" +:+ nombre_tabla +:+ "] VALUES ("
                     +:+ PyStr.join ", " (map (fun _ => "?") esquema) +:+ ")")
                  (map snd resp_pre ++ marca :: map snd resp_post)%list b
                :: (if b then [EvCommit] else []))%list)
  ∧ Forall (fun nombre => PyStr.lower nombre = "bi_ejecucion")
      ["Bi_ejecucion"; "BI_EJECUCION"; "bi_ejecucion"; "bI_EjEcUcIoN"].
Proof.
  intros Hcol cols Hen Hwf Hrec Hnum Hin Hs esquema tipos Hng Hval Hlen Hfin
    entradas marca run_a.
  assert (Hobj : columnas_sin_ejecucion columnas_sql = cols)
    by apply sin_ejecucion_filtro.
  assert (Hm : es_ejecucion col = true) by (by apply bool_decide_eq_true).
  assert (Hno : col ∉ cols).
  { unfold cols. rewrite list_elem_of_filter. by intros [Hne _]. }
  split; [|split].
  - split; [done|]. split; [by rewrite Hrec|].
    assert (Hcomp : Forall (fun '(_, fila) => fila_completa cols fila) (df_filas df)).
    { apply bien_formado_completa; [done | intros k; apply Hrec]. }
    pose proof Hnum as Hnum'. apply indice_numerico_Forall in Hnum'.
    destruct (bucle_archivo_envia nombre_tabla cols (df_filas df)
                (mk_estado_archivo c 0 0 []) idx fila Hnum' Hcomp Hin Hs)
      as (st & b & Hb & Hev).
    assert (Hrun : run_a
                   = mk_corrida_archivo (CargaFinalizada st) (a_conn st)
                       (logs_archivo ahora nombre_bd nombre_tabla nombre_archivo
                          cols st)).
    { unfold run_a, carga_por_archivo. rewrite Hobj.
      apply coinciden_iff in Hrec. by rewrite Hrec, Hb. }
    rewrite Hrun. simpl. split; [by exists st|].
    split; [by apply celdas_length|]. by exists b.
  - assert (Hpre : Forall (fun k => es_ejecucion k = false) (map fst pre)
                   ∧ Forall (fun k => es_ejecucion k = false) (map fst post)).
    { apply Forall_app in Hng as [Hp1 Hp2].
      split; apply Forall_fmap; (eapply Forall_impl; [eassumption|]);
        intros [k t] Hk; simpl; by apply bool_decide_eq_false. }
    destruct Hpre as [Hgpre Hgpost].
    apply Forall2_app_inv in Hval as [Hvpre Hvpost]; [|done].
    assert (Hv : ∀ (l : list (string * string)) (r : list (string * valor flotante)),
               Forall2 (fun '(k, _) '(e, v) =>
                          validar_entrada py_int py_float digito_unicode
                            (PyStr.lower (tipo_de tipos k)) e = Aceptado v) l r ->
               Forall2 (fun k '(e, v) =>
                          validar_entrada py_int py_float digito_unicode
                            (PyStr.lower (tipo_de tipos k)) e = Aceptado v)
                 (map fst l) r).
    { intros l r H. apply Forall2_fmap_l. eapply Forall2_impl; [exact H|].
      by intros [k t] [e v]. }
    destruct (construir_fila_respondidas tipos (map fst pre) resp_pre 1
                (map fst resp_post ++ fin :: resto)%list [] ∅ Hgpre (Hv _ _ Hvpre))
      as [log1 Hc1].
    destruct (construir_fila_respondidas tipos (map fst post) resp_post 2
                (fin :: resto) (map snd resp_pre ++ [marca])%list
                (<[col := VStr (str_valor str_float marca)]> log1)
                Hgpost (Hv _ _ Hvpost))
      as [log2 Hc2].
    assert (Hc : construir_fila py_int py_float digito_unicode str_float ahora tipos
                   (map fst esquema) 1 entradas [] ∅
                 = Some ((map snd resp_pre ++ marca :: map snd resp_post)%list,
                         log2, 2%nat, fin :: resto)).
    { unfold esquema, entradas. rewrite map_app. simpl map.
      rewrite construir_fila_app, Hc1. cbn [construir_fila]. rewrite Hm.
      etrans; [exact Hc2|]. by rewrite <- app_assoc. }
    unfold carga_manual. fold esquema tipos. simpl bucle_manual.
    rewrite Hc. rewrite bool_decide_eq_false_2 by done.
    unfold insertar_fila, execute.
    assert (Hsent : sentencia_manual nombre_tabla (map fst esquema)
                    = "INSERT INTO [" +:+ nombre_tabla +:+ "] VALUES ("
                        +:+ PyStr.join ", " (map (fun _ => "?") esquema) +:+ ")").
    { unfold sentencia_manual. by rewrite map_map. }
    rewrite Hsent.
    destruct (rechazo _ _ _) as [msg|].
    + eexists _, _, false. split; [done|]. simpl. done.
    + eexists _, _, true. split; [done|]. simpl.
      split; [done|]. split; [done|]. by rewrite <- app_assoc.
  - repeat constructor.
Qed.

End Propiedades.

(** ** Text and dates *)

Example lower_si : PyStr.lower "SÍ" = "sí".
Proof. reflexivity. Qed.

Example lower_managed : PyStr.lower "BI_EJECUCION" = "bi_ejecucion".
Proof. reflexivity. Qed.

Example str_Z_neg : PyStr.str_Z (-42) = "-42".
Proof. reflexivity. Qed.

Example join_3 : PyStr.join ", " ["a"; "b"; "c"] = "a, b, c".
Proof. reflexivity. Qed.

Example strptime_ok :
  Fecha.strptime_Ymd Ejemplo.digito_unicode "2024-03-05"
  = Some (Fecha.mk_datetime 2024 3 5 0 0 0 0).
Proof. reflexivity. Qed.

Example strptime_feb30 :
  Fecha.strptime_Ymd Ejemplo.digito_unicode "2023-02-29" = None.
Proof. reflexivity. Qed.

(** The year in fullwidth digits and the day's second digit in
    Arabic-Indic: [\d] takes them and [int] reads them. *)
Example strptime_digitos_unicode :
  Fecha.strptime_Ymd Ejemplo.digito_unicode "２０２４-03-1٣"
  = Some (Fecha.mk_datetime 2024 3 13 0 0 0 0)
  ∧ Fecha.strptime_Ymd Ejemplo.digito_unicode "2024-０3-05" = None
  ∧ Fecha.strptime_Ymd Ejemplo.digito_unicode "2024-3- 5"
    = Some (Fecha.mk_datetime 2024 3 5 0 0 0 0)
  ∧ Fecha.strptime_Ymd Ejemplo.digito_unicode "0000-01-01" = None.
Proof. repeat split; reflexivity. Qed.

(** Entries and what [strptime(entrada, "%Y-%m-%d")] makes of them in
    CPython 3.11. *)
Example strptime_casos :
  Forall (fun '(entrada, t) => Fecha.strptime_Ymd Ejemplo.digito_unicode entrada = t)
    [
      ("2024-3-05", Some (Fecha.mk_datetime 2024 3 5 0 0 0 0));
      ("2024-03-5", Some (Fecha.mk_datetime 2024 3 5 0 0 0 0));
      ("2024-03- 5", Some (Fecha.mk_datetime 2024 3 5 0 0 0 0));
      ("2024- 3-05", None);
      ("2024-03-00", None);
      ("2024-00-10", None);
      ("2024-13-01", None);
      ("2024-1-1", Some (Fecha.mk_datetime 2024 1 1 0 0 0 0));
      ("2024-02-29", Some (Fecha.mk_datetime 2024 2 29 0 0 0 0));
      ("2023-02-29", None);
      ("1900-02-29", None);
      ("2000-02-29", Some (Fecha.mk_datetime 2000 2 29 0 0 0 0));
      ("0001-01-01", Some (Fecha.mk_datetime 1 1 1 0 0 0 0));
      ("0000-01-01", None);
      ("2024-03-311", None);
      ("2024-03-3", Some (Fecha.mk_datetime 2024 3 3 0 0 0 0));
      ("2024-03-32", None);
      ("2024-03-1٣", Some (Fecha.mk_datetime 2024 3 13 0 0 0 0));
      ("2024-03-٣1", None);
      ("２０２４-03-05", Some (Fecha.mk_datetime 2024 3 5 0 0 0 0));
      ("2024-０3-05", None);
      ("2024-03-0５", None);
      ("2024-03-2５", Some (Fecha.mk_datetime 2024 3 25 0 0 0 0));
      ("2024-03-3０", None);
      ("2024-10-10", Some (Fecha.mk_datetime 2024 10 10 0 0 0 0));
      ("2024-010-10", None);
      (" 2024-03-05", None);
      ("2024-03-05 ", None);
      ("20240305", None);
      ("2024-3-5x", None);
      ("+024-03-05", None);
      ("2024--03-05", None);
      ("2024-03--5", None);
      ("٢٠٢٤-٠٣-٠٥", None);
      ("2024-04-31", None);
      ("2024-04-30", Some (Fecha.mk_datetime 2024 4 30 0 0 0 0));
      ("2024-12-31", Some (Fecha.mk_datetime 2024 12 31 0 0 0 0));
      ("2024-11-31", None);
      ("2024-09-31", None);
      ("2024-06-31", None);
      ("2024-3-1٠", Some (Fecha.mk_datetime 2024 3 10 0 0 0 0));
      ("2024-3-2٩", Some (Fecha.mk_datetime 2024 3 29 0 0 0 0));
      ("2024-02-2٩", Some (Fecha.mk_datetime 2024 2 29 0 0 0 0));
      ("2023-02-2٩", None);
      ("9999-12-31", Some (Fecha.mk_datetime 9999 12 31 0 0 0 0));
      ("", None);
      ("2024", None);
      ("2024-03", None);
      ("2024-03-", None);
      ("2024-03-05T", None);
      ("2024-03-05 10:30:00", None);
      ("2024/03/05", None);
      ("03-05-2024", None);
      ("2024-03- 0", None);
      ("2024-03-  5", None);
      ("2024-1 -05", None);
      ("2024-03-10", Some (Fecha.mk_datetime 2024 3 10 0 0 0 0));
      ("2024-03-20", Some (Fecha.mk_datetime 2024 3 20 0 0 0 0));
      ("2024-03-30", Some (Fecha.mk_datetime 2024 3 30 0 0 0 0));
      ("2024-03-19", Some (Fecha.mk_datetime 2024 3 19 0 0 0 0));
      ("2024-02-30", None);
      ("2100-02-29", None);
      ("2400-02-29", Some (Fecha.mk_datetime 2400 2 29 0 0 0 0)) ].
Proof. repeat constructor. Qed.

Example str_datetime_ex :
  Fecha.str_datetime (Fecha.mk_datetime 2024 3 5 0 0 0 0) = "2024-03-05 00:00:00".
Proof. reflexivity. Qed.

Section Fechas.

Import Fecha.

Variable digito_unicode : string -> option Z.

Local Abbreviation decimal := (Fecha.decimal digito_unicode).
Local Abbreviation es_dec := (es_decimal digito_unicode).
Local Abbreviation dia_escrito := (dia_escrito digito_unicode).

Ltac a_desigualdades :=
  repeat match goal with
         | H : (_ && _) = true |- _ => apply andb_true_iff in H as [? ?]
         | H : (_ <=? _) = true |- _ => apply Z.leb_le in H
         end.

Lemma texto_cons (x : ascii) (a b : string) : String x a +:+ b = String x (a +:+ b).
Proof. reflexivity. Qed.

Lemma texto_vacio_l (a : string) : "" +:+ a = a.
Proof. reflexivity. Qed.

Lemma texto_vacio_r (a : string) : a +:+ "" = a.
Proof. induction a as [|x a IH]; [done|]. by rewrite texto_cons, IH. Qed.

Lemma digito_rango c v : digito c = Some v -> 0 <= v <= 9.
Proof.
  unfold digito. case_match eqn:Hr; [|done]. intros [= <-].
  apply andb_true_iff in Hr as [H1 H2]. lia.
Qed.

Lemma digito_caracter c v :
  digito c = Some v -> c = ascii_of_N (Z.to_N (v + 48)).
Proof.
  unfold digito. case_match eqn:Hr; [|done]. intros [= <-].
  rewrite Z.sub_add, N2Z.id. by rewrite ascii_N_embedding.
Qed.

(** The ten ASCII digits, one by one. *)
Lemma digito_casos c v :
  digito c = Some v ->
  (c, v) ∈ [ ("0"%char, 0); ("1"%char, 1); ("2"%char, 2); ("3"%char, 3);
             ("4"%char, 4); ("5"%char, 5); ("6"%char, 6); ("7"%char, 7);
             ("8"%char, 8); ("9"%char, 9) ].
Proof.
  intros Hd. pose proof (digito_rango _ _ Hd) as Hr.
  rewrite (digito_caracter _ _ Hd).
  assert (Hv : v = 0 ∨ v = 1 ∨ v = 2 ∨ v = 3 ∨ v = 4 ∨ v = 5 ∨ v = 6 ∨ v = 7
               ∨ v = 8 ∨ v = 9) by lia.
  decompose [or] Hv; subst; vm_compute ascii_of_N;
    repeat first [by left | right].
Qed.

Lemma es_guion_eq g : es_guion g = true -> g = "-"%char.
Proof. apply Ascii.eqb_eq. Qed.

Lemma partir_forma n s a b :
  partir n s = Some (a, b) -> s = a +:+ b ∧ String.length a = n.
Proof.
  revert s a b. induction n as [|n IH]; intros s a b; simpl.
  - by intros [= <- <-].
  - destruct s as [|c r]; [done|].
    destruct (partir n r) as [[a' b']|] eqn:Hp; [|done].
    intros [= <- <-]. destruct (IH _ _ _ Hp) as [-> <-]. done.
Qed.

Lemma partir_app a r : partir (String.length a) (a +:+ r) = Some (a, r).
Proof.
  induction a as [|c a IH]; [done|].
  rewrite texto_cons. simpl. by rewrite IH.
Qed.

Lemma primer_caracter_forma s c r :
  primer_caracter s = Some (c, r) ->
  s = c +:+ r ∧ c ≠ "" ∧ ∀ r', primer_caracter (c +:+ r') = Some (c, r').
Proof.
  unfold primer_caracter. destruct s as [|x s']; [done|].
  intros Hp. destruct (partir_forma _ _ _ _ Hp) as [Hs Hl].
  destruct c as [|y c'].
  - exfalso. simpl in Hl. unfold largo_utf8 in Hl. by repeat case_match.
  - split; [done|]. split; [done|]. intros r'.
    rewrite texto_cons in Hs. injection Hs as <- _.
    rewrite texto_cons. rewrite <- Hl. apply (partir_app (String x c') r').
Qed.

Lemma decimal_forma s v r :
  decimal s = Some (v, r) ->
  ∃ c, s = c +:+ r ∧ es_dec c v ∧ ∀ r', decimal (c +:+ r') = Some (v, r').
Proof.
  intros Hd. unfold Fecha.decimal in Hd.
  destruct (primer_caracter s) as [[c r0]|] eqn:Hp; [|done].
  destruct (primer_caracter_forma _ _ _ Hp) as (-> & Hne & Happ).
  exists c.
  assert (Hr : r0 = r ∧ ∀ r', decimal (c +:+ r') = Some (v, r')).
  { destruct c as [|a [|b c']]; [done| |].
    - destruct (digito a) as [v0|] eqn:Ha; [|done]. inversion Hd; subst.
      split; [done|]. intros r'. unfold Fecha.decimal. rewrite Happ.
      by rewrite Ha.
    - destruct (digito_unicode _) as [v0|] eqn:Ha; [|done]. inversion Hd; subst.
      split; [done|]. intros r'. unfold Fecha.decimal. rewrite Happ.
      by rewrite Ha. }
  destruct Hr as [-> Hr]. split; [done|]. split; [|done].
  unfold es_decimal. specialize (Hr ""). by rewrite texto_vacio_r in Hr.
Qed.

Lemma decimal_app c v r : es_dec c v -> decimal (c +:+ r) = Some (v, r).
Proof.
  intros Hc. destruct (decimal_forma _ _ _ Hc) as (c0 & Heq & _ & Happ).
  rewrite texto_vacio_r in Heq. subst c0. apply Happ.
Qed.

Lemma campo_Y_forma s y r :
  campo_Y digito_unicode s = Some (y, r)
  <-> ∃ a1 a2 a3 a4 y1 y2 y3 y4,
        s = a1 +:+ a2 +:+ a3 +:+ a4 +:+ r
        ∧ es_dec a1 y1 ∧ es_dec a2 y2 ∧ es_dec a3 y3 ∧ es_dec a4 y4
        ∧ y = 1000 * y1 + 100 * y2 + 10 * y3 + y4.
Proof.
  unfold campo_Y. split.
  - destruct (decimal s) as [[y1 s1]|] eqn:H1; [|done].
    destruct (decimal s1) as [[y2 s2]|] eqn:H2; [|done].
    destruct (decimal s2) as [[y3 s3]|] eqn:H3; [|done].
    destruct (decimal s3) as [[y4 s4]|] eqn:H4; [|done].
    intros [= <- <-].
    apply decimal_forma in H1 as (a1 & -> & Ha1 & _).
    apply decimal_forma in H2 as (a2 & -> & Ha2 & _).
    apply decimal_forma in H3 as (a3 & -> & Ha3 & _).
    apply decimal_forma in H4 as (a4 & -> & Ha4 & _).
    by exists a1, a2, a3, a4, y1, y2, y3, y4.
  - intros (a1 & a2 & a3 & a4 & y1 & y2 & y3 & y4 & -> & H1 & H2 & H3 & H4 & ->).
    by rewrite (decimal_app _ _ _ H1), (decimal_app _ _ _ H2),
      (decimal_app _ _ _ H3), (decimal_app _ _ _ H4).
Qed.

Ltac por_digitos :=
  repeat match goal with
         | H : digito ?c = Some ?v |- _ =>
             let Hc := fresh "Hc" in
             pose proof (digito_casos _ _ H) as Hc; clear H;
             repeat (apply elem_of_cons in Hc as [Hc|Hc];
                     [injection Hc as -> ->|]);
             [..|by apply elem_of_nil in Hc]
         end.

Ltac en_tabla := repeat first [by left | right].

Lemma campo_m_forma s m r :
  campo_m s = Some (m, r)
  <-> ∃ M, s = M +:+ "-" +:+ r ∧ (M, m) ∈ meses_escritos.
Proof.
  unfold campo_m. cbn [primera]. split.
  - destruct (campo_m_dos s) as [[m' r']|] eqn:Hdos.
    + intros [= -> ->]. unfold campo_m_dos in Hdos.
      destruct s as [|m1 [|m2 [|g r0]]]; try done.
      destruct (es_guion g) eqn:Hg; [|done]. apply es_guion_eq in Hg as ->.
      destruct (digito m1) as [v1|] eqn:H1; [|done].
      destruct (digito m2) as [v2|] eqn:H2; [|by repeat case_match].
      exists (String m1 (String m2 "")).
      por_digitos; simpl in Hdos; try done; inversion Hdos; subst;
        (split; [done|]); unfold meses_escritos; en_tabla.
    + clear Hdos. destruct (campo_m_uno s) as [[m' r']|] eqn:Huno; [|done].
      intros [= -> ->]. unfold campo_m_uno in Huno.
      destruct s as [|m1 [|g r0]]; try done.
      destruct (es_guion g) eqn:Hg; [|done]. apply es_guion_eq in Hg as ->.
      destruct (digito m1) as [v1|] eqn:H1; [|done].
      exists (String m1 "").
      por_digitos; simpl in Huno; try done; inversion Huno; subst;
        (split; [done|]); unfold meses_escritos; en_tabla.
  - intros (M & -> & HM). unfold meses_escritos in HM.
    repeat (apply elem_of_cons in HM as [HM|HM];
            [injection HM as -> ->;
             first [reflexivity
                   | destruct r as [|x r']; [reflexivity|];
                     rewrite ?texto_cons, ?texto_vacio_l; unfold campo_m_dos;
                     destruct (es_guion x); reflexivity]|]).
    by apply elem_of_nil in HM.
Qed.

Lemma decimal_vacio v r : decimal "" ≠ Some (v, r).
Proof. done. Qed.

Lemma dia_12d_forma s d r :
  dia_12d digito_unicode s = Some (d, r) ->
  ∃ c v, es_dec c v
         ∧ ((s = "1" +:+ c +:+ r ∧ d = 10 + v)
            ∨ (s = "2" +:+ c +:+ r ∧ d = 20 + v)).
Proof.
  unfold dia_12d. destruct s as [|d1 r0]; [done|].
  destruct (digito d1) as [t|] eqn:H1; [|done].
  destruct ((1 <=? t) && (t <=? 2)) eqn:Ht; [|done].
  destruct (decimal r0) as [[v r1]|] eqn:Hdec; [|done].
  intros [= <- <-].
  apply decimal_forma in Hdec as (c & -> & Hc & _).
  exists c, v. split; [done|].
  a_desigualdades.
  por_digitos; try lia; [by left | by right].
Qed.

Lemma dia_12d_app c v r :
  es_dec c v ->
  dia_12d digito_unicode ("1" +:+ c +:+ r) = Some (10 + v, r)
  ∧ dia_12d digito_unicode ("2" +:+ c +:+ r) = Some (20 + v, r).
Proof.
  intros Hc. rewrite !texto_cons, !texto_vacio_l. unfold dia_12d.
  change (digito "1") with (Some 1). change (digito "2") with (Some 2).
  cbn [Z.leb Z.compare Pos.compare Pos.compare_cont andb].
  by rewrite (decimal_app _ _ _ Hc).
Qed.

Lemma dia_3x_12 c r :
  dia_3x ("1" +:+ c +:+ r) = None ∧ dia_3x ("2" +:+ c +:+ r) = None.
Proof.
  rewrite !texto_cons, !texto_vacio_l. unfold dia_3x.
  destruct (c +:+ r) as [|x r']; [done|].
  by destruct (digito x).
Qed.

Lemma campo_d_forma s d :
  campo_d digito_unicode s = Some (d, "") <-> dia_escrito s d.
Proof.
  unfold campo_d, dia_escrito. cbn [primera]. split.
  - destruct (dia_3x s) as [[d' r']|] eqn:H3.
    { intros [= -> ->]. left. unfold dia_3x in H3.
      destruct s as [|d1 [|d2 r0]]; try done.
      destruct (digito d1) as [v1|] eqn:H1; [|done].
      destruct (digito d2) as [v2|] eqn:H2; [|by repeat case_match].
      por_digitos; simpl in H3; try done; inversion H3; subst;
        unfold dias_escritos; en_tabla. }
    clear H3.
    destruct (dia_12d digito_unicode s) as [[d' r']|] eqn:H12.
    { intros [= -> ->]. right.
      apply dia_12d_forma in H12 as (c & v & Hc & H12).
      exists c, v. split; [done|]. by rewrite !texto_vacio_r in H12. }
    clear H12.
    destruct (dia_0x s) as [[d' r']|] eqn:H0.
    { intros [= -> ->]. left. unfold dia_0x in H0.
      destruct s as [|d1 [|d2 r0]]; try done.
      destruct (digito d1) as [v1|] eqn:H1; [|done].
      destruct (digito d2) as [v2|] eqn:H2; [|by repeat case_match].
      por_digitos; simpl in H0; try done; inversion H0; subst;
        unfold dias_escritos; en_tabla. }
    clear H0.
    destruct (dia_x s) as [[d' r']|] eqn:Hx.
    { intros [= -> ->]. left. unfold dia_x in Hx.
      destruct s as [|d1 r0]; try done.
      destruct (digito d1) as [v1|] eqn:H1; [|done].
      por_digitos; simpl in Hx; try done; inversion Hx; subst;
        unfold dias_escritos; en_tabla. }
    clear Hx.
    destruct (dia_espacio s) as [[d' r']|] eqn:He; [|done].
    intros [= -> ->]. left. unfold dia_espacio in He.
    destruct s as [|d1 [|d2 r0]]; try done.
    destruct (Ascii.eqb d1 " ") eqn:Hsp; [|done].
    apply Ascii.eqb_eq in Hsp as ->.
    destruct (digito d2) as [v2|] eqn:H2; [|done].
    por_digitos; simpl in He; try done; inversion He; subst;
      unfold dias_escritos; en_tabla.
  - intros [Htab | (c & v & Hc & Hs)].
    + unfold dias_escritos in Htab.
      repeat (apply elem_of_cons in Htab as [Htab|Htab];
              [injection Htab as -> ->; reflexivity|]).
      by apply elem_of_nil in Htab.
    + pose proof (dia_3x_12 c "") as [H31 H32].
      pose proof (dia_12d_app c v "" Hc) as [H121 H122].
      rewrite !texto_vacio_r in H31, H32, H121, H122.
      destruct Hs as [[-> ->] | [-> ->]].
      * by rewrite H31, H121.
      * by rewrite H32, H122.
Qed.

(** The whole of [strptime(s, "%Y-%m-%d")]: what it accepts and the
    value it gives. *)
Lemma strptime_Ymd_forma s t :
  strptime_Ymd digito_unicode s = Some t
  <-> ∃ a1 a2 a3 a4 y1 y2 y3 y4 M D m d,
        s = a1 +:+ a2 +:+ a3 +:+ a4 +:+ "-" +:+ M +:+ "-" +:+ D
        ∧ es_dec a1 y1 ∧ es_dec a2 y2 ∧ es_dec a3 y3 ∧ es_dec a4 y4
        ∧ (M, m) ∈ meses_escritos
        ∧ dia_escrito D d
        ∧ 1 <= 1000 * y1 + 100 * y2 + 10 * y3 + y4
        ∧ d <= dias_del_mes (1000 * y1 + 100 * y2 + 10 * y3 + y4) m
        ∧ t = mk_datetime (1000 * y1 + 100 * y2 + 10 * y3 + y4) m d 0 0 0 0.
Proof.
  unfold strptime_Ymd. split.
  - destruct (campo_Y digito_unicode s) as [[y r]|] eqn:HY; [|done].
    destruct r as [|g r]; [done|].
    destruct (es_guion g) eqn:Hg; [|done]. apply es_guion_eq in Hg as ->.
    destruct (campo_m r) as [[m r']|] eqn:Hm; [|done].
    destruct (campo_d digito_unicode r') as [[dd [|x r'']]|] eqn:Hd; [|done|done].
    destruct ((1 <=? y) && (dd <=? dias_del_mes y m)) eqn:Hv; [|done].
    intros [= <-].
    apply campo_Y_forma in HY
      as (a1 & a2 & a3 & a4 & y1 & y2 & y3 & y4 & -> & H1 & H2 & H3 & H4 & ->).
    apply campo_m_forma in Hm as (M & -> & HM).
    apply campo_d_forma in Hd.
    a_desigualdades.
    by exists a1, a2, a3, a4, y1, y2, y3, y4, M, r', m, dd.
  - intros (a1 & a2 & a3 & a4 & y1 & y2 & y3 & y4 & M & D & m & d & -> & H1 & H2
            & H3 & H4 & HM & HD & Hy & Hd & ->).
    assert (HY : campo_Y digito_unicode
                   (a1 +:+ a2 +:+ a3 +:+ a4 +:+ "-" +:+ M +:+ "-" +:+ D)
                 = Some (1000 * y1 + 100 * y2 + 10 * y3 + y4,
                         String "-" (M +:+ "-" +:+ D))).
    { apply campo_Y_forma. by exists a1, a2, a3, a4, y1, y2, y3, y4. }
    rewrite HY. cbn [es_guion Ascii.eqb Bool.eqb].
    assert (Hm : campo_m (M +:+ "-" +:+ D) = Some (m, D)).
    { apply campo_m_forma. by exists M. }
    rewrite Hm. apply campo_d_forma in HD. rewrite HD.
    apply Z.leb_le in Hy, Hd. by rewrite Hy, Hd.
Qed.

(** The days of a month, written out. *)
Lemma dias_del_mes_calendario y m :
  dias_del_mes y m
  = if bool_decide (m ∈ [4; 6; 9; 11]) then 30
    else if bool_decide (m = 2)
         then if bool_decide (y mod 4 = 0 ∧ (y mod 100 ≠ 0 ∨ y mod 400 = 0))
              then 29 else 28
         else 31.
Proof.
  unfold dias_del_mes, es_bisiesto.
  repeat case_bool_decide;
    repeat match goal with
           | H : _ ∈ _ :: _ |- _ => apply elem_of_cons in H as [H|H]
           | H : _ ∈ [] |- _ => by apply elem_of_nil in H
           | H : ¬ (_ ∈ _) |- _ =>
               rewrite !elem_of_cons, elem_of_nil in H
           end; subst; try done;
    repeat match goal with
           | |- context [?a =? ?b] =>
               let E := fresh in
               destruct (Z.eqb_spec a b) as [E|E]; try lia
           end; simpl; try done; try lia; tauto.
Qed.

(** A decimal digit is one of the ten ASCII digits or a character of
    several bytes that the Unicode database has as a digit. *)
Lemma es_decimal_casos c v :
  es_dec c v
  <-> (∃ a, c = String a ""
            ∧ (a, v) ∈ [ ("0"%char, 0); ("1"%char, 1); ("2"%char, 2);
                         ("3"%char, 3); ("4"%char, 4); ("5"%char, 5);
                         ("6"%char, 6); ("7"%char, 7); ("8"%char, 8);
                         ("9"%char, 9) ])
      ∨ ((2 <= String.length c)%nat
         ∧ primer_caracter c = Some (c, "")
         ∧ digito_unicode c = Some v).
Proof.
  unfold es_decimal, Fecha.decimal. split.
  - destruct (primer_caracter c) as [[c1 r]|] eqn:Hp; [|done].
    destruct (primer_caracter_forma _ _ _ Hp) as (Hc & Hne & _).
    destruct c1 as [|a [|b c1']]; [done| |].
    + destruct (digito a) as [v0|] eqn:Ha; [|done]. intros [= -> ->].
      left. exists a. rewrite texto_vacio_r in Hc. split; [done|].
      by apply digito_casos.
    + destruct (digito_unicode _) as [v0|] eqn:Ha; [|done]. intros [= -> ->].
      right. rewrite texto_vacio_r in Hc. subst c.
      split; [simpl; lia|]. by split.
  - intros [(a & -> & Ha) | (Hl & Hp & Hu)].
    + repeat (apply elem_of_cons in Ha as [Ha|Ha];
              [injection Ha as -> ->; reflexivity|]).
      by apply elem_of_nil in Ha.
    + rewrite Hp. destruct c as [|a [|b c']]; [simpl in Hl; lia..|].
      by rewrite Hu.
Qed.

End Fechas.

Section Validacion.

Context {flotante : Type}.
Variable py_int : string -> option Z.
Variable py_float : string -> option (option flotante).
Variable digito_unicode : string -> option Z.

Local Abbreviation validar := (validar_entrada py_int py_float digito_unicode).
Local Abbreviation es_dec := (es_decimal digito_unicode).

Lemma validar_fecha tipo_sql entrada :
  tipo_sql ∈ tipos_fecha ->
  validar tipo_sql entrada
  = match Fecha.strptime_Ymd digito_unicode entrada with
    | Some t => Aceptado (VFecha t)
    | None => Rechazado None
    end.
Proof.
  unfold tipos_fecha. intros Ht.
  repeat (apply elem_of_cons in Ht as [->|Ht]; [reflexivity|]).
  by apply elem_of_nil in Ht.
Qed.

(** C7 (amended). The four date and time types are validated by the
    same call, [strptime(entrada, "%Y-%m-%d")], whatever the type, and
    the value has no time of day.  The entries accepted are exactly
    these: four decimal digits for the year, a dash, the month written
    as 1 to 12 with or without its leading zero, a dash, and the day
    written as 1 to 31 with a leading zero, a leading space or neither,
    with nothing after it; the year is not 0 and the day is one of the
    month, February having 29 days in the years divisible by 4 that are
    not divisible by 100 or are divisible by 400.  Every other entry
    raises [ValueError].  A decimal digit is one of the ten ASCII digits
    or, in the year and after a 1 or 2 in the day, a character that the
    Unicode database has as a digit.  So "2024-03-05" is accepted, and
    so is "2024-3-5"; "2024/03/05", "03-05-2024" and an entry with a
    time are refused. *)
Theorem fechas_segun_patron tipo_sql entrada :
  tipo_sql ∈ ["date"; "datetime"; "smalldatetime"; "datetime2"] ->
  (∀ t,
      validar tipo_sql entrada = Aceptado (VFecha t)
      <-> ∃ a1 a2 a3 a4 y1 y2 y3 y4 M D m d,
            let y := 1000 * y1 + 100 * y2 + 10 * y3 + y4 in
            entrada = a1 +:+ a2 +:+ a3 +:+ a4 +:+ "-" +:+ M +:+ "-" +:+ D
            ∧ es_dec a1 y1 ∧ es_dec a2 y2 ∧ es_dec a3 y3 ∧ es_dec a4 y4
            ∧ (M, m) ∈ [ ("10", 10); ("11", 11); ("12", 12);
                         ("01", 1); ("02", 2); ("03", 3); ("04", 4);
                         ("05", 5); ("06", 6); ("07", 7); ("08", 8);
                         ("09", 9);
                         ("1", 1); ("2", 2); ("3", 3); ("4", 4); ("5", 5);
                         ("6", 6); ("7", 7); ("8", 8); ("9", 9) ]
            ∧ ((D, d) ∈ [ ("30", 30); ("31", 31);
                          ("01", 1); ("02", 2); ("03", 3); ("04", 4);
                          ("05", 5); ("06", 6); ("07", 7); ("08", 8);
                          ("09", 9);
                          ("1", 1); ("2", 2); ("3", 3); ("4", 4); ("5", 5);
                          ("6", 6); ("7", 7); ("8", 8); ("9", 9);
                          (" 1", 1); (" 2", 2); (" 3", 3); (" 4", 4);
                          (" 5", 5); (" 6", 6); (" 7", 7); (" 8", 8);
                          (" 9", 9) ]
               ∨ ∃ c v, es_dec c v
                        ∧ ((D = "1" +:+ c ∧ d = 10 + v)
                           ∨ (D = "2" +:+ c ∧ d = 20 + v)))
            ∧ 1 <= y
            ∧ d <= (if bool_decide (m ∈ [4; 6; 9; 11]) then 30
                    else if bool_decide (m = 2)
                         then if bool_decide
                                   (y mod 4 = 0
                                    ∧ (y mod 100 ≠ 0 ∨ y mod 400 = 0))
                              then 29 else 28
                         else 31)
            ∧ t = Fecha.mk_datetime y m d 0 0 0 0)
  ∧ ((∃ t, validar tipo_sql entrada = Aceptado (VFecha t))
     ∨ validar tipo_sql entrada = Rechazado None)
  ∧ (∀ c v,
        es_dec c v
        <-> (∃ a, c = String a ""
                  ∧ (a, v) ∈ [ ("0"%char, 0); ("1"%char, 1); ("2"%char, 2);
                               ("3"%char, 3); ("4"%char, 4); ("5"%char, 5);
                               ("6"%char, 6); ("7"%char, 7); ("8"%char, 8);
                               ("9"%char, 9) ])
            ∨ ((2 <= String.length c)%nat
               ∧ Fecha.primer_caracter c = Some (c, "")
               ∧ digito_unicode c = Some v))
  ∧ validar tipo_sql "2024-03-05"
    = Aceptado (VFecha (Fecha.mk_datetime 2024 3 5 0 0 0 0))
  ∧ validar tipo_sql "2024-3-5"
    = Aceptado (VFecha (Fecha.mk_datetime 2024 3 5 0 0 0 0))
  ∧ validar tipo_sql "2024/03/05" = Rechazado None
  ∧ validar tipo_sql "03-05-2024" = Rechazado None
  ∧ validar tipo_sql "2024-03-05 10:30:00" = Rechazado None.
Proof.
  intros Ht. change (tipo_sql ∈ tipos_fecha) in Ht.
  split; [|split; [|split; [apply es_decimal_casos|]]].
  - intros t. rewrite (validar_fecha _ _ Ht).
    transitivity (Fecha.strptime_Ymd digito_unicode entrada = Some t).
    { destruct (Fecha.strptime_Ymd digito_unicode entrada) as [t'|].
      - split; intros H; by inversion H.
      - split; intros H; by inversion H. }
    rewrite strptime_Ymd_forma.
    do 12 (apply exist_proper; intros ?). cbv zeta.
    by rewrite dias_del_mes_calendario.
  - rewrite (validar_fecha _ _ Ht).
    destruct (Fecha.strptime_Ymd digito_unicode entrada) as [t'|];
      [left; by exists t' | by right].
  - by rewrite !(validar_fecha _ _ Ht).
Qed.

(** C6 (amended). For a [bit] column the entry, lower-cased, is
    accepted as 1 exactly when it is one of "1", "true", "sí", "si",
    and as 0 exactly when it is one of "0", "false", "no"; any other
    entry, "yes" for one, raises [ValueError] with the text
    "Debe ingresar 1/0 o true/false", which names 1, 0, true and false
    and leaves out "sí", "si" and "no". *)
Theorem bit_literales entrada :
  let r := validar "bit" entrada in
  (r = Aceptado (VInt 1) <-> PyStr.lower entrada ∈ ["1"; "true"; "sí"; "si"])
  ∧ (r = Aceptado (VInt 0) <-> PyStr.lower entrada ∈ ["0"; "false"; "no"])
  ∧ (r = Rechazado (Some mensaje_bit)
     <-> ((PyStr.lower entrada ∉ ["1"; "true"; "sí"; "si"])
          ∧ (PyStr.lower entrada ∉ ["0"; "false"; "no"])))
  ∧ Forall (fun lit => PyStr.contiene mensaje_bit lit = true)
      ["1"; "0"; "true"; "false"]
  ∧ Forall (fun lit => PyStr.contiene mensaje_bit lit = false) ["sí"; "si"; "no"]
  ∧ Forall (fun e => validar "bit" e = Aceptado (VInt 1))
      ["1"; "true"; "TRUE"; "True"; "sí"; "SÍ"; "Si"; "SI"]
  ∧ Forall (fun e => validar "bit" e = Aceptado (VInt 0))
      ["0"; "false"; "FALSE"; "no"; "No"; "NO"]
  ∧ validar "bit" "yes" = Rechazado (Some mensaje_bit).
Proof.
  intros r.
  assert (Hr : r = if PyStr.en_lista (PyStr.lower entrada) ["1"; "true"; "sí"; "si"]
                   then Aceptado (VInt 1)
                   else if PyStr.en_lista (PyStr.lower entrada) ["0"; "false"; "no"]
                        then Aceptado (VInt 0)
                        else Rechazado (Some mensaje_bit)) by reflexivity.
  assert (Hdisj : ∀ x : string, x ∈ ["1"; "true"; "sí"; "si"] ->
                                x ∈ ["0"; "false"; "no"] -> False).
  { intros x H1 H0.
    repeat (apply elem_of_cons in H1 as [->|H1];
            [by repeat (apply elem_of_cons in H0 as [?|H0]; [done|]);
                apply elem_of_nil in H0|]).
    by apply elem_of_nil in H1. }
  rewrite Hr. unfold PyStr.en_lista. clear Hr r.
  split; [|split; [|split]].
  - destruct (decide (PyStr.lower entrada ∈ ["1"; "true"; "sí"; "si"])) as [H1|H1].
    + by rewrite (bool_decide_eq_true_2 _ H1).
    + rewrite (bool_decide_eq_false_2 _ H1). split; [|done].
      by case_bool_decide.
  - destruct (decide (PyStr.lower entrada ∈ ["1"; "true"; "sí"; "si"])) as [H1|H1].
    + rewrite (bool_decide_eq_true_2 _ H1). split; [done|].
      intros H0. destruct (Hdisj _ H1 H0).
    + rewrite (bool_decide_eq_false_2 _ H1).
      destruct (decide (PyStr.lower entrada ∈ ["0"; "false"; "no"])) as [H0|H0].
      * by rewrite (bool_decide_eq_true_2 _ H0).
      * by rewrite (bool_decide_eq_false_2 _ H0).
  - destruct (decide (PyStr.lower entrada ∈ ["1"; "true"; "sí"; "si"])) as [H1|H1].
    + rewrite (bool_decide_eq_true_2 _ H1). split; [done | by intros [? _]].
    + rewrite (bool_decide_eq_false_2 _ H1).
      destruct (decide (PyStr.lower entrada ∈ ["0"; "false"; "no"])) as [H0|H0].
      * rewrite (bool_decide_eq_true_2 _ H0). split; [done | by intros [_ ?]].
      * by rewrite (bool_decide_eq_false_2 _ H0).
  - repeat split; repeat constructor.
Qed.

End Validacion.

(** ** The claims on concrete runs *)

(** C1. The claim fails on a file whose rows are labelled by text, as
    [read_json] labels them: the row number of the first row cannot be
    computed, the [TypeError] is caught by nothing, and the run ends
    there.  The first row has been counted and is neither loaded nor
    recorded as failed, the second row is never read, and no summary is
    written. *)
Theorem contadores_con_etiqueta_de_texto :
  length (df_filas Ejemplo.df_json) = 2%nat
  ∧ Ejemplo.archivo_json
    = mk_corrida_archivo
        (ExcepcionNoCapturada (TypeError Ejemplo.error_texto_mas_entero)
           (mk_estado_archivo Ejemplo.conexion_nueva 1 0 []))
        Ejemplo.conexion_nueva []
  ∧ match ca_fin Ejemplo.archivo_json with
    | ExcepcionNoCapturada _ st =>
        filas_procesadas st ≠ (filas_cargadas st + length (a_errores st))%nat
        ∧ (filas_cargadas st + length (a_errores st))%nat
          ≠ length (df_filas Ejemplo.df_json)
    | _ => False
    end.
Proof. split; [reflexivity|]. split; [reflexivity|]. by vm_compute. Qed.

(** C7, as stated, fails: an entry that is not written as YYYY-MM-DD, the
    month and the day without their leading zero, is accepted. *)
Lemma fecha_sin_ceros_aceptada :
  formato_YYYY_MM_DD "2024-3-5" = false
  ∧ validar_entrada Ejemplo.py_int Ejemplo.py_float Ejemplo.digito_unicode "date" "2024-3-5"
    = Aceptado (VFecha (Fecha.mk_datetime 2024 3 5 0 0 0 0)).
Proof. split; reflexivity. Qed.

(** C6, as stated, fails: the message of the error raised for "yes" does
    not name the accepted literals "si" and "no". *)
Lemma mensaje_bit_omite_literales :
  validar_entrada Ejemplo.py_int Ejemplo.py_float Ejemplo.digito_unicode "bit" "yes"
  = Rechazado (Some "Debe ingresar 1/0 o true/false")
  ∧ validar_entrada Ejemplo.py_int Ejemplo.py_float Ejemplo.digito_unicode "bit" "si" = Aceptado (VInt 1)
  ∧ validar_entrada Ejemplo.py_int Ejemplo.py_float Ejemplo.digito_unicode "bit" "no" = Aceptado (VInt 0)
  ∧ PyStr.contiene "Debe ingresar 1/0 o true/false" "si" = false
  ∧ PyStr.contiene "Debe ingresar 1/0 o true/false" "no" = false.
Proof. repeat split; reflexivity. Qed.

(** C7 (amended) on the type [datetime2]: the entry "2024-03-1٣", its
    last digit Arabic-Indic, is the thirteenth of March. *)
Lemma fechas_segun_patron_ejemplo :
  validar_entrada Ejemplo.py_int Ejemplo.py_float Ejemplo.digito_unicode
    "datetime2" "2024-03-1٣"
  = Aceptado (VFecha (Fecha.mk_datetime 2024 3 13 0 0 0 0))
  ∧ validar_entrada Ejemplo.py_int Ejemplo.py_float Ejemplo.digito_unicode
      "datetime2" "2024-3-5"
    = Aceptado (VFecha (Fecha.mk_datetime 2024 3 5 0 0 0 0)).
Proof.
  destruct (fechas_segun_patron Ejemplo.py_int Ejemplo.py_float Ejemplo.digito_unicode
              "datetime2" "2024-03-1٣")
    as (Hiff & _ & _ & _ & Hsin & _).
  - apply (bool_decide_unpack _). by vm_compute.
  - split; [|exact Hsin]. apply Hiff.
    exists "2", "0", "2", "4", 2, 0, 2, 4, "03", "1٣", 3, 13.
    cbv zeta. split; [reflexivity|].
    split; [reflexivity|]. split; [reflexivity|]. split; [reflexivity|].
    split; [reflexivity|].
    split; [apply (bool_decide_unpack _); by vm_compute|].
    split.
    { right. exists "٣", 3. split; [reflexivity|]. left. split; reflexivity. }
    split; [lia|]. split; [by vm_compute | reflexivity].
Defined.

(** X21 on the file of three rows and on the manual run of two rows. *)
Lemma contadores_cuadran_ejemplo :
  (∃ st,
      ca_fin Ejemplo.archivo_tres = CargaFinalizada st
      ∧ filas_procesadas st = (filas_cargadas st + length (a_errores st))%nat
      ∧ (filas_cargadas st + length (a_errores st))%nat = 3%nat)
  ∧ (∃ run,
        Ejemplo.manual_dos = Some run
        ∧ ∀ st, cm_fin run = CargaManualFinalizada st ->
                attempt_counter st
                = (filas_insertadas st + length (m_errores st))%nat).
Proof.
  destruct (contadores_cuadran Ejemplo.py_int Ejemplo.py_float Ejemplo.digito_unicode
              Ejemplo.str_float Ejemplo.suma_uno
              Ejemplo.format_exc Ejemplo.rechaza_negativos Ejemplo.ahora
              "ventas" "T" "datos.csv" ["id"; "name"; "BI_EJECUCION"]
              Ejemplo.df_tres Ejemplo.conexion_nueva
              Ejemplo.esquema_T ["x"; "7"; "Ana"; "s"; "-1"; "Luis"; "n"]
              Ejemplo.conexion_nueva) as [Ha Hm].
  - reflexivity.
  - apply coinciden_iff. reflexivity.
  - split; [|exact Hm]. unfold Ejemplo.archivo_tres.
    remember (ca_fin _) as fin eqn:Hfin in Ha |- *.
    destruct fin as [impreso|e st|st].
    + destruct Ha.
    + vm_compute in Hfin. discriminate.
    + exists st. split; [reflexivity|]. destruct Ha as (_ & H1 & H2).
      split; [exact H1 | exact H2].
Defined.

(** C3, as stated, fails: a value that does not validate under the type
    of its column (here a date written with slashes, for a column of
    type [date]) is not checked by the file loader; the row is sent as it
    is and, the server taking it, is counted as loaded. *)
Lemma fecha_con_barras_se_carga :
  validar_entrada Ejemplo.py_int Ejemplo.py_float Ejemplo.digito_unicode "date" "2024/03/05"
  = Rechazado None
  ∧ ∃ st,
      ca_fin Ejemplo.archivo_fecha = CargaFinalizada st
      ∧ filas_cargadas st = 1%nat
      ∧ a_errores st = []
      ∧ confirmadas (ca_conn Ejemplo.archivo_fecha)
        = [("INSERT INTO [T] (alta, Bi_ejecucion) VALUES (?, GETDATE())",
            [VStr "2024/03/05"])].
Proof. split; [reflexivity|]. eexists. repeat split; reflexivity. Qed.

(** C3 (amended) on the second row of the file of three rows. *)
Lemma fila_en_blanco_no_se_inserta_ejemplo :
  let fila : gmap string (valor Ejemplo.flotante) :=
    {[ "id" := VNa; "name" := VStr "Luis" ]} in
  ∃ d,
    (∀ st,
        procesar_fila Ejemplo.str_float Ejemplo.suma_uno Ejemplo.format_exc
          Ejemplo.rechaza_negativos "T" ["id"; "name"] st (EtEntero 1) fila
        = inr (mk_estado_archivo (a_conn st) (S (filas_procesadas st))
                 (filas_cargadas st)
                 (a_errores st
                  ++ [registro_error Ejemplo.format_exc "row" (VInt 2)
                        (ValueError "Campo 'id' en blanco (fila 2)") d])))
    ∧ d !! "id" = Some (VStr "")
    ∧ d !! "name" = Some (VStr "Luis").
Proof.
  intros fila.
  destruct (fila_en_blanco_no_se_inserta Ejemplo.str_float Ejemplo.suma_uno
              Ejemplo.format_exc Ejemplo.rechaza_negativos "T" ["id"; "name"]
              Ejemplo.df_tres 1%nat (EtEntero 1) fila [] "id" ["name"] VNa
              Ejemplo.conexion_nueva (VInt 3)
              {[ "id" := VInt 3; "name" := VStr "Eva" ]})
    as [(d & Hp & _ & _ & Hcel & Hid) _].
  - reflexivity.
  - reflexivity.
  - apply fila_completa_decide. reflexivity.
  - reflexivity.
  - apply sin_blancos_decide. reflexivity.
  - reflexivity.
  - reflexivity.
  - apply sin_blancos_decide. reflexivity.
  - exists d. split; [exact Hp|]. split; [exact Hid|].
    apply (Hcel "name" (VStr "Luis")); [|reflexivity].
    apply (bool_decide_unpack _). by vm_compute.
Defined.


(** C5 on the file of three rows, cut after the second, and on the first
    turn of the manual run. *)
Lemma commit_por_fila_ejemplo :
  ∃ st1 st2,
    bucle_archivo Ejemplo.str_float Ejemplo.suma_uno Ejemplo.format_exc Ejemplo.rechaza_negativos
      "T" ["id"; "name"] (take 2 (df_filas Ejemplo.df_tres))
      (mk_estado_archivo Ejemplo.conexion_nueva 0 0 []) = inr st1
    ∧ bucle_archivo Ejemplo.str_float Ejemplo.suma_uno Ejemplo.format_exc Ejemplo.rechaza_negativos
        "T" ["id"; "name"] (df_filas Ejemplo.df_tres)
        (mk_estado_archivo Ejemplo.conexion_nueva 0 0 []) = inr st2
    ∧ confirmadas (a_conn st1) `prefix_of` confirmadas (a_conn st2).
Proof.
  destruct (commit_por_fila Ejemplo.py_int Ejemplo.py_float Ejemplo.digito_unicode
              Ejemplo.str_float Ejemplo.suma_uno
              Ejemplo.format_exc Ejemplo.rechaza_negativos Ejemplo.ahora
              "T" ["id"; "name"]
              (take 2 (df_filas Ejemplo.df_tres)) (drop 2 (df_filas Ejemplo.df_tres))
              (mk_estado_archivo Ejemplo.conexion_nueva 0 0 [])
              (map fst Ejemplo.esquema_T) (dict_tipos Ejemplo.esquema_T) 7%nat
              (mk_estado_manual Ejemplo.conexion_nueva 1 0 0 [] [])
              ["x"; "7"; "Ana"; "s"; "-1"; "Luis"; "n"]
              [VInt 7; VStr "Ana"; VFecha (Ejemplo.ahora 1)]
              (<["Bi_ejecucion" := VStr "2024-03-05 12:00:01"]>
                 (<["name" := VStr "Ana"]> (<["id" := VStr "7"]> ∅)))
              2%nat "s" ["-1"; "Luis"; "n"]
              (Salio (mk_estado_manual
                        (mk_conexion
                           [("INSERT INTO [T] VALUES (?, ?, ?)",
                             [VInt 7; VStr "Ana"; VFecha (Ejemplo.ahora 1)])]
                           []
                           [EvExecute "INSERT INTO [T] VALUES (?, ?, ?)"
                              [VInt 7; VStr "Ana"; VFecha (Ejemplo.ahora 1)] true;
                            EvCommit;
                            EvExecute "INSERT INTO [T] VALUES (?, ?, ?)"
                              [VInt (-1); VStr "Luis"; VFecha (Ejemplo.ahora 2)] false])
                        3 2 1
                        [registro_error Ejemplo.format_exc "attempt" (VInt 2)
                           (ErrorBD "The INSERT statement conflicted with the CHECK constraint.")
                           (<["Bi_ejecucion" := VStr "2024-03-05 12:00:02"]>
                              (<["name" := VStr "Luis"]> (<["id" := VStr "-1"]> ∅)))]
                        [<["Bi_ejecucion" := VStr "2024-03-05 12:00:01"]>
                           (<["name" := VStr "Ana"]> (<["id" := VStr "7"]> ∅))])))
    as [(Hnum & _ & n1 & n2 & _ & _ & (_ & _ & _ & Hpre & _) & _) _].
  - repeat constructor; apply fila_completa_decide; reflexivity.
  - vm_compute. reflexivity.
  - reflexivity.
  - vm_compute. reflexivity.
  - destruct Hnum as (st1 & st2 & H1 & H2 & _); [repeat constructor|].
    exists st1, st2. split; [exact H1|]. split; [exact H2|].
    rewrite H1, H2 in Hpre. exact Hpre.
Defined.

(** C8, as stated, fails for the file loader: a run that loads a row
    writes the summary and nothing else; there is no table of inserted
    rows. *)
Lemma archivo_sin_tabla_de_insertadas :
  match ca_fin Ejemplo.archivo_fecha with
  | CargaFinalizada st => filas_cargadas st = 1%nat ∧ a_errores st = []
  | _ => False
  end
  ∧ ca_archivos Ejemplo.archivo_fecha
    = [ArchivoTexto "log_file_T_20240305_120000_summary.txt"
         (PyStr.join nl
            [ "Fecha: 2024-03-05 12:00:01";
              "Base de datos: ventas";
              "Tabla: T";
              "Archivo procesado: datos.csv";
              "Filas procesadas: 1";
              "Filas cargadas correctamente: 1";
              "Filas con error: 0" ])].
Proof. split; vm_compute; [split|]; reflexivity. Qed.

(** C8 (amended) on the file of three rows. *)
Lemma logs_al_finalizar_ejemplo :
  ∃ st, ca_fin Ejemplo.archivo_tres = CargaFinalizada st.
Proof.
  destruct (logs_al_finalizar Ejemplo.py_int Ejemplo.py_float Ejemplo.digito_unicode
              Ejemplo.str_float Ejemplo.suma_uno
              Ejemplo.format_exc Ejemplo.rechaza_negativos Ejemplo.ahora
              "ventas" "T" "datos.csv" ["id"; "name"; "BI_EJECUCION"]
              Ejemplo.df_tres Ejemplo.conexion_nueva
              Ejemplo.esquema_T ["x"; "7"; "Ana"; "s"; "-1"; "Luis"; "n"]
              Ejemplo.conexion_nueva) as [_ [Hfin _]].
  - reflexivity.
  - apply coinciden_iff. reflexivity.
  - destruct Hfin as [st Hst]; [reflexivity|].
    exists st. unfold Ejemplo.archivo_tres. rewrite Hst. reflexivity.
Defined.

(** C9, as stated, fails for the manual loader: the snapshot of the
    inserted row and the record of the failed row both hold a value for
    the managed column, and the table of inserted rows has a column for
    it. *)
Lemma instantanea_manual_con_marca :
  es_ejecucion "Bi_ejecucion" = true
  ∧ match Ejemplo.manual_dos with
    | Some run =>
        match cm_fin run, cm_archivos run with
        | CargaManualFinalizada st, [_; ArchivoCSV _ fieldnames _; _] =>
            match filas_insertadas_data st, m_errores st with
            | [d], [r] =>
                d !! "Bi_ejecucion" = Some (VStr "2024-03-05 12:00:01")
                ∧ r !! "Bi_ejecucion" = Some (VStr "2024-03-05 12:00:02")
                ∧ fieldnames = ["id"; "name"; "Bi_ejecucion"]
            | _, _ => False
            end
        | _, _ => False
        end
    | None => False
    end.
Proof. split; [reflexivity|]. vm_compute. repeat split; reflexivity. Qed.

(** C9 (amended) on the file of three rows. *)
Lemma instantaneas_por_modo_ejemplo :
  ∃ st, ca_fin Ejemplo.archivo_tres = CargaFinalizada st
        ∧ Forall (fun r : gmap string (valor Ejemplo.flotante) =>
                    ∃ d : gmap string (valor Ejemplo.flotante),
                      dom d = list_to_set ["id"; "name"]
                      ∧ ∀ col, col ∈ ["id"; "name"] -> r !! col = d !! col)
            (a_errores st).
Proof.
  destruct (instantaneas_por_modo Ejemplo.py_int Ejemplo.py_float Ejemplo.digito_unicode
              Ejemplo.str_float Ejemplo.suma_uno
              Ejemplo.format_exc Ejemplo.rechaza_negativos Ejemplo.ahora
              "ventas" "T" "datos.csv" ["id"; "name"; "BI_EJECUCION"]
              Ejemplo.df_tres Ejemplo.conexion_nueva
              Ejemplo.esquema_T ["x"; "7"; "Ana"; "s"; "-1"; "Luis"; "n"]
              Ejemplo.conexion_nueva) as [[Hfin _] _].
  - reflexivity.
  - apply coinciden_iff. reflexivity.
  - destruct Hfin as (st & Hst & Hall); [reflexivity|].
    exists st. split; [exact Hst|].
    eapply Forall_impl; [exact Hall|].
    intros r (idx & fila & row_num & e & d & _ & _ & _ & Hdom & _ & Hcols & _).
    exists d. split; [exact Hdom|].
    intros col Hcol. destruct (Hcols col Hcol) as (v & _ & _ & Hr). exact Hr.
Defined.

(** C10 on the table whose managed column is named in capitals, for
    the first row of the file of three rows and for the manual run in
    which the operator answers 7, Ana and n. *)
Lemma columna_gestionada_sin_caja_ejemplo :
  (∃ b, EvExecute "INSERT INTO [T] (id, name, Bi_ejecucion) VALUES (?, ?, GETDATE())"
          [VInt 1; VStr "Ana"] b
        ∈ historial (ca_conn Ejemplo.archivo_tres))
  ∧ ∃ run b,
      carga_manual Ejemplo.py_int Ejemplo.py_float Ejemplo.digito_unicode
        Ejemplo.str_float Ejemplo.format_exc Ejemplo.rechaza_negativos Ejemplo.ahora
        "ventas" "T" [("id", "int"); ("name", "varchar"); ("BI_EJECUCION", "datetime")]
        ["7"; "Ana"; "n"] Ejemplo.conexion_nueva = Some run
      ∧ historial (cm_conn run)
        = EvExecute "INSERT INTO [T] VALUES (?, ?, ?)"
            [VInt 7; VStr "Ana"; VFecha (Ejemplo.ahora 1)] b
          :: (if b then [EvCommit] else []).
Proof.
  destruct (columna_gestionada_sin_caja Ejemplo.py_int Ejemplo.py_float
              Ejemplo.digito_unicode Ejemplo.str_float Ejemplo.suma_uno
              Ejemplo.format_exc Ejemplo.rechaza_negativos Ejemplo.ahora
              "BI_EJECUCION" "ventas" "T" "datos.csv" ["id"; "name"; "BI_EJECUCION"]
              Ejemplo.df_tres Ejemplo.conexion_nueva
              (EtEntero 0) {[ "id" := VInt 1; "name" := VStr "Ana" ]}
              [("id", "int"); ("name", "varchar")] [] "datetime"
              [("7", VInt 7); ("Ana", VStr "Ana")] [] "n" [] Ejemplo.conexion_nueva)
    as ((_ & _ & _ & _ & b & Hb) & (run & st & b' & Hrun & _ & _ & Hh) & _).
  - reflexivity.
  - apply (bool_decide_unpack _). by vm_compute.
  - reflexivity.
  - apply coinciden_iff. reflexivity.
  - reflexivity.
  - constructor.
  - apply sin_blancos_decide. reflexivity.
  - repeat constructor; by vm_compute.
  - repeat constructor; reflexivity.
  - reflexivity.
  - by vm_compute.
  - split; [exists b; exact Hb|]. exists run, b'. split; [exact Hrun | exact Hh].
Defined.

(** ** The scenarios of the specification *)

(** Three rows, the id of the second blank: three processed, two loaded
    and committed, one failed; the record names row 2 and the field. *)
Example escenario_fallo_parcial :
  match ca_fin Ejemplo.archivo_tres with
  | CargaFinalizada st =>
      filas_procesadas st = 3%nat ∧ filas_cargadas st = 2%nat
      ∧ match a_errores st with
        | [r] =>
            r !! "row" = Some (VInt 2)
            ∧ r !! "error" = Some (VStr "Campo 'id' en blanco (fila 2)")
            ∧ r !! "id" = Some (VStr "")
            ∧ r !! "name" = Some (VStr "Luis")
        | _ => False
        end
  | _ => False
  end
  ∧ map snd (confirmadas (ca_conn Ejemplo.archivo_tres))
    = [[VInt 1; VStr "Ana"]; [VInt 3; VStr "Eva"]].
Proof. vm_compute. repeat split; reflexivity. Qed.

(** A file with a column the table does not have: the run stops at the
    notice, before any row. *)
Example escenario_columna_sobrante :
  carga_por_archivo Ejemplo.str_float Ejemplo.suma_uno Ejemplo.format_exc Ejemplo.rechaza_negativos
    Ejemplo.ahora "ventas" "T" "datos.csv" ["id"; "name"; "Bi_ejecucion"]
    (mk_df ["id"; "name"; "extra"]
       [ (EtEntero 0, {[ "id" := VInt 1; "name" := VStr "Ana"; "extra" := VInt 0 ]}) ])
    Ejemplo.conexion_nueva
  = mk_corrida_archivo
      (ColumnasNoCoinciden
         [ nl +:+ "❌ Las columnas del archivo no coinciden con la tabla.";
           "No existen en la tabla:";
           "  - extra";
           "Corrija el archivo y vuelva a intentar." ])
      Ejemplo.conexion_nueva [].
Proof. reflexivity. Qed.

(** Column names are compared as they are written. *)
Example escenario_distingue_caja :
  ca_fin
    (carga_por_archivo Ejemplo.str_float Ejemplo.suma_uno Ejemplo.format_exc Ejemplo.rechaza_negativos
       Ejemplo.ahora "ventas" "T" "datos.csv" ["id"; "Bi_ejecucion"]
       (mk_df ["ID"] [ (EtEntero 0, {[ "ID" := VInt 1 ]}) ]) Ejemplo.conexion_nueva)
  = ColumnasNoCoinciden
      [ nl +:+ "❌ Las columnas del archivo no coinciden con la tabla.";
        "Faltan en el archivo:";
        "  - id";
        "No existen en la tabla:";
        "  - ID";
        "Corrija el archivo y vuelva a intentar." ].
Proof. reflexivity. Qed.

(** The manual scenario: id 7, name Ana, the managed column set from the
    clock; one row inserted, none failed. *)
Example escenario_manual :
  match carga_manual Ejemplo.py_int Ejemplo.py_float Ejemplo.digito_unicode Ejemplo.str_float
          Ejemplo.format_exc Ejemplo.rechaza_negativos Ejemplo.ahora
          "ventas" "T" Ejemplo.esquema_T ["7"; "Ana"; "n"] Ejemplo.conexion_nueva with
  | Some run =>
      match cm_fin run with
      | CargaManualFinalizada st =>
          filas_insertadas st = 1%nat ∧ m_errores st = []
      | EOFError => False
      end
      ∧ confirmadas (cm_conn run)
        = [("INSERT INTO [T] VALUES (?, ?, ?)",
            [VInt 7; VStr "Ana"; VFecha (Ejemplo.ahora 1)])]
  | None => False
  end.
Proof. vm_compute. repeat split; reflexivity. Qed.

(** * The rest of the program *)

(** ** Naming the database and the table *)

Section PropOperaciones.

Context {flotante : Type}.
Variable py_int : string -> option Z.
Variable py_float : string -> option (option flotante).
Variable digito_unicode : string -> option Z.
Variable str_float : flotante -> string.
Variable suma_uno : flotante -> flotante.
Variable format_exc : excepcion -> string.
Variable rechazo : conexion flotante -> string -> list (valor flotante) -> option string.
Variable ahora : nat -> Fecha.datetime.
Variable existe_bd : string -> bool.
Variable existe_tabla : string -> string -> bool.

Lemma primera_respuesta (ok : string -> bool) entradas :
  (∀ nombre resto,
      validar_base_datos ok entradas = Some (nombre, resto)
      <-> ∃ malas, entradas = (malas ++ nombre :: resto)%list
                   ∧ Forall (fun m => ok m = false) malas
                   ∧ ok nombre = true)
  ∧ (validar_base_datos ok entradas = None
     <-> Forall (fun m => ok m = false) entradas).
Proof.
  induction entradas as [|e r [IHs IHn]]; simpl.
  - split; [intros nombre resto; split; [done|] | done].
    intros (malas & Hm & _). by destruct malas.
  - destruct (ok e) eqn:He.
    + split.
      * intros nombre resto. split.
        -- intros [= <- <-]. by exists [].
        -- intros (malas & Hm & Hall & Hn). destruct malas as [|m malas].
           ++ by inversion Hm.
           ++ inversion Hm; subst. apply Forall_cons in Hall as [Hf _]. congruence.
      * split; [done|]. intros [Hf _]%Forall_cons. congruence.
    + split.
      * intros nombre resto. rewrite IHs. split.
        -- intros (malas & -> & Hall & Hn). exists (e :: malas).
           split; [done|]. split; [by constructor | done].
        -- intros (malas & Hm & Hall & Hn). destruct malas as [|m malas].
           ++ inversion Hm; subst. congruence.
           ++ inversion Hm; subst. apply Forall_cons in Hall as [_ Hall].
              by exists malas.
      * rewrite IHn. split; [by constructor | by intros [_ ?]%Forall_cons].
Qed.

Lemma pedir_cantidad_Some entradas cantidad resto :
  pedir_cantidad py_int entradas = Some (cantidad, resto) -> 1 <= cantidad.
Proof.
  induction entradas as [|e r IH]; simpl; [done|].
  destruct (py_int e) as [k|]; [|exact IH].
  destruct (k <? 1) eqn:Hk; [exact IH|]. intros [= <- <-]. by apply Z.ltb_ge.
Qed.

(** X1. [validar_base_datos] returns the first answer that names a
    database of the server and leaves the answers after it unread: the
    answers before it name no database.  It ends in [EOFError] exactly
    when no answer names a database. *)
Theorem validar_base_datos_primera entradas :
  (∀ nombre resto,
      validar_base_datos existe_bd entradas = Some (nombre, resto)
      <-> ∃ malas, entradas = (malas ++ nombre :: resto)%list
                   ∧ Forall (fun m => existe_bd m = false) malas
                   ∧ existe_bd nombre = true)
  ∧ (validar_base_datos existe_bd entradas = None
     <-> Forall (fun m => existe_bd m = false) entradas).
Proof. apply primera_respuesta. Qed.

(** X2. [validar_tabla] returns the first answer that names a table of
    the database in use, the answers before it naming none; it ends in
    [EOFError] exactly when no answer names a table. *)
Theorem validar_tabla_primera bd entradas :
  (∀ nombre resto,
      validar_tabla existe_tabla bd entradas = Some (nombre, resto)
      <-> ∃ malas, entradas = (malas ++ nombre :: resto)%list
                   ∧ Forall (fun m => existe_tabla bd m = false) malas
                   ∧ existe_tabla bd nombre = true)
  ∧ (validar_tabla existe_tabla bd entradas = None
     <-> Forall (fun m => existe_tabla bd m = false) entradas).
Proof.
  assert (Hv : ∀ l, validar_tabla existe_tabla bd l
                    = validar_base_datos (existe_tabla bd) l).
  { induction l as [|e r IH]; simpl; [done|]. by rewrite IH. }
  split.
  - intros nombre resto. rewrite Hv. apply primera_respuesta.
  - rewrite Hv. apply primera_respuesta.
Qed.

(** ** Creating a table *)

(** X3. The loop of [crear_tabla] that asks for the number of fields
    returns the first answer that [int] takes as a number of at least 1:
    every answer before it is no number, or is a number below 1.  It ends
    in [EOFError] exactly when no answer is such a number. *)
Theorem pedir_cantidad_primera entradas :
  let mala m := match py_int m with Some k => k < 1 | None => True end in
  (∀ cantidad resto,
      pedir_cantidad py_int entradas = Some (cantidad, resto)
      <-> ∃ malas e, entradas = (malas ++ e :: resto)%list
                     ∧ Forall mala malas
                     ∧ py_int e = Some cantidad ∧ 1 <= cantidad)
  ∧ (pedir_cantidad py_int entradas = None <-> Forall mala entradas).
Proof.
  intros mala. induction entradas as [|e r [IHs IHn]]; simpl.
  - split; [intros cantidad resto; split; [done|] | done].
    intros (malas & e & Hm & _). by destruct malas.
  - destruct (py_int e) as [k|] eqn:He; [destruct (k <? 1) eqn:Hk|].
    + apply Z.ltb_lt in Hk.
      assert (Hmala : mala e) by (unfold mala; by rewrite He).
      split.
      * intros cantidad resto. rewrite IHs. split.
        -- intros (malas & x & -> & Hall & Hx). exists (e :: malas), x.
           split; [done|]. split; [by constructor | done].
        -- intros (malas & x & Hm & Hall & Hx & Hc). destruct malas as [|m malas].
           ++ inversion Hm; subst. rewrite He in Hx. inversion Hx; subst. lia.
           ++ inversion Hm; subst. apply Forall_cons in Hall as [_ Hall].
              by exists malas, x.
      * rewrite IHn. split; [by constructor | by intros [_ ?]%Forall_cons].
    + apply Z.ltb_ge in Hk. split.
      * intros cantidad resto. split.
        -- intros [= <- <-]. by exists [], e.
        -- intros (malas & x & Hm & Hall & Hx & Hc). destruct malas as [|m malas].
           ++ simpl in Hm. by simplify_eq.
           ++ inversion Hm; subst. apply Forall_cons in Hall as [Hf _].
              unfold mala in Hf. rewrite He in Hf. lia.
      * split; [done|]. intros [Hf _]%Forall_cons.
        unfold mala in Hf. rewrite He in Hf. lia.
    + assert (Hmala : mala e) by (unfold mala; by rewrite He).
      split.
      * intros cantidad resto. rewrite IHs. split.
        -- intros (malas & x & -> & Hall & Hx). exists (e :: malas), x.
           split; [done|]. split; [by constructor | done].
        -- intros (malas & x & Hm & Hall & Hx & Hc). destruct malas as [|m malas].
           ++ inversion Hm; subst. congruence.
           ++ inversion Hm; subst. apply Forall_cons in Hall as [_ Hall].
              by exists malas, x.
      * rewrite IHn. split; [by constructor | by intros [_ ?]%Forall_cons].
Qed.

Lemma append_asociativa (a b c : string) : (a +:+ b) +:+ c = a +:+ (b +:+ c).
Proof.
  induction a as [|x a IH]; [done|].
  change (String x (a +:+ b +:+ c)) with (String x (a +:+ (b +:+ c))).
  change ((String x a +:+ b) +:+ c) with (String x ((a +:+ b) +:+ c)).
  by rewrite IH.
Qed.

Lemma append_vacia_r (a : string) : a +:+ "" = a.
Proof.
  induction a as [|x a IH]; [done|].
  change (String x a +:+ "") with (String x (a +:+ "")). by rewrite IH.
Qed.

Lemma append_no_vacia (a b : string) : b ≠ "" -> a +:+ b ≠ "".
Proof. destruct a; [done|]. intros _. discriminate. Qed.

Lemma rstrip_app chars a b :
  rstrip chars b ≠ "" -> rstrip chars (a +:+ b) = a +:+ rstrip chars b.
Proof.
  intros Hb. induction a as [|x a IH]; [done|].
  change (String x a +:+ b) with (String x (a +:+ b)).
  cbn [rstrip]. rewrite IH.
  pose proof (append_no_vacia a _ Hb) as Hne.
  destruct (a +:+ rstrip chars b) eqn:Hab; [done|]. by rewrite <- Hab.
Qed.

Lemma fold_left_lineas campos inicio :
  fold_left (fun s campo => s +:+ linea_campo campo) campos inicio
  = inicio +:+ String.concat "" (map linea_campo campos).
Proof.
  revert inicio. induction campos as [|c campos IH]; intros inicio.
  - simpl. by rewrite append_vacia_r.
  - cbn [fold_left map]. rewrite IH.
    destruct campos as [|c' campos'].
    + simpl. by rewrite append_vacia_r.
    + change (String.concat "" (linea_campo c :: map linea_campo (c' :: campos')))
        with (linea_campo c +:+ "" +:+ String.concat "" (map linea_campo (c' :: campos'))).
      change ("" +:+ String.concat "" (map linea_campo (c' :: campos')))
        with (String.concat "" (map linea_campo (c' :: campos'))).
      by rewrite append_asociativa.
Qed.

Lemma concat_lineas campos :
  String.concat "" (map linea_campo campos)
  = match campos with
    | [] => ""
    | c :: r => linea_campo c +:+ String.concat "" (map linea_campo r)
    end.
Proof.
  destruct campos as [|c [|c' r]]; [done| |done].
  simpl. by rewrite append_vacia_r.
Qed.

Lemma lineas_y_join campos ultimo :
  String.concat "" (map linea_campo (campos ++ [ultimo]))
  = PyStr.join ("," +:+ nl) (map campo_sql (campos ++ [ultimo])) +:+ "," +:+ nl.
Proof.
  assert (Hlinea : ∀ c, linea_campo c = campo_sql c +:+ "," +:+ nl).
  { intros c. unfold linea_campo, campo_sql. by rewrite !append_asociativa. }
  induction campos as [|c campos IH].
  - simpl. apply Hlinea.
  - change ((c :: campos) ++ [ultimo])%list with (c :: (campos ++ [ultimo]))%list.
    rewrite concat_lineas, IH, Hlinea.
    destruct (campos ++ [ultimo])%list as [|c' resto] eqn:Hr.
    { by destruct campos. }
    change (PyStr.join ("," +:+ nl) (map campo_sql (c :: c' :: resto)))
      with (campo_sql c +:+ ("," +:+ nl) +:+
            PyStr.join ("," +:+ nl) (map campo_sql (c' :: resto))).
    by rewrite !append_asociativa.
Qed.

Lemma join_termina sep (l : list string) x :
  ∃ antes, PyStr.join sep (l ++ [x]) = antes +:+ x.
Proof.
  induction l as [|y l [antes IH]].
  - by exists "".
  - change ((y :: l) ++ [x])%list with (y :: (l ++ [x]))%list.
    destruct (l ++ [x])%list as [|z r] eqn:Hr.
    { by destruct l. }
    change (PyStr.join sep (y :: z :: r)) with (y +:+ sep +:+ PyStr.join sep (z :: r)).
    rewrite IH. exists (y +:+ sep +:+ antes). by rewrite !append_asociativa.
Qed.

(** X4. The statement [crear_tabla] builds declares the operator's
    fields, in order, and after them the field
    [Bi_controlorigen VARCHAR(100)]: the lines are joined by a comma and
    a line break, the [rstrip] of the last comma taking no character of
    a field away, whatever the operator typed. *)
Theorem sentencia_crear_forma nombre_tabla campos :
  sentencia_crear nombre_tabla (campos ++ [campo_control])
  = "CREATE TABLE [" +:+ nombre_tabla +:+ "] (" +:+ nl
      +:+ PyStr.join ("," +:+ nl) (map campo_sql (campos ++ [campo_control]))
      +:+ nl +:+ ");".
Proof.
  unfold sentencia_crear. rewrite fold_left_lineas, lineas_y_join, map_app.
  destruct (join_termina ("," +:+ nl) (map campo_sql campos) (campo_sql campo_control))
    as [antes Hj].
  cbn [map]. rewrite Hj.
  replace (("CREATE TABLE [" +:+ nombre_tabla +:+ "] (" +:+ nl)
           +:+ (antes +:+ campo_sql campo_control) +:+ "," +:+ nl)
    with (("CREATE TABLE [" +:+ nombre_tabla +:+ "] (" +:+ nl +:+ antes)
          +:+ (campo_sql campo_control +:+ "," +:+ nl))
    by (by rewrite !append_asociativa).
  rewrite rstrip_app by (vm_compute; discriminate).
  replace (rstrip ("," +:+ nl) (campo_sql campo_control +:+ "," +:+ nl))
    with (campo_sql campo_control) by reflexivity.
  by rewrite !append_asociativa.
Qed.

Lemma pedir_tabla_nueva_Some bd entradas nombre resto :
  pedir_tabla_nueva existe_tabla bd entradas = Some (nombre, resto) ->
  existe_tabla bd nombre = false.
Proof.
  induction entradas as [|e r IH]; simpl; [done|].
  destruct (existe_tabla bd e) eqn:He; [exact IH|]. by intros [= <- <-].
Qed.

Lemma pedir_campos_length n entradas campos resto :
  pedir_campos n entradas = Some (campos, resto) ->
  length campos = n ∧ length entradas = (2 * n + length resto)%nat.
Proof.
  revert entradas campos resto. induction n as [|n IH]; intros entradas campos resto.
  - simpl. intros [= <- <-]. split; [done | lia].
  - simpl. destruct entradas as [|nombre [|tipo r]]; try done.
    destruct (pedir_campos n r) as [[cs r']|] eqn:Hp; [|done].
    intros [= <- <-]. destruct (IH _ _ _ Hp) as [Hl Hr]. simpl. split; lia.
Qed.

(** X5. [crear_tabla] sends the server at most one statement that
    writes.  When it sends it, the database is one of the server, the table is one the
    database does not have, the operator gave at least one field, and the
    statement is the [CREATE TABLE] of those fields followed by
    [Bi_controlorigen].  If the server takes the statement it is
    committed at once; if the server refuses, the error is caught and
    the committed rows and the open transaction are as before.  When the
    answers run out before, nothing is sent. *)
Theorem crear_tabla_efecto entradas (c : conexion flotante) :
  let run := crear_tabla py_int rechazo existe_bd existe_tabla entradas c in
  match cc_fin run with
  | CrearSinRespuestas => cc_conn run = c
  | TablaCreada nombre_bd nombre_tabla sentencia =>
      existe_bd nombre_bd = true
      ∧ existe_tabla nombre_bd nombre_tabla = false
      ∧ (∃ campos, (1 <= length campos)%nat
                   ∧ sentencia = sentencia_crear nombre_tabla (campos ++ [campo_control]))
      ∧ rechazo c sentencia [] = None
      ∧ cc_conn run
        = mk_conexion (confirmadas c ++ pendientes c ++ [(sentencia, [])]) []
            (historial c ++ [EvExecute sentencia [] true; EvCommit])
  | ErrorAlCrear nombre_bd nombre_tabla sentencia e =>
      existe_bd nombre_bd = true
      ∧ existe_tabla nombre_bd nombre_tabla = false
      ∧ (∃ campos, (1 <= length campos)%nat
                   ∧ sentencia = sentencia_crear nombre_tabla (campos ++ [campo_control]))
      ∧ (∃ msg, rechazo c sentencia [] = Some msg ∧ e = ErrorBD msg)
      ∧ cc_conn run
        = mk_conexion (confirmadas c) (pendientes c)
            (historial c ++ [EvExecute sentencia [] false])
  end.
Proof.
  intros run. unfold run, crear_tabla.
  destruct (validar_base_datos existe_bd entradas) as [[bd r1]|] eqn:Hbd; [|done].
  destruct (pedir_tabla_nueva existe_tabla bd r1) as [[t r2]|] eqn:Ht; [|done].
  destruct (pedir_cantidad py_int r2) as [[n r3]|] eqn:Hn; [|done].
  destruct (pedir_campos (Z.to_nat n) r3) as [[campos r4]|] eqn:Hc; [|done].
  assert (Hbd' : existe_bd bd = true).
  { apply (proj1 (primera_respuesta existe_bd entradas)) in Hbd
      as (malas & _ & _ & Hok). exact Hok. }
  pose proof (pedir_tabla_nueva_Some _ _ _ _ Ht) as Ht'.
  assert (Hlen : (1 <= length campos)%nat).
  { apply pedir_cantidad_Some in Hn. apply pedir_campos_length in Hc as [-> _]. lia. }
  unfold execute.
  destruct (rechazo c (sentencia_crear t (campos ++ [campo_control])) []) as [msg|] eqn:Hr;
    simpl.
  - split; [done|]. split; [done|]. split; [by exists campos|].
    split; [by exists msg | done].
  - split; [done|]. split; [done|]. split; [by exists campos|].
    split; [done|]. unfold commit. simpl. by rewrite <- app_assoc.
Qed.

End PropOperaciones.

(** ** Further properties of the loaders *)

Section PropCargas.

Context {flotante : Type}.
Variable py_int : string -> option Z.
Variable py_float : string -> option (option flotante).
Variable digito_unicode : string -> option Z.
Variable str_float : flotante -> string.
Variable suma_uno : flotante -> flotante.
Variable format_exc : excepcion -> string.
Variable rechazo : conexion flotante -> string -> list (valor flotante) -> option string.
Variable ahora : nat -> Fecha.datetime.

Local Abbreviation dict := (gmap string (valor flotante)).

(** X6. The value the manual loader takes for a field is the validated
    form of the first answer that passes the validation of the column's
    type: every answer before it was refused and asked again, and none of
    them reaches the row.  The loop ends in [EOFError] exactly when every
    answer is refused. *)
Theorem pedir_campo_primera tipo_sql entradas :
  let rechazada m :=
    ∃ motivo, validar_entrada py_int py_float digito_unicode tipo_sql m = Rechazado motivo in
  (∀ v resto,
      pedir_campo py_int py_float digito_unicode tipo_sql entradas = Some (v, resto)
      <-> ∃ malas e, entradas = (malas ++ e :: resto)%list
                     ∧ Forall rechazada malas
                     ∧ validar_entrada py_int py_float digito_unicode tipo_sql e = Aceptado v)
  ∧ (pedir_campo py_int py_float digito_unicode tipo_sql entradas = None
     <-> Forall rechazada entradas).
Proof.
  intros rechazada. induction entradas as [|e r [IHs IHn]]; simpl.
  - split; [intros v resto; split; [done|] | done].
    intros (malas & e & Hm & _). by destruct malas.
  - destruct (validar_entrada py_int py_float digito_unicode tipo_sql e) as [w|motivo] eqn:He.
    + split.
      * intros v resto. split.
        -- intros [= <- <-]. by exists [], e.
        -- intros (malas & x & Hm & Hall & Hx). destruct malas as [|m malas].
           ++ simpl in Hm. inversion Hm; subst. rewrite He in Hx.
              by inversion Hx.
           ++ inversion Hm; subst. apply Forall_cons in Hall as [[mot Hf] _].
              rewrite He in Hf. discriminate.
      * split; [done|]. intros [[mot Hf] _]%Forall_cons.
        rewrite He in Hf. discriminate.
    + assert (Hmala : rechazada e) by (by exists motivo).
      split.
      * intros v resto. rewrite IHs. split.
        -- intros (malas & x & -> & Hall & Hx). exists (e :: malas), x.
           split; [done|]. split; [by constructor | done].
        -- intros (malas & x & Hm & Hall & Hx). destruct malas as [|m malas].
           ++ simpl in Hm. inversion Hm; subst. rewrite He in Hx. discriminate.
           ++ inversion Hm; subst. apply Forall_cons in Hall as [_ Hall].
              by exists malas, x.
      * rewrite IHn. split; [by constructor | by intros [_ ?]%Forall_cons].
Qed.

Lemma ejecuciones_app (a b : list (evento flotante)) :
  ejecuciones (a ++ b) = (ejecuciones a + ejecuciones b)%nat.
Proof.
  induction a as [|[s v ok|] a IH]; simpl; [done| |done]. by rewrite IH.
Qed.

Lemma insertar_fila_ejecuciones nombre_tabla columnas st attempt lecturas fila (log : dict) :
  let st1 := insertar_fila format_exc rechazo nombre_tabla columnas st attempt
               lecturas fila log in
  attempt_counter st1 = attempt
  ∧ ∃ nuevos, historial (m_conn st1) = (historial (m_conn st) ++ nuevos)%list
              ∧ ejecuciones nuevos = 1%nat.
Proof.
  unfold insertar_fila, execute.
  destruct (rechazo (m_conn st) _ fila); simpl.
  - split; [done|]. by eexists.
  - split; [done|]. eexists. split; [by rewrite <- app_assoc | done].
Qed.

Lemma bucle_manual_ejecuciones fuel nombre_tabla columnas tipos st entradas st' :
  bucle_manual py_int py_float digito_unicode str_float format_exc rechazo ahora
    fuel nombre_tabla columnas tipos st entradas = Some (Salio st') ->
  ∃ nuevos, historial (m_conn st') = (historial (m_conn st) ++ nuevos)%list
            ∧ attempt_counter st' = (attempt_counter st + ejecuciones nuevos)%nat
            ∧ (1 <= ejecuciones nuevos)%nat.
Proof.
  revert st entradas. induction fuel as [|fuel IH]; intros st entradas Hb; [done|].
  simpl in Hb.
  destruct (construir_fila _ _ _ _ _ _ _ _ _ _)
    as [[[[fila log] lecturas] entradas1]|]; [|done].
  destruct (insertar_fila_ejecuciones nombre_tabla columnas st
              (S (attempt_counter st)) lecturas fila log) as (Hatt & n1 & Hh1 & He1).
  destruct entradas1 as [|continuar entradas2]; [done|].
  case_bool_decide.
  - destruct (IH _ _ Hb) as (n2 & Hh2 & Hatt2 & _).
    exists (n1 ++ n2)%list. rewrite ejecuciones_app.
    split; [by rewrite Hh2, Hh1, app_assoc|]. lia.
  - inversion Hb; subst. exists n1. split; [done|]. lia.
Qed.

(** X7. In a manual run that the operator ends, every attempt sends the
    server exactly one statement: the number of attempts of the summary
    is the number of [execute] calls the run made, and it is at least 1,
    the first row being asked before the operator can decline.  In a run
    cut by the end of the input no log file is written, while the rows
    committed before it, and those it committed, stay committed. *)
Theorem intentos_y_ejecuciones nombre_bd nombre_tabla esquema entradas
    (c : conexion flotante) :
  match carga_manual py_int py_float digito_unicode str_float format_exc rechazo ahora
          nombre_bd nombre_tabla esquema entradas c with
  | Some run =>
      match cm_fin run with
      | CargaManualFinalizada st =>
          ∃ nuevos, historial (cm_conn run) = (historial c ++ nuevos)%list
                    ∧ attempt_counter st = ejecuciones nuevos
                    ∧ (1 <= attempt_counter st)%nat
      | EOFError =>
          cm_archivos run = []
          ∧ confirmadas c `prefix_of` confirmadas (cm_conn run)
          ∧ (pendientes c = [] -> pendientes (cm_conn run) = [])
      end
  | None => False
  end.
Proof.
  destruct (carga_manual_efecto py_int py_float digito_unicode str_float format_exc rechazo ahora
              nombre_bd nombre_tabla esquema entradas c)
    as (run & nuevos & Hrun & Hav & Hfin).
  rewrite Hrun. destruct (cm_fin run) as [|st] eqn:Hf.
  - destruct Hav as (_ & _ & _ & Hpre & Hpend).
    split; [done|]. split; [done|]. intros Hp. by destruct (Hpend Hp).
  - unfold carga_manual in Hrun.
    destruct (bucle_manual _ _ _ _ _ _ _ _ _ _ _ _) as [[st0|c0]|] eqn:Hb; [| |done].
    + destruct (bucle_manual_ejecuciones _ _ _ _ _ _ _ Hb) as (n & Hh & Hatt & Hge).
      inversion Hrun; subst run. cbn [cm_fin cm_conn] in *. inversion Hf; subst st0.
      cbn [m_conn attempt_counter] in Hh, Hatt.
      exists n. split; [done|]. lia.
    + inversion Hrun; subst run. done.
Qed.

Lemma validar_entrada_clase tipo_sql entrada (x : valor flotante) :
  validar_entrada py_int py_float digito_unicode tipo_sql entrada = Aceptado x ->
  (∀ b, x ≠ VBool b)
  ∧ (x = VNa -> tipo_sql ∈ tipos_reales ∧ py_float entrada = Some None).
Proof.
  unfold validar_entrada.
  destruct (PyStr.en_lista tipo_sql tipos_enteros).
  { destruct (py_int entrada); intros Heq; inversion Heq; subst. by split. }
  destruct (PyStr.en_lista tipo_sql tipos_reales) eqn:Hr.
  { apply bool_decide_eq_true in Hr.
    destruct (py_float entrada) as [[f|]|]; intros Heq; inversion Heq; subst;
      by split. }
  repeat match goal with
         | |- context [if ?b then _ else _] => destruct b
         | |- context [match ?o with Some _ => _ | None => _ end] => destruct o
         end;
    intros Heq; inversion Heq; subst; by split.
Qed.

Lemma valor_de_columna_clase tipos col (x : valor flotante) :
  valor_de_columna py_int py_float digito_unicode ahora tipos col x ->
  (∀ b, x ≠ VBool b)
  ∧ (x = VNa ->
     es_ejecucion col = false
     ∧ PyStr.lower (tipo_de tipos col) ∈ tipos_reales
     ∧ ∃ entrada, py_float entrada = Some None).
Proof.
  unfold valor_de_columna. destruct (es_ejecucion col).
  - intros [n ->]. unfold valor_ejecucion.
    by destruct (PyStr.en_lista _ _).
  - intros [entrada Hv]. apply validar_entrada_clase in Hv as [Hb Hna].
    split; [done|]. intros Hx. destruct (Hna Hx) as [Ht Hf].
    split; [done|]. split; [done|]. by exists entrada.
Qed.

(** X8. Every statement of a manual run binds one value for each
    column of the schema.  No value is a Python boolean, a [bit] column
    getting the integers 1 and 0.  A value is the missing value only
    where the operator made it so: at a column that is not the managed
    one, whose type is one of the real types, by an answer that [float]
    reads as not a number, as it reads "nan". *)
Theorem valores_de_la_carga_manual nombre_bd nombre_tabla esquema entradas
    (c : conexion flotante) :
  match carga_manual py_int py_float digito_unicode str_float format_exc rechazo ahora
          nombre_bd nombre_tabla esquema entradas c with
  | Some run =>
      ∃ nuevos,
        historial (cm_conn run) = (historial c ++ nuevos)%list
        ∧ Forall (evento_cumple
                    (fun _ v =>
                       length v = length esquema
                       ∧ Forall2
                           (fun '(col, _) x =>
                              (∀ b, x ≠ VBool b)
                              ∧ (x = VNa ->
                                 PyStr.lower col ≠ "bi_ejecucion"
                                 ∧ PyStr.lower (tipo_de (dict_tipos esquema) col)
                                   ∈ ["float"; "real"; "decimal"; "numeric";
                                      "money"; "smallmoney"]
                                 ∧ ∃ entrada, py_float entrada = Some None))
                           esquema v))
            nuevos
  | None => False
  end.
Proof.
  destruct (carga_manual_efecto py_int py_float digito_unicode str_float format_exc rechazo ahora
              nombre_bd nombre_tabla esquema entradas c)
    as (run & nuevos & Hrun & Hav & _).
  rewrite Hrun. destruct Hav as (Hh & _ & Hf & _).
  exists nuevos. split; [done|].
  eapply Forall_impl; [exact Hf|]. intros [s v ok|]; simpl; [|done].
  intros [_ H2]. split.
  - apply Forall2_length in H2. by rewrite <- H2, length_map.
  - assert (H3 : Forall2
                   (fun (p : string * string) x =>
                      valor_de_columna py_int py_float digito_unicode ahora
                        (dict_tipos esquema) (fst p) x) esquema v)
      by (by apply (proj1 (Forall2_fmap_l fst
                             (valor_de_columna py_int py_float digito_unicode ahora
                                (dict_tipos esquema)) esquema v))).
    eapply Forall2_impl; [exact H3|].
    intros [col tipo] x Hx. simpl in Hx.
    apply valor_de_columna_clase in Hx as [Hb Hna]. split; [done|].
    intros Hv. destruct (Hna Hv) as (Hm & Ht & He).
    split; [by apply bool_decide_eq_false in Hm|]. by split.
Qed.

End PropCargas.

(** ** Row by row through the file *)

Section PropArchivo.

Context {flotante : Type}.
Variable str_float : flotante -> string.
Variable suma_uno : flotante -> flotante.
Variable format_exc : excepcion -> string.
Variable rechazo : conexion flotante -> string -> list (valor flotante) -> option string.
Variable ahora : nat -> Fecha.datetime.

Local Abbreviation dict := (gmap string (valor flotante)).

Lemma recolectar_inl cols (fila : dict) row_num valores e :
  fila_completa cols fila ->
  recolectar str_float cols fila row_num valores = inl e ->
  ∃ pre col post v,
    cols = (pre ++ col :: post)%list
    ∧ (∀ c, c ∈ pre -> ∃ w, fila !! c = Some w ∧ isna w = false)
    ∧ fila !! col = Some v ∧ isna v = true
    ∧ e = ValueError ("Campo '" +:+ col +:+ "' en blanco (fila "
                      +:+ str_valor str_float row_num +:+ ")").
Proof.
  revert valores. induction cols as [|col r IH]; intros valores Hc Hr; [done|].
  simpl in Hr.
  destruct (Hc col) as [v Hv]; [by left|]. rewrite Hv in Hr.
  destruct (isna v) eqn:Hna.
  - inversion Hr; subst. exists [], col, r, v.
    split; [done|]. split; [by intros c Hin; inversion Hin|]. done.
  - destruct (IH (valores ++ [v])%list) as (pre & c0 & post & v0 & -> & Hpre & Hv0 & Hna0 & ->).
    + intros c Hin. apply Hc. by right.
    + done.
    + exists (col :: pre), c0, post, v0. split; [done|]. split; [|done].
      intros c [->|Hin]%elem_of_cons; [by exists v | by apply Hpre].
Qed.

(** One row of the file whose number can be computed, in full. *)
Lemma procesar_fila_detalle nombre_tabla cols (st : estado_archivo flotante) idx
    (fila : dict) row_num :
  numero_de_fila suma_uno idx = inr row_num ->
  fila_completa cols fila ->
  let s := sentencia_archivo nombre_tabla cols in
  (∃ c1,
      procesar_fila str_float suma_uno format_exc rechazo nombre_tabla cols st idx fila
      = inr (mk_estado_archivo c1 (S (filas_procesadas st))
               (S (filas_cargadas st)) (a_errores st))
      ∧ confirmadas c1
        = (confirmadas (a_conn st) ++ pendientes (a_conn st)
           ++ [(s, celdas cols fila)])%list
      ∧ pendientes c1 = []
      ∧ sin_blancos cols fila)
  ∨ (∃ c1 e d,
      procesar_fila str_float suma_uno format_exc rechazo nombre_tabla cols st idx fila
      = inr (mk_estado_archivo c1 (S (filas_procesadas st)) (filas_cargadas st)
               (a_errores st ++ [registro_error format_exc "row" row_num e d]))
      ∧ confirmadas c1 = confirmadas (a_conn st)
      ∧ pendientes c1 = pendientes (a_conn st)
      ∧ causa_de_fallo str_float cols fila row_num e
      ∧ datos_fila str_float cols fila ∅ = inr d).
Proof.
  intros Hn Hc s.
  destruct (datos_fila_total str_float cols fila ∅ Hc) as [d Hd].
  unfold procesar_fila, intentar_fila. rewrite Hn.
  destruct (recolectar str_float cols fila row_num []) as [e|valores] eqn:Hr.
  - right. rewrite Hd. exists (a_conn st), e, d.
    split; [done|]. split; [done|]. split; [done|]. split; [|done].
    left. by apply (recolectar_inl _ _ _ _ _ Hc Hr).
  - apply recolectar_inr in Hr as [Hsb ->]. simpl.
    unfold execute. fold s.
    destruct (rechazo (a_conn st) s (celdas cols fila)) as [msg|] eqn:Hrech.
    + right. rewrite Hd. eexists _, (ErrorBD msg), d.
      split; [done|]. split; [done|]. split; [done|]. split; [|done].
      right. split; [exact Hsb | by exists msg].
    + left. eexists. split; [done|]. simpl. done.
Qed.

Lemma cargadas_segun_cargada s cols idx (fila : dict) filas
    (rs : list (resultado_fila flotante)) :
  cargadas_segun s cols ((idx, fila) :: filas) (FilaCargada :: rs)
  = (s, celdas cols fila) :: cargadas_segun s cols filas rs.
Proof. reflexivity. Qed.

Lemma cargadas_segun_fallida s cols idx (fila : dict) filas e d
    (rs : list (resultado_fila flotante)) :
  cargadas_segun s cols ((idx, fila) :: filas) (FilaFallida e d :: rs)
  = cargadas_segun s cols filas rs.
Proof. reflexivity. Qed.

Lemma errores_segun_cargada idx (fila : dict) filas
    (rs : list (resultado_fila flotante)) :
  errores_segun suma_uno format_exc ((idx, fila) :: filas) (FilaCargada :: rs)
  = errores_segun suma_uno format_exc filas rs.
Proof. reflexivity. Qed.

Lemma errores_segun_fallida idx (fila : dict) filas e d row_num
    (rs : list (resultado_fila flotante)) :
  numero_de_fila suma_uno idx = inr row_num ->
  errores_segun suma_uno format_exc ((idx, fila) :: filas) (FilaFallida e d :: rs)
  = registro_error format_exc "row" row_num e d
    :: errores_segun suma_uno format_exc filas rs.
Proof.
  intros Hn. unfold errores_segun. cbn [zip zip_with omap list_omap fst].
  by rewrite Hn.
Qed.

(** The loop of the file loader over rows whose labels are numbers, row
    by row: one result per row, in the order of the file. *)
Lemma bucle_archivo_resultados nombre_tabla cols filas (st : estado_archivo flotante) :
  Forall (fun '(idx, _) => es_numerica idx = true) filas ->
  Forall (fun '(_, fila) => fila_completa cols fila) filas ->
  ∃ st' rs,
    bucle_archivo str_float suma_uno format_exc rechazo nombre_tabla cols filas st = inr st'
    ∧ filas_procesadas st' = (filas_procesadas st + length filas)%nat
    ∧ Forall2 (resultado_de str_float suma_uno cols) filas rs
    ∧ a_errores st' = (a_errores st ++ errores_segun suma_uno format_exc filas rs)%list
    ∧ filas_cargadas st'
      = (filas_cargadas st
         + length (cargadas_segun (sentencia_archivo nombre_tabla cols) cols filas rs))%nat
    ∧ (pendientes (a_conn st) = [] ->
       pendientes (a_conn st') = []
       ∧ confirmadas (a_conn st')
         = (confirmadas (a_conn st)
            ++ cargadas_segun (sentencia_archivo nombre_tabla cols) cols filas rs)%list).
Proof.
  intros Hnum Hall. revert st.
  induction filas as [|[idx fila] filas IH]; intros st.
  - exists st, []. split; [done|]. split; [simpl; lia|]. split; [constructor|].
    unfold errores_segun, cargadas_segun. simpl.
    rewrite !app_nil_r. split; [done|]. split; [lia|]. done.
  - apply Forall_cons in Hnum as [Hn Hnum]. apply Forall_cons in Hall as [Hc Hall].
    specialize (IH Hnum Hall).
    apply es_numerica_numero with (suma_uno := suma_uno) in Hn as [row_num Hn].
    simpl.
    destruct (procesar_fila_detalle nombre_tabla cols st idx fila row_num Hn Hc)
      as [(c1 & Hp & Hconf & Hpend & Hsb)|(c1 & e & d & Hp & Hconf & Hpend & Hcausa & Hd)];
      rewrite Hp.
    + destruct (IH (mk_estado_archivo c1 (S (filas_procesadas st))
                      (S (filas_cargadas st)) (a_errores st)))
        as (st' & rs & Hb & Hproc & Hrs & Herr & Hcar & Hcon).
      exists st', (FilaCargada :: rs). split; [done|].
      split; [cbn [filas_procesadas] in Hproc; lia|].
      split; [by constructor|].
      rewrite errores_segun_cargada, cargadas_segun_cargada.
      cbn [a_errores filas_cargadas a_conn length] in *.
      split; [done|]. split; [lia|].
      intros Hp0. destruct (Hcon Hpend) as [Hp' Hc']. split; [done|].
      rewrite Hc', Hconf, Hp0. simpl. by rewrite <- app_assoc.
    + destruct (IH (mk_estado_archivo c1 (S (filas_procesadas st))
                      (filas_cargadas st)
                      (a_errores st ++ [registro_error format_exc "row" row_num e d])%list))
        as (st' & rs & Hb & Hproc & Hrs & Herr & Hcar & Hcon).
      exists st', (FilaFallida e d :: rs). split; [done|].
      split; [cbn [filas_procesadas] in Hproc; lia|].
      split; [constructor; [|done]; split; [by exists row_num | done]|].
      rewrite (errores_segun_fallida _ _ _ _ _ _ _ Hn), cargadas_segun_fallida.
      cbn [a_errores filas_cargadas a_conn] in *.
      split; [by rewrite Herr, <- app_assoc|]. split; [done|].
      intros Hp0. rewrite Hpend in Hcon. destruct (Hcon Hp0) as [Hp' Hc'].
      split; [done|]. by rewrite Hc', Hconf.
Qed.

(** A whole file run whose columns match, row by row: the rows gone
    through are all the rows, or the rows before the first label that
    is not a number, where the run ends. *)
Lemma carga_por_archivo_resultados nombre_bd nombre_tabla nombre_archivo
    columnas_sql (df : DataFrame flotante) (c : conexion flotante) :
  let cols := columnas_sin_ejecucion columnas_sql in
  let s := sentencia_archivo nombre_tabla cols in
  let run := carga_por_archivo str_float suma_uno format_exc rechazo ahora nombre_bd
               nombre_tabla nombre_archivo columnas_sql df c in
  bien_formado df = true ->
  (∀ col, col ∈ df_columns df <-> col ∈ cols) ->
  ∃ recorridas st rs,
    Forall (fun '(idx, _) => es_numerica idx = true) recorridas
    ∧ ((df_filas df = recorridas
        ∧ run = mk_corrida_archivo (CargaFinalizada st) (a_conn st)
                  (logs_archivo ahora nombre_bd nombre_tabla nombre_archivo cols st))
       ∨ (∃ msg fila despues,
             df_filas df = (recorridas ++ (EtOtra msg, fila) :: despues)%list
             ∧ run = mk_corrida_archivo
                       (ExcepcionNoCapturada (TypeError msg)
                          (mk_estado_archivo (a_conn st) (S (filas_procesadas st))
                             (filas_cargadas st) (a_errores st)))
                       (a_conn st) []))
    ∧ filas_procesadas st = length recorridas
    ∧ Forall2 (resultado_de str_float suma_uno cols) recorridas rs
    ∧ a_errores st = errores_segun suma_uno format_exc recorridas rs
    ∧ filas_cargadas st = length (cargadas_segun s cols recorridas rs)
    ∧ (pendientes c = [] ->
       pendientes (a_conn st) = []
       ∧ confirmadas (a_conn st)
         = (confirmadas c ++ cargadas_segun s cols recorridas rs)%list).
Proof.
  intros cols s run Hbf Hcoin.
  assert (Hall : Forall (fun '(_, fila) => fila_completa cols fila) (df_filas df)).
  { apply bien_formado_completa; [done|]. intros col. apply Hcoin. }
  apply coinciden_iff in Hcoin.
  destruct (particion_etiquetas (df_filas df))
    as [Hnum|(antes & msg & fila & despues & Hfilas & Hnum)].
  - destruct (bucle_archivo_resultados nombre_tabla cols (df_filas df)
                (mk_estado_archivo c 0 0 []) Hnum Hall)
      as (st & rs & Hb & Hproc & Hrs & Herr & Hcar & Hcon).
    exists (df_filas df), st, rs. split; [done|]. split.
    { left. split; [done|]. unfold run, carga_por_archivo. fold cols.
      by rewrite Hcoin, Hb. }
    done.
  - rewrite Hfilas in Hall. apply Forall_app in Hall as [Hall _].
    destruct (bucle_archivo_resultados nombre_tabla cols antes
                (mk_estado_archivo c 0 0 []) Hnum Hall)
      as (st & rs & Hb & Hproc & Hrs & Herr & Hcar & Hcon).
    exists antes, st, rs. split; [done|]. split.
    { right. exists msg, fila, despues. split; [done|].
      unfold run, carga_por_archivo. fold cols. rewrite Hcoin, Hfilas.
      by rewrite (bucle_archivo_cortado _ _ _ _ _ _ _ _ _ _ _ _ Hb). }
    done.
Qed.

Lemma errores_segun_elem filas (rs : list (resultado_fila flotante)) (r : dict) :
  r ∈ errores_segun suma_uno format_exc filas rs ->
  ∃ f e d row_num,
    (f, FilaFallida e d) ∈ zip filas rs
    ∧ numero_de_fila suma_uno (fst f) = inr row_num
    ∧ r = registro_error format_exc "row" row_num e d.
Proof.
  unfold errores_segun. intros ([f [|e d]] & Hin & Heq)%list_elem_of_omap; [done|].
  destruct (numero_de_fila suma_uno (fst f)) as [x|row_num] eqn:Hn; [done|].
  inversion Heq; subst. by exists f, e, d, row_num.
Qed.

Lemma zip_Forall2 {A B : Type} (P : A -> B -> Prop) (l : list A) (k : list B) a b :
  Forall2 P l k -> (a, b) ∈ zip l k -> a ∈ l ∧ P a b.
Proof.
  induction 1 as [|x y l k Hxy _ IH]; simpl; [by intros ?%elem_of_nil|].
  intros [Heq|Hin]%elem_of_cons.
  - inversion Heq; subst. split; [by left | done].
  - destruct (IH Hin). split; [by right | done].
Qed.

(** X9. When the columns of the file match the table, the loader goes
    through the rows once, in the order of the file, to the end of the
    file or to the first row whose label is not a number, where the run
    ends by the [TypeError] of the row number and writes no log.  Each
    row gone through ends in exactly one place: the rows committed are,
    in file order, the rows that were loaded, each with the one
    statement of the run and its cells in column order; the records of
    the errors are, in file order, the other rows, numbered by their
    index label plus one. *)
Theorem filas_en_orden_del_archivo nombre_bd nombre_tabla nombre_archivo
    columnas_sql (df : DataFrame flotante) (c : conexion flotante) :
  let cols := columnas_sin_ejecucion columnas_sql in
  let s := sentencia_archivo nombre_tabla cols in
  let run := carga_por_archivo str_float suma_uno format_exc rechazo ahora nombre_bd
               nombre_tabla nombre_archivo columnas_sql df c in
  bien_formado df = true ->
  (∀ col, col ∈ df_columns df <-> col ∈ cols) ->
  pendientes c = [] ->
  ∃ recorridas rs,
    Forall (fun '(idx, _) => es_numerica idx = true) recorridas
    ∧ length rs = length recorridas
    ∧ confirmadas (ca_conn run)
      = (confirmadas c ++ cargadas_segun s cols recorridas rs)%list
    ∧ pendientes (ca_conn run) = []
    ∧ match ca_fin run with
      | CargaFinalizada st =>
          df_filas df = recorridas
          ∧ a_errores st = errores_segun suma_uno format_exc recorridas rs
          ∧ filas_cargadas st = length (cargadas_segun s cols recorridas rs)
          ∧ filas_procesadas st = length recorridas
      | ExcepcionNoCapturada e st =>
          (∃ msg fila despues,
              df_filas df = (recorridas ++ (EtOtra msg, fila) :: despues)%list
              ∧ e = TypeError msg)
          ∧ a_errores st = errores_segun suma_uno format_exc recorridas rs
          ∧ filas_cargadas st = length (cargadas_segun s cols recorridas rs)
          ∧ filas_procesadas st = S (length recorridas)
          ∧ ca_archivos run = []
      | ColumnasNoCoinciden _ => False
      end.
Proof.
  intros cols s run Hbf Hcoin Hp.
  destruct (carga_por_archivo_resultados nombre_bd nombre_tabla nombre_archivo
              columnas_sql df c Hbf Hcoin)
    as (recorridas & st & rs & Hnum & Hrun & Hproc & Hrs & Herr & Hcar & Hcon).
  destruct (Hcon Hp) as [Hp' Hc'].
  exists recorridas, rs. split; [done|].
  split; [symmetry; by eapply Forall2_length|].
  fold run in Hrun. fold cols s in Hc', Hcar.
  destruct Hrun as [[Hfilas ->]|(msg & fila & despues & Hfilas & ->)]; simpl.
  - done.
  - split; [done|]. split; [done|]. split; [by exists msg, fila, despues|].
    split; [done|]. split; [done|]. split; [by rewrite Hproc | done].
Qed.

(** X10. When the columns of the file match the table, a row that was
    gone through is recorded as not loaded for one of two reasons only:
    one of its cells is blank, and the error is the loader's own message
    naming the first blank column and the row number; or no cell is
    blank and the error is the one the driver raised on [execute].  No
    other exception reaches the records of the errors.  The one other
    way a row is not loaded is the [TypeError] of a label that is not a
    number: it is caught by nothing, and the run ends at that row with
    the rows before it gone through, that row counted, and neither it
    nor the rows after it loaded or recorded. *)
Theorem causas_de_error nombre_bd nombre_tabla nombre_archivo
    columnas_sql (df : DataFrame flotante) (c : conexion flotante) :
  let cols := columnas_sin_ejecucion columnas_sql in
  let run := carga_por_archivo str_float suma_uno format_exc rechazo ahora nombre_bd
               nombre_tabla nombre_archivo columnas_sql df c in
  let causas (filas : list (etiqueta flotante * dict)) (errores : list dict) :=
    Forall (fun r =>
              ∃ idx fila row_num e d,
                (idx, fila) ∈ filas
                ∧ numero_de_fila suma_uno idx = inr row_num
                ∧ r = registro_error format_exc "row" row_num e d
                ∧ causa_de_fallo str_float cols fila row_num e)
      errores in
  bien_formado df = true ->
  (∀ col, col ∈ df_columns df <-> col ∈ cols) ->
  match ca_fin run with
  | CargaFinalizada st =>
      indice_numerico df = true ∧ causas (df_filas df) (a_errores st)
  | ExcepcionNoCapturada e st =>
      ∃ antes msg fila despues,
        df_filas df = (antes ++ (EtOtra msg, fila) :: despues)%list
        ∧ Forall (fun '(idx, _) => es_numerica idx = true) antes
        ∧ e = TypeError msg
        ∧ causas antes (a_errores st)
        ∧ (filas_cargadas st + length (a_errores st))%nat = length antes
        ∧ filas_procesadas st = S (length antes)
  | ColumnasNoCoinciden _ => False
  end.
Proof.
  intros cols run causas Hbf Hcoin.
  destruct (carga_por_archivo_resultados nombre_bd nombre_tabla nombre_archivo
              columnas_sql df c Hbf Hcoin)
    as (recorridas & st & rs & Hnum & Hrun & Hproc & Hrs & Herr & Hcar & _).
  fold run in Hrun. fold cols in Hrs, Hcar.
  assert (Hcausas : causas recorridas (a_errores st)).
  { apply Forall_forall. intros r Hr. rewrite Herr in Hr.
    apply errores_segun_elem in Hr as ([idx fila] & e & d & row_num & Hin & Hn & ->).
    destruct (zip_Forall2 _ _ _ _ _ Hrs Hin) as [Hf [(rn & Hn' & Hcausa) _]].
    simpl in Hn, Hn'. rewrite Hn in Hn'. inversion Hn'; subst rn.
    by exists idx, fila, row_num, e, d. }
  assert (Hsuma : (filas_cargadas st + length (a_errores st))%nat = length recorridas).
  { rewrite Hcar, Herr. apply Forall2_length in Hrs. rewrite Hrs.
    clear -Hnum Hrs. revert rs Hrs.
    induction recorridas as [|[idx fila] filas IH]; intros [|r rs] Hrs;
      try done.
    apply Forall_cons in Hnum as [Hn Hnum].
    apply es_numerica_numero with (suma_uno := suma_uno) in Hn as [row_num Hn].
    simpl in Hrs. injection Hrs as Hrs. specialize (IH Hnum rs Hrs).
    destruct r as [|e d].
    - rewrite cargadas_segun_cargada, errores_segun_cargada. simpl. lia.
    - rewrite cargadas_segun_fallida, (errores_segun_fallida _ _ _ _ _ _ _ Hn).
      simpl. lia. }
  destruct Hrun as [[Hfilas ->]|(msg & fila & despues & Hfilas & ->)]; simpl.
  - split; [|by rewrite Hfilas].
    apply indice_numerico_Forall. by rewrite Hfilas.
  - exists recorridas, msg, fila, despues.
    split; [done|]. split; [done|]. split; [done|]. split; [done|].
    split; [done | by rewrite Hproc].
Qed.

(** X11. The record of a row that was not loaded puts the cells of the
    row over the diagnostic fields: under the key [error] it holds the
    text of the exception unless the table has a column of that name, in
    which case it holds the cell of the row as logged; the same for the
    key [row] and the row number.  This is so of the records of any run
    that has passed the reconciliation, whether it reaches its end, as
    it does when the labels of the index are numbers, or not. *)
Theorem diagnostico_o_celda nombre_bd nombre_tabla nombre_archivo
    columnas_sql (df : DataFrame flotante) (c : conexion flotante) :
  let cols := columnas_sin_ejecucion columnas_sql in
  let run := carga_por_archivo str_float suma_uno format_exc rechazo ahora nombre_bd
               nombre_tabla nombre_archivo columnas_sql df c in
  let registros (errores : list dict) :=
    Forall (fun r =>
              ∃ idx fila row_num e,
                (idx, fila) ∈ df_filas df
                ∧ numero_de_fila suma_uno idx = inr row_num
                ∧ causa_de_fallo str_float cols fila row_num e
                ∧ r !! "error"
                  = (if decide ("error" ∈ cols)
                     then celda_log str_float <$> fila !! "error"
                     else Some (VStr (str_exc e)))
                ∧ r !! "row"
                  = (if decide ("row" ∈ cols)
                     then celda_log str_float <$> fila !! "row"
                     else Some row_num))
      errores in
  bien_formado df = true ->
  (∀ col, col ∈ df_columns df <-> col ∈ cols) ->
  (indice_numerico df = true ->
   ∃ st, ca_fin run = CargaFinalizada st ∧ registros (a_errores st))
  ∧ match ca_fin run with
    | CargaFinalizada st => registros (a_errores st)
    | ExcepcionNoCapturada _ st => registros (a_errores st)
    | ColumnasNoCoinciden _ => False
    end.
Proof.
  intros cols run registros Hbf Hcoin.
  destruct (carga_por_archivo_resultados nombre_bd nombre_tabla nombre_archivo
              columnas_sql df c Hbf Hcoin)
    as (recorridas & st & rs & Hnum & Hrun & Hproc & Hrs & Herr & _).
  fold run in Hrun. fold cols in Hrs.
  assert (Hsub : ∀ f, f ∈ recorridas -> f ∈ df_filas df).
  { intros f Hf. destruct Hrun as [[-> _]|(msg & fila & despues & -> & _)]; [done|].
    apply elem_of_app. by left. }
  assert (Hall : Forall (fun '(_, fila) => fila_completa cols fila) (df_filas df)).
  { apply bien_formado_completa; [done|]. intros col. apply Hcoin. }
  assert (Hreg : registros (a_errores st)).
  { apply Forall_forall. intros r Hr. rewrite Herr in Hr.
    apply errores_segun_elem in Hr as ([idx fila] & e & d & row_num & Hin & Hn & ->).
    destruct (zip_Forall2 _ _ _ _ _ Hrs Hin) as [Hf [(rn & Hn' & Hcausa) Hd]].
    simpl in Hn, Hn', Hd. rewrite Hn in Hn'. inversion Hn'; subst rn.
    exists idx, fila, row_num, e. split; [by apply Hsub|].
    split; [done|]. split; [done|].
    unfold registro_error.
    pose proof (datos_fila_lookup str_float cols fila ∅ d "error" Hd) as Herror.
    pose proof (datos_fila_lookup str_float cols fila ∅ d "row" Hd) as Hrow.
    assert (Hfc : fila_completa cols fila).
    { rewrite Forall_forall in Hall. exact (Hall _ (Hsub _ Hf)). }
    split.
    - destruct (decide ("error" ∈ cols)) as [Hin'|Hin'].
      + destruct (Hfc _ Hin') as [v Hv]. rewrite Hv in Herror |- *. simpl in *.
        by apply lookup_union_Some_l.
      + rewrite lookup_empty in Herror. rewrite lookup_union_r; [|done].
        rewrite lookup_insert_ne; [|done]. by rewrite lookup_insert.
    - destruct (decide ("row" ∈ cols)) as [Hin'|Hin'].
      + destruct (Hfc _ Hin') as [v Hv]. rewrite Hv in Hrow |- *. simpl in *.
        by apply lookup_union_Some_l.
      + rewrite lookup_empty in Hrow. rewrite lookup_union_r; [|done].
        by rewrite lookup_insert. }
  split.
  - intros Hidx. apply indice_numerico_Forall in Hidx.
    destruct Hrun as [[Hfilas Hrun]|(msg & fila & despues & Hfilas & _)].
    + exists st. by rewrite Hrun.
    + rewrite Hfilas in Hidx. apply Forall_app in Hidx as [_ Hidx].
      by apply Forall_cons in Hidx as [Hidx _].
  - by destruct Hrun as [[_ ->]|(msg & fila & despues & _ & ->)].
Qed.

End PropArchivo.

(** ** Notices, file names and readers *)

Section PropTexto.

Context {flotante : Type}.
Variable str_float : flotante -> string.
Variable suma_uno : flotante -> flotante.
Variable format_exc : excepcion -> string.
Variable rechazo : conexion flotante -> string -> list (valor flotante) -> option string.

Local Abbreviation dict := (gmap string (valor flotante)).

Lemma append_cons (x : ascii) (a b : string) :
  String x a +:+ b = String x (a +:+ b).
Proof. reflexivity. Qed.

Lemma append_inv_head (a x y : string) : a +:+ x = a +:+ y -> x = y.
Proof.
  induction a as [|c a IH]; [done|].
  rewrite !append_cons. intros [= H]. by apply IH.
Qed.

(** X12. When the columns of the file and of the table differ, the
    loader prints a notice, sends nothing to the server and writes no
    log.  The notice lists, each on a line of its own after two spaces
    and a dash, exactly the columns of the table (the managed one apart)
    that the file lacks and the columns of the file that the table lacks;
    names are compared as they are written, capitals included. *)
Theorem aviso_lista_columnas (ahora : nat -> Fecha.datetime)
    nombre_bd nombre_tabla nombre_archivo columnas_sql
    (df : DataFrame flotante) (c : conexion flotante) :
  let cols := columnas_sin_ejecucion columnas_sql in
  let run := carga_por_archivo str_float suma_uno format_exc rechazo ahora nombre_bd
               nombre_tabla nombre_archivo columnas_sql df c in
  ¬ (∀ col, col ∈ df_columns df <-> col ∈ cols) ->
  ∃ aviso,
    ca_fin run = ColumnasNoCoinciden aviso
    ∧ ca_conn run = c
    ∧ ca_archivos run = []
    ∧ ∀ col, ("  - " +:+ col) ∈ aviso
             <-> ((col ∈ cols ∧ col ∉ df_columns df)
                  ∨ (col ∈ df_columns df ∧ col ∉ cols)).
Proof.
  intros cols run Hno. unfold run.
  rewrite (carga_por_archivo_abortada str_float suma_uno format_exc rechazo ahora
             nombre_bd nombre_tabla nombre_archivo columnas_sql df c Hno).
  fold cols. eexists. split; [done|]. split; [done|]. split; [done|].
  intros col. unfold aviso_columnas.
  assert (Hmap : ∀ l : list string,
             ("  - " +:+ col) ∈ map (fun c0 => "  - " +:+ c0) l <-> col ∈ l).
  { intros l. change (map ?f l) with (f <$> l). rewrite list_elem_of_fmap. split.
    - intros (y & Heq & Hy). apply append_inv_head in Heq. by subst.
    - intros Hin. by exists col. }
  assert (Hf : ("  - " +:+ col)
               ∈ (if no_vacia (columnas_faltantes cols (df_columns df))
                  then "Faltan en el archivo:"
                       :: map (fun c0 => "  - " +:+ c0)
                            (columnas_faltantes cols (df_columns df))
                  else [])
               <-> col ∈ columnas_faltantes cols (df_columns df)).
  { destruct (columnas_faltantes cols (df_columns df)) as [|x l] eqn:Hl; simpl.
    - split; intros H; by apply elem_of_nil in H.
    - rewrite elem_of_cons, <- Hmap. simpl. split; [|by right].
      intros [Heq|H]; [discriminate Heq | done]. }
  assert (Hs : ("  - " +:+ col)
               ∈ (if no_vacia (columnas_sobrantes cols (df_columns df))
                  then "No existen en la tabla:"
                       :: map (fun c0 => "  - " +:+ c0)
                            (columnas_sobrantes cols (df_columns df))
                  else [])
               <-> col ∈ columnas_sobrantes cols (df_columns df)).
  { destruct (columnas_sobrantes cols (df_columns df)) as [|x l] eqn:Hl; simpl.
    - split; intros H; by apply elem_of_nil in H.
    - rewrite elem_of_cons, <- Hmap. simpl. split; [|by right].
      intros [Heq|H]; [discriminate Heq | done]. }
  rewrite !elem_of_app, Hf, Hs, !elem_of_cons, elem_of_nil.
  unfold columnas_faltantes, columnas_sobrantes. rewrite !list_elem_of_filter.
  split.
  - intros [[Heq|[]]|[[H1 H2]|[[H1 H2]|[Heq|[]]]]].
    + unfold nl in Heq. discriminate Heq.
    + left. done.
    + right. done.
    + discriminate Heq.
  - intros [[H1 H2]|[H1 H2]]; [right; left; done | right; right; left; done].
Qed.

Lemma sufijos_distintos (p a b : string) : a ≠ b -> p +:+ a ≠ p +:+ b.
Proof. intros Hab Heq. by apply append_inv_head in Heq. Qed.

(** X14. The log files of a run have names that differ from one
    another, and no log of a manual run has the name of a log of a file
    run, whatever the tables and the times of the two runs. *)
Theorem nombres_de_logs (ahora ahora' : nat -> Fecha.datetime)
    nombre_bd nombre_tabla columnas (st : estado_manual flotante)
    nombre_bd' nombre_tabla' nombre_archivo cols (st' : estado_archivo flotante) :
  let manual := logs_manual ahora nombre_bd nombre_tabla columnas st in
  let por_archivo :=
    logs_archivo ahora' nombre_bd' nombre_tabla' nombre_archivo cols st' in
  NoDup (map nombre_de_archivo manual)
  ∧ NoDup (map nombre_de_archivo por_archivo)
  ∧ ∀ f g, f ∈ manual -> g ∈ por_archivo ->
           nombre_de_archivo f ≠ nombre_de_archivo g.
Proof.
  intros manual por_archivo. unfold manual, por_archivo, logs_manual, logs_archivo.
  set (ts := timestamp_str ahora 0). set (ts' := timestamp_str ahora' 0).
  assert (Hm : ∀ x y : string,
             x ≠ y ->
             "log_manual_" +:+ nombre_tabla +:+ "_" +:+ ts +:+ x
             ≠ "log_manual_" +:+ nombre_tabla +:+ "_" +:+ ts +:+ y).
  { intros x y Hxy. by do 4 apply sufijos_distintos. }
  assert (Ha : ∀ x y : string,
             x ≠ y ->
             "log_file_" +:+ nombre_tabla' +:+ "_" +:+ ts' +:+ x
             ≠ "log_file_" +:+ nombre_tabla' +:+ "_" +:+ ts' +:+ y).
  { intros x y Hxy. by do 4 apply sufijos_distintos. }
  split; [|split].
  - destruct (no_vacia (filas_insertadas_data st)), (no_vacia (m_errores st)); simpl;
      repeat (apply NoDup_cons; split);
      try apply NoDup_nil_2;
      rewrite ?elem_of_cons, ?elem_of_nil;
      intros H; decompose [or] H; try done;
      match goal with Heq : _ = _ |- _ => by apply Hm in Heq end.
  - destruct (no_vacia (a_errores st')); simpl;
      repeat (apply NoDup_cons; split);
      try apply NoDup_nil_2;
      rewrite ?elem_of_cons, ?elem_of_nil;
      intros H; decompose [or] H; try done;
      match goal with Heq : _ = _ |- _ => by apply Ha in Heq end.
  - intros f g Hf Hg.
    assert (Hpf : ∃ r, nombre_de_archivo f = "log_manual_" +:+ r).
    { destruct (no_vacia (filas_insertadas_data st)), (no_vacia (m_errores st));
        simpl in Hf; rewrite ?elem_of_cons, ?elem_of_nil in Hf;
        decompose [or] Hf; subst; try done; by eexists. }
    assert (Hpg : ∃ r, nombre_de_archivo g = "log_file_" +:+ r).
    { destruct (no_vacia (a_errores st'));
        simpl in Hg; rewrite ?elem_of_cons, ?elem_of_nil in Hg;
        decompose [or] Hg; subst; try done; by eexists. }
    destruct Hpf as [r ->], Hpg as [r' ->]. discriminate.
Qed.

(** X15. The names of the logs hold the time to the second: two manual
    runs on the same table whose first readings of the clock fall in the
    same second give their summaries the same name, whatever the
    fractions of the second are. *)
Theorem resumenes_del_mismo_segundo (ahora ahora' : nat -> Fecha.datetime)
    nombre_tabla nombre_bd columnas (st : estado_manual flotante)
    nombre_bd' columnas' (st' : estado_manual flotante) :
  Fecha.anio (ahora 0%nat) = Fecha.anio (ahora' 0%nat) ->
  Fecha.mes (ahora 0%nat) = Fecha.mes (ahora' 0%nat) ->
  Fecha.dia (ahora 0%nat) = Fecha.dia (ahora' 0%nat) ->
  Fecha.hora (ahora 0%nat) = Fecha.hora (ahora' 0%nat) ->
  Fecha.minuto (ahora 0%nat) = Fecha.minuto (ahora' 0%nat) ->
  Fecha.segundo (ahora 0%nat) = Fecha.segundo (ahora' 0%nat) ->
  nombre_de_archivo <$> head (logs_manual ahora nombre_bd nombre_tabla columnas st)
  = nombre_de_archivo <$> head (logs_manual ahora' nombre_bd' nombre_tabla columnas' st')
  ∧ is_Some (head (logs_manual ahora nombre_bd nombre_tabla columnas st)).
Proof.
  intros Ha Hme Hd Hh Hmi Hs. unfold logs_manual. simpl.
  unfold timestamp_str, Fecha.strftime_compacto.
  rewrite Ha, Hme, Hd, Hh, Hmi, Hs. split; [done | by eexists].
Qed.

Lemma endswith_spec (s suf : string) :
  endswith s suf = true <-> ∃ pre, s = pre +:+ suf.
Proof.
  induction s as [|c r IH]; cbn [endswith].
  - rewrite orb_false_r, String.eqb_eq. split.
    + intros <-. by exists "".
    + intros [pre H]. destruct pre; [done|]. by rewrite append_cons in H.
  - rewrite orb_true_iff, String.eqb_eq, IH. split.
    + intros [<-|[pre ->]]; [by exists "" | by exists (String c pre)].
    + intros [pre H]. destruct pre as [|x pre]; [by left|].
      rewrite append_cons in H. inversion H; subst. right. by exists pre.
Qed.

Lemma ultimo_app (a b : string) : b ≠ "" -> ultimo (a +:+ b) = ultimo b.
Proof.
  intros Hb. induction a as [|c a IH]; [done|].
  rewrite append_cons. simpl. rewrite IH.
  destruct (a +:+ b) eqn:Hab; [|done].
  destruct a; [done | by rewrite append_cons in Hab].
Qed.

Lemma sufijos_excluyentes (s suf suf' : string) :
  suf ≠ "" -> suf' ≠ "" -> ultimo suf ≠ ultimo suf' ->
  (∃ pre, s = pre +:+ suf) -> (∃ pre, s = pre +:+ suf') -> False.
Proof.
  intros Hs Hs' Hne [pre ->] [pre' Heq]. apply Hne.
  by rewrite <- (ultimo_app pre suf Hs), Heq, ultimo_app.
Qed.

(** X13. The reader of a file is chosen by the end of its name alone,
    capitals aside: the Excel reader when the lower-cased name ends in
    [.xls] or [.xlsx], the comma reader for [.csv], the tab reader for
    [.txt], the JSON reader for [.json]; and the file is refused as of no
    supported format exactly when the name ends in none of them. *)
Theorem lector_segun_sufijo (archivo : string) :
  let termina suf := ∃ pre, PyStr.lower archivo = pre +:+ suf in
  (lector_de archivo = Some LeerExcel <-> (termina ".xls" ∨ termina ".xlsx"))
  ∧ (lector_de archivo = Some LeerCsv <-> termina ".csv")
  ∧ (lector_de archivo = Some LeerTxt <-> termina ".txt")
  ∧ (lector_de archivo = Some LeerJson <-> termina ".json")
  ∧ (lector_de archivo = None
     <-> (¬ termina ".xls" ∧ ¬ termina ".xlsx" ∧ ¬ termina ".csv"
          ∧ ¬ termina ".txt" ∧ ¬ termina ".json")).
Proof.
  intros termina. unfold lector_de.
  pose proof (endswith_spec (PyStr.lower archivo) ".xls") as H1.
  pose proof (endswith_spec (PyStr.lower archivo) ".xlsx") as H2.
  pose proof (endswith_spec (PyStr.lower archivo) ".csv") as H3.
  pose proof (endswith_spec (PyStr.lower archivo) ".txt") as H4.
  pose proof (endswith_spec (PyStr.lower archivo) ".json") as H5.
  fold (termina ".xls") in H1. fold (termina ".xlsx") in H2.
  fold (termina ".csv") in H3. fold (termina ".txt") in H4.
  fold (termina ".json") in H5.
  assert (Hex : ∀ suf suf', suf ≠ "" -> suf' ≠ "" -> ultimo suf ≠ ultimo suf' ->
                            termina suf -> termina suf' -> False).
  { intros suf suf'. apply sufijos_excluyentes. }
  assert (E13 : termina ".xls" -> termina ".csv" -> False) by (by apply Hex).
  assert (E14 : termina ".xls" -> termina ".txt" -> False) by (by apply Hex).
  assert (E15 : termina ".xls" -> termina ".json" -> False) by (by apply Hex).
  assert (E23 : termina ".xlsx" -> termina ".csv" -> False) by (by apply Hex).
  assert (E24 : termina ".xlsx" -> termina ".txt" -> False) by (by apply Hex).
  assert (E25 : termina ".xlsx" -> termina ".json" -> False) by (by apply Hex).
  assert (E34 : termina ".csv" -> termina ".txt" -> False) by (by apply Hex).
  assert (E35 : termina ".csv" -> termina ".json" -> False) by (by apply Hex).
  assert (E45 : termina ".txt" -> termina ".json" -> False) by (by apply Hex).
  clear Hex. clearbody termina.
  destruct (endswith (PyStr.lower archivo) ".xls");
    destruct (endswith (PyStr.lower archivo) ".xlsx");
    destruct (endswith (PyStr.lower archivo) ".csv");
    destruct (endswith (PyStr.lower archivo) ".txt");
    destruct (endswith (PyStr.lower archivo) ".json");
    simpl; intuition (try discriminate; try done).
Qed.

End PropTexto.

(** ** The loaders, from the first question *)

Section PropCompleta.

Context {flotante : Type}.
Variable py_int : string -> option Z.
Variable py_float : string -> option (option flotante).
Variable digito_unicode : string -> option Z.
Variable str_float : flotante -> string.
Variable suma_uno : flotante -> flotante.
Variable format_exc : excepcion -> string.
Variable rechazo : conexion flotante -> string -> list (valor flotante) -> option string.
Variable ahora : nat -> Fecha.datetime.
Variable existe_bd : string -> bool.
Variable existe_tabla : string -> string -> bool.
Variable esquema_de : string -> string -> option (list (string * string)).
Variable leer : lector -> string -> string -> option (DataFrame flotante).
Variable columnas_de : string -> string -> option (list string).

Local Abbreviation dict := (gmap string (valor flotante)).

Lemma validar_base_datos_existe entradas bd r :
  validar_base_datos existe_bd entradas = Some (bd, r) ->
  existe_bd bd = true ∧ bd ∈ entradas ∧ r `suffix_of` entradas.
Proof.
  induction entradas as [|e l IH]; simpl; [done|].
  destruct (existe_bd e) eqn:He.
  - intros [= <- <-]. split; [done|]. split; [by left | by apply suffix_cons_r].
  - intros H. destruct (IH H) as (? & ? & ?).
    split; [done|]. split; [by right | by apply suffix_cons_r].
Qed.

Lemma elem_of_suffix (x : string) (l k : list string) :
  l `suffix_of` k -> x ∈ l -> x ∈ k.
Proof. intros [pre ->] Hin. apply elem_of_app. by right. Qed.

Lemma validar_tabla_existe bd entradas t r :
  validar_tabla existe_tabla bd entradas = Some (t, r) ->
  existe_tabla bd t = true ∧ t ∈ entradas ∧ r `suffix_of` entradas.
Proof.
  induction entradas as [|e l IH]; simpl; [done|].
  destruct (existe_tabla bd e) eqn:He.
  - intros [= <- <-]. split; [done|]. split; [by left | by apply suffix_cons_r].
  - intros H. destruct (IH H) as (? & ? & ?).
    split; [done|]. split; [by right | by apply suffix_cons_r].
Qed.

Lemma procesar_fila_historial nombre_tabla cols (st : estado_archivo flotante) idx
    (fila : dict) :
  ∃ nuevos,
    historial (a_conn (estado_al_salir
                         (procesar_fila str_float suma_uno format_exc rechazo
                            nombre_tabla cols st idx fila)))
    = (historial (a_conn st) ++ nuevos)%list
    ∧ Forall (evento_cumple (fun s _ => s = sentencia_archivo nombre_tabla cols))
        nuevos.
Proof.
  unfold procesar_fila, intentar_fila.
  destruct (numero_de_fila suma_uno idx) as [e0|row_num].
  { exists []. simpl. by rewrite app_nil_r. }
  destruct (recolectar str_float cols fila row_num []) as [e|valores].
  - exists []. rewrite app_nil_r.
    split; [by destruct (datos_fila str_float cols fila ∅) | constructor].
  - unfold execute.
    destruct (rechazo (a_conn st) _ valores) as [msg|].
    + eexists [_]. split; [by destruct (datos_fila str_float cols fila ∅)|].
      by repeat constructor.
    + eexists [_; _]. simpl. split; [by rewrite <- app_assoc|].
      by repeat constructor.
Qed.

Lemma bucle_archivo_historial nombre_tabla cols filas (st : estado_archivo flotante) :
  ∃ nuevos,
    historial (a_conn (estado_al_salir
                         (bucle_archivo str_float suma_uno format_exc rechazo
                            nombre_tabla cols filas st)))
    = (historial (a_conn st) ++ nuevos)%list
    ∧ Forall (evento_cumple (fun s _ => s = sentencia_archivo nombre_tabla cols))
        nuevos.
Proof.
  revert st. induction filas as [|[idx fila] filas IH]; intros st; simpl.
  - exists []. by rewrite app_nil_r.
  - destruct (procesar_fila_historial nombre_tabla cols st idx fila) as (n1 & H1 & Hf1).
    destruct (procesar_fila str_float suma_uno format_exc rechazo nombre_tabla cols st idx fila)
      as [[e st']|st1].
    + by exists n1.
    + destruct (IH st1) as (n2 & H2 & Hf2). exists (n1 ++ n2)%list.
      simpl in H1. split; [by rewrite H2, H1, app_assoc | by apply Forall_app].
Qed.

Lemma carga_por_archivo_historial nombre_bd nombre_tabla nombre_archivo columnas_sql
    (df : DataFrame flotante) (c : conexion flotante) :
  ∃ nuevos,
    historial (ca_conn (carga_por_archivo str_float suma_uno format_exc rechazo ahora
                          nombre_bd nombre_tabla nombre_archivo columnas_sql df c))
    = (historial c ++ nuevos)%list
    ∧ Forall (evento_cumple
                (fun s _ => s = sentencia_archivo nombre_tabla
                                  (columnas_sin_ejecucion columnas_sql)))
        nuevos.
Proof.
  unfold carga_por_archivo.
  destruct (no_vacia _ || no_vacia _).
  - exists []. by rewrite app_nil_r.
  - destruct (bucle_archivo_historial nombre_tabla
                (columnas_sin_ejecucion columnas_sql) (df_filas df)
                (mk_estado_archivo c 0 0 [])) as (nuevos & Hh & Hf).
    exists nuevos.
    by destruct (bucle_archivo _ _ _ _ _ _ _ _) as [[e st']|st].
Qed.

(** X16. The manual loader writes only to a table it has checked: in
    every run that gets to the rows, the database is one the server
    listed, the table is one the server listed in that database, both are
    answers of the operator, and every statement the run sends for a row
    is the [INSERT] into that table, over the columns of its schema. *)
Theorem carga_manual_tabla_validada entradas (c : conexion flotante) :
  match carga_manual_completa py_int py_float digito_unicode str_float format_exc rechazo ahora
          existe_bd existe_tabla esquema_de entradas c with
  | Some (ManualCorrida nombre_bd nombre_tabla esquema run) =>
      existe_bd nombre_bd = true
      ∧ existe_tabla nombre_bd nombre_tabla = true
      ∧ nombre_bd ∈ entradas ∧ nombre_tabla ∈ entradas
      ∧ esquema_de nombre_bd nombre_tabla = Some esquema
      ∧ ∃ nuevos,
          historial (cm_conn run) = (historial c ++ nuevos)%list
          ∧ Forall (evento_cumple
                      (fun s _ => s = sentencia_manual nombre_tabla (map fst esquema)))
              nuevos
  | Some _ => True
  | None => False
  end.
Proof.
  unfold carga_manual_completa.
  destruct (validar_base_datos existe_bd entradas) as [[bd r1]|] eqn:Hbd; [|done].
  destruct (validar_tabla existe_tabla bd r1) as [[t r2]|] eqn:Ht; [|done].
  destruct (esquema_de bd t) as [esquema|] eqn:He; [|done].
  destruct (carga_manual_efecto py_int py_float digito_unicode str_float format_exc rechazo ahora
              bd t esquema r2 c) as (run & nuevos & Hrun & Hav & _).
  rewrite Hrun.
  apply validar_base_datos_existe in Hbd as (Hbd & Hin & Hsuf1).
  apply validar_tabla_existe in Ht as (Ht & Hint & Hsuf2).
  split; [done|]. split; [done|]. split; [done|].
  split; [by apply (elem_of_suffix _ _ _ Hsuf1)|].
  split; [done|].
  destruct Hav as (Hh & _ & Hf & _).
  exists nuevos. split; [done|].
  eapply Forall_impl; [exact Hf|]. intros [s v ok|]; simpl; [|done]. by intros [-> _].
Qed.


End PropCompleta.

Section PropOrg.
Import OrgArchivos.

Lemma cortar_ultimo_punto_app p a b :
  cortar_ultimo_punto p = Some (a, b) ->
  p = a +:+ b ∧ ∃ e, b = String "." e ∧ sin_puntos e = true.
Proof.
  revert a b. induction p as [|c r IH]; intros a b; simpl; [done|].
  destruct (cortar_ultimo_punto r) as [[a' b']|] eqn:Hr.
  - intros [= <- <-]. destruct (IH _ _ eq_refl) as [-> He]. done.
  - destruct (es_punto c) eqn:Hc; [|done]. intros [= <- <-].
    split; [done|]. apply Ascii.eqb_eq in Hc as ->. exists r. split; [done|].
    clear IH. induction r as [|d r IH]; [done|]. simpl in Hr.
    destruct (cortar_ultimo_punto r) as [[a' b']|]; [done|].
    destruct (es_punto d) eqn:Hd; [done|].
    unfold sin_puntos in *. simpl. rewrite Hd. simpl. by apply IH.
Qed.

Lemma cortar_sin_puntos e : sin_puntos e = true -> cortar_ultimo_punto e = None.
Proof.
  unfold sin_puntos. induction e as [|c r IH]; simpl; [done|].
  intros [Hc Hr]%andb_true_iff. rewrite (IH Hr).
  by apply negb_true_iff in Hc as ->.
Qed.

Lemma cortar_con_extension nombre e :
  sin_puntos e = true ->
  cortar_ultimo_punto (nombre +:+ String "." e) = Some (nombre, String "." e).
Proof.
  intros He. induction nombre as [|c r IH]; simpl.
  - by rewrite (cortar_sin_puntos _ He).
  - by rewrite IH.
Qed.

Lemma splitext_con_extension nombre e :
  tiene_no_punto nombre = true -> sin_puntos e = true ->
  splitext (nombre +:+ String "." e) = (nombre, String "." e).
Proof.
  intros Hn He. unfold splitext. by rewrite (cortar_con_extension _ _ He), Hn.
Qed.

Lemma cortar_solo_puntos puntos resto :
  forallb es_punto (list_ascii_of_string puntos) = true ->
  sin_puntos resto = true ->
  match cortar_ultimo_punto (puntos +:+ resto) with
  | Some (a, _) => tiene_no_punto a = false
  | None => True
  end.
Proof.
  intros Hp Hr. induction puntos as [|c r IH].
  - change ("" +:+ resto) with resto. by rewrite (cortar_sin_puntos _ Hr).
  - change (String c r +:+ resto) with (String c (r +:+ resto)).
    cbn [cortar_ultimo_punto]. simpl in Hp. apply andb_true_iff in Hp as [Hc Hp]. specialize (IH Hp).
    destruct (cortar_ultimo_punto (r +:+ resto)) as [[a b]|].
    + unfold tiene_no_punto in *. simpl. by rewrite Hc.
    + by rewrite Hc.
Qed.

(** X18. Whatever the name of a file, [organizar_archivos] sends it to
    one of the six subfolders fotos, audio, excel, word, powerbi and
    otros: the subfolder pdf, which it creates with the others, is never
    the destination of a file. *)
Theorem carpeta_pdf_nunca_es_destino archivo :
  carpeta_destino archivo ∈ ["fotos"; "audio"; "excel"; "word"; "powerbi"; "otros"]
  ∧ carpeta_destino archivo ∈ carpetas
  ∧ carpeta_destino archivo ≠ "pdf"
  ∧ "pdf" ∈ carpetas.
Proof.
  assert (Hseis : carpeta_destino archivo
                  ∈ ["fotos"; "audio"; "excel"; "word"; "powerbi"; "otros"]).
  { unfold carpeta_destino.
    repeat (destruct (PyStr.en_lista _ _); [repeat constructor|]).
    repeat constructor. }
  split; [exact Hseis|].
  assert (Hsub : ∀ x : string,
             x ∈ ["fotos"; "audio"; "excel"; "word"; "powerbi"; "otros"] ->
             x ∈ carpetas ∧ x ≠ "pdf").
  { intros x Hx. unfold carpetas.
    repeat (apply elem_of_cons in Hx as [->|Hx];
            [split; [repeat constructor | discriminate]|]).
    by apply elem_of_nil in Hx. }
  destruct (Hsub _ Hseis) as [Hin Hne].
  split; [exact Hin|]. split; [exact Hne|]. unfold carpetas. repeat constructor.
Qed.

(** X19. A file whose name is a stem with some character other than a
    dot, followed by a dot and an extension without dots, is sent by its
    extension taken in lower case: to the subfolder of the first list
    that holds it, to otros when no list of the dispatch holds it, and
    so to otros when the extension is that of a PDF. *)
Theorem destino_por_extension nombre e :
  tiene_no_punto nombre = true ->
  sin_puntos e = true ->
  let archivo := nombre +:+ String "." e in
  let extension := PyStr.lower (String "." e) in
  splitext archivo = (nombre, String "." e)
  ∧ Forall (fun '(lista, carpeta) =>
              extension ∈ lista -> carpeta_destino archivo = carpeta) despacho
  ∧ (Forall (fun '(lista, _) => extension ∉ lista) despacho ->
     carpeta_destino archivo = "otros")
  ∧ (extension ∈ extenciones_pdf -> carpeta_destino archivo = "otros").
Proof.
  intros Hn He archivo extension.
  pose proof (splitext_con_extension nombre e Hn He) as Hs.
  split; [exact Hs|].
  assert (Hcd : carpeta_destino archivo
                = if PyStr.en_lista extension extensiones_fotos then "fotos"
                  else if PyStr.en_lista extension extensiones_audio then "audio"
                  else if PyStr.en_lista extension extensiones_excel then "excel"
                  else if PyStr.en_lista extension extensiones_word then "word"
                  else if PyStr.en_lista extension extensiones_powerbi then "powerbi"
                  else "otros").
  { unfold carpeta_destino, archivo. by rewrite Hs. }
  rewrite Hcd. clearbody extension. clear Hcd Hs.
  split; [|split].
  - unfold despacho.
    repeat (apply Forall_cons; split;
            [cbn beta iota; revert extension; apply Forall_forall; repeat constructor|]).
    constructor.
  - unfold despacho. intros Hno.
    unfold PyStr.en_lista.
    repeat (apply Forall_cons in Hno as [Hx Hno]; cbn beta iota in Hx;
            rewrite (bool_decide_eq_false_2 _ Hx); clear Hx).
    reflexivity.
  - revert extension. apply Forall_forall. repeat constructor.
Qed.

(** X20. A name without extension goes to otros: a name with no dot, and
    also a name whose only dots are its first characters, as ".jpg",
    which [os.path.splitext] takes whole as the stem. *)
Theorem sin_extension_a_otros puntos resto :
  forallb es_punto (list_ascii_of_string puntos) = true ->
  sin_puntos resto = true ->
  splitext (puntos +:+ resto) = (puntos +:+ resto, "")
  ∧ carpeta_destino (puntos +:+ resto) = "otros".
Proof.
  intros Hp Hr.
  assert (Hs : splitext (puntos +:+ resto) = (puntos +:+ resto, "")).
  { unfold splitext. pose proof (cortar_solo_puntos puntos resto Hp Hr) as Hc.
    destruct (cortar_ultimo_punto (puntos +:+ resto)) as [[a b]|]; [|done].
    by rewrite Hc. }
  split; [exact Hs|]. unfold carpeta_destino. by rewrite Hs.
Qed.

End PropOrg.

Lemma destino_por_extension_ejemplo :
  OrgArchivos.carpeta_destino "Foto de Ana.JPG" = "fotos".
Proof.
  destruct (destino_por_extension "Foto de Ana" "JPG" eq_refl eq_refl)
    as (_ & Hd & _).
  apply Forall_cons in Hd as [Hf _]. apply Hf. repeat constructor.
Defined.

Lemma sin_extension_a_otros_ejemplo :
  OrgArchivos.carpeta_destino ".jpg" = "otros".
Proof.
  exact (proj2 (sin_extension_a_otros "." "jpg" eq_refl eq_refl)).
Defined.

Example splitext_ejemplos :
  OrgArchivos.splitext "a.b.c" = ("a.b", ".c")
  ∧ OrgArchivos.splitext ".bashrc" = (".bashrc", "")
  ∧ OrgArchivos.splitext "..jpg" = ("..jpg", "")
  ∧ OrgArchivos.splitext "archivo." = ("archivo", ".")
  ∧ OrgArchivos.splitext "a..jpg" = ("a.", ".jpg")
  ∧ OrgArchivos.splitext "LEEME" = ("LEEME", "")
  ∧ OrgArchivos.carpeta_destino "informe.PDF" = "otros"
  ∧ OrgArchivos.carpeta_destino "datos.Xlsx" = "excel".
Proof. repeat split; reflexivity. Qed.

(** ** The further properties on concrete runs *)

(** X9 on the file of three rows: the first and the third are committed,
    in that order, and the second is the one record of the error log. *)
Lemma filas_en_orden_del_archivo_ejemplo :
  ∃ recorridas rs,
    length rs = length recorridas
    ∧ confirmadas (ca_conn Ejemplo.archivo_tres)
      = cargadas_segun (sentencia_archivo "T" ["id"; "name"]) ["id"; "name"]
          recorridas rs
    ∧ pendientes (ca_conn Ejemplo.archivo_tres) = [].
Proof.
  destruct (filas_en_orden_del_archivo Ejemplo.str_float Ejemplo.suma_uno
              Ejemplo.format_exc Ejemplo.rechaza_negativos Ejemplo.ahora
              "ventas" "T" "datos.csv" ["id"; "name"; "BI_EJECUCION"]
              Ejemplo.df_tres Ejemplo.conexion_nueva)
    as (recorridas & rs & _ & Hlen & Hconf & Hpend & _).
  - reflexivity.
  - apply coinciden_iff. reflexivity.
  - reflexivity.
  - exists recorridas, rs. split; [exact Hlen|]. split; [exact Hconf | exact Hpend].
Defined.

(** X10 on the file of three rows. *)
Lemma causas_de_error_ejemplo :
  ∃ st,
    ca_fin Ejemplo.archivo_tres = CargaFinalizada st
    ∧ Forall (fun r =>
                ∃ idx fila row_num e d,
                  (idx, fila) ∈ df_filas Ejemplo.df_tres
                  ∧ numero_de_fila Ejemplo.suma_uno idx = inr row_num
                  ∧ r = registro_error Ejemplo.format_exc "row" row_num e d
                  ∧ causa_de_fallo Ejemplo.str_float ["id"; "name"] fila row_num e)
        (a_errores st).
Proof.
  unshelve epose proof
    (causas_de_error Ejemplo.str_float Ejemplo.suma_uno Ejemplo.format_exc
       Ejemplo.rechaza_negativos Ejemplo.ahora
       "ventas" "T" "datos.csv" ["id"; "name"; "BI_EJECUCION"]
       Ejemplo.df_tres Ejemplo.conexion_nueva _ _) as H.
  - reflexivity.
  - apply coinciden_iff. reflexivity.
  - unfold Ejemplo.archivo_tres.
    remember (ca_fin _) as fin eqn:Hfin in H |- *.
    destruct fin as [impreso|e st|st].
    + destruct H.
    + vm_compute in Hfin. discriminate.
    + exists st. split; [reflexivity | exact (proj2 H)].
Defined.

(** X11 on a table with a column named [error]. *)
Lemma diagnostico_o_celda_ejemplo :
  ∃ st,
    ca_fin (carga_por_archivo Ejemplo.str_float Ejemplo.suma_uno Ejemplo.format_exc
              Ejemplo.rechaza_negativos Ejemplo.ahora "ventas" "T" "datos.csv"
              ["id"; "error"; "Bi_ejecucion"] EjemploOperaciones.df_con_error
              Ejemplo.conexion_nueva)
    = CargaFinalizada st
    ∧ Forall (fun r : gmap string (valor Ejemplo.flotante) =>
                ∃ idx fila row_num e,
                  (idx, fila) ∈ df_filas EjemploOperaciones.df_con_error
                  ∧ numero_de_fila Ejemplo.suma_uno idx = inr row_num
                  ∧ causa_de_fallo Ejemplo.str_float ["id"; "error"] fila row_num e
                  ∧ r !! "error"
                    = (if decide ("error" ∈ ["id"; "error"])
                       then celda_log Ejemplo.str_float <$> fila !! "error"
                       else Some (VStr (str_exc e)))
                  ∧ r !! "row"
                    = (if decide ("row" ∈ ["id"; "error"])
                       then celda_log Ejemplo.str_float <$> fila !! "row"
                       else Some row_num))
        (a_errores st).
Proof.
  destruct (diagnostico_o_celda Ejemplo.str_float Ejemplo.suma_uno Ejemplo.format_exc
              Ejemplo.rechaza_negativos Ejemplo.ahora
              "ventas" "T" "datos.csv" ["id"; "error"; "Bi_ejecucion"]
              EjemploOperaciones.df_con_error Ejemplo.conexion_nueva)
    as [Hfin _].
  - reflexivity.
  - apply coinciden_iff. reflexivity.
  - exact (Hfin eq_refl).
Defined.

(** X12 on the table made by [crear_tabla] and a file without the
    control column. *)
Lemma aviso_lista_columnas_ejemplo :
  ∃ aviso,
    ca_fin (carga_por_archivo Ejemplo.str_float Ejemplo.suma_uno Ejemplo.format_exc
              Ejemplo.rechaza_negativos Ejemplo.ahora "ventas" "clientes"
              "clientes.csv" EjemploOperaciones.columnas_clientes
              EjemploOperaciones.df_clientes Ejemplo.conexion_nueva)
    = ColumnasNoCoinciden aviso
    ∧ ("  - Bi_controlorigen") ∈ aviso
    ∧ ("  - nombre") ∈ aviso
    ∧ ("  - Nombre") ∈ aviso
    ∧ ("  - id") ∉ aviso.
Proof.
  destruct (aviso_lista_columnas Ejemplo.str_float Ejemplo.suma_uno
              Ejemplo.format_exc Ejemplo.rechaza_negativos Ejemplo.ahora
              "ventas" "clientes" "clientes.csv"
              EjemploOperaciones.columnas_clientes
              EjemploOperaciones.df_clientes Ejemplo.conexion_nueva)
    as (aviso & Hfin & _ & _ & Hlista).
  - intros H. apply coinciden_iff in H. discriminate H.
  - exists aviso. split; [exact Hfin|].
    split; [apply (Hlista "Bi_controlorigen"); left; split;
            apply (bool_decide_unpack _); by vm_compute|].
    split; [apply (Hlista "nombre"); left; split;
            apply (bool_decide_unpack _); by vm_compute|].
    split; [apply (Hlista "Nombre"); right; split;
            apply (bool_decide_unpack _); by vm_compute|].
    intros Hin. apply (Hlista "id") in Hin as [[_ Hno]|[_ Hno]]; apply Hno;
      apply (bool_decide_unpack _); by vm_compute.
Defined.

(** X15 on two runs a quarter of a second apart. *)
Lemma resumenes_del_mismo_segundo_ejemplo :
  nombre_de_archivo
    <$> head (logs_manual Ejemplo.ahora "ventas" "T" ["id"]
                (mk_estado_manual Ejemplo.conexion_nueva 1 1 0 [] []))
  = nombre_de_archivo
      <$> head (logs_manual EjemploOperaciones.ahora_despues "rrhh" "T" ["id"]
                  (mk_estado_manual Ejemplo.conexion_nueva 1 2 0 [] [])).
Proof.
  refine (proj1 (resumenes_del_mismo_segundo Ejemplo.ahora
                   EjemploOperaciones.ahora_despues "T" "ventas" ["id"]
                   (mk_estado_manual Ejemplo.conexion_nueva 1 1 0 [] [])
                   "rrhh" ["id"]
                   (mk_estado_manual Ejemplo.conexion_nueva 1 2 0 [] [])
                   _ _ _ _ _ _)); reflexivity.
Defined.

(** ** Scenarios of the rest of the program *)

(** The table [clientes]: the control column is declared last, and the
    answer after the fields is left for the menu. *)
Example crear_clientes_ejemplo :
  cc_fin EjemploOperaciones.crear_clientes
  = TablaCreada "ventas" "clientes"
      ("CREATE TABLE [clientes] (" +:+ nl
       +:+ "    [id] INT," +:+ nl
       +:+ "    [nombre] VARCHAR(50)," +:+ nl
       +:+ "    [Bi_controlorigen] VARCHAR(100)" +:+ nl
       +:+ ");")
  ∧ cc_resto EjemploOperaciones.crear_clientes = ["3"]
  ∧ confirmadas (cc_conn EjemploOperaciones.crear_clientes)
    = [(sentencia_crear "clientes"
          [("id", "INT"); ("nombre", "VARCHAR(50)"); campo_control], [])].
Proof. repeat split; reflexivity. Qed.

(** The answer "nan" to a column of a real type is taken: [float] reads
    it, and the row is sent with the missing value bound to the column. *)
Example nan_en_columna_real :
  match carga_manual Ejemplo.py_int Ejemplo.py_float Ejemplo.digito_unicode
          Ejemplo.str_float Ejemplo.format_exc Ejemplo.rechaza_negativos Ejemplo.ahora
          "ventas" "T" [("precio", "float")] ["nan"; "n"] Ejemplo.conexion_nueva with
  | Some run =>
      confirmadas (cm_conn run) = [("INSERT INTO [T] VALUES (?)", [VNa])]
  | None => False
  end.
Proof. vm_compute. reflexivity. Qed.

(** The reader follows the end of the name, capitals aside. *)
Example lector_de_ejemplos :
  lector_de "Ventas 2024.XLSX" = Some LeerExcel
  ∧ lector_de "datos.csv" = Some LeerCsv
  ∧ lector_de "datos.csv.bak" = None
  ∧ lector_de ".txt" = Some LeerTxt
  ∧ lector_de "json" = None.
Proof. repeat split; reflexivity. Qed.

(** The record of the blank row of a table with a column [error] keeps
    the cell, not the message. *)
Example registro_con_columna_error :
  match ca_fin (carga_por_archivo Ejemplo.str_float Ejemplo.suma_uno Ejemplo.format_exc
                  Ejemplo.rechaza_negativos Ejemplo.ahora "ventas" "T" "datos.csv"
                  ["id"; "error"; "Bi_ejecucion"] EjemploOperaciones.df_con_error
                  Ejemplo.conexion_nueva) with
  | CargaFinalizada st =>
      (fun r : gmap string (valor Ejemplo.flotante) => r !! "error") <$> a_errores st
      = [Some (VStr "E42")]
  | _ => False
  end.
Proof. vm_compute. reflexivity. Qed.
